(** * stab: invitation lifecycle and billing webhook reconciliation

    A shallow embedding of the event-driven core of the stab backend:
    [models/invitation.go], [models/membership.go], [models/billing.go],
    the team invitation handlers under [internal/logic/teams] and the Stripe
    webhook processor in [internal/logic/billing].

    The relational store is a record of tables, each table a list of rows.
    GORM statements are functions on tables; every statement a handler issues
    is recorded in an access log, so that "no storage access" and "no storage
    write" are statements about that log. *)

From Stdlib Require Import ZArith NArith List String Bool Lia.
Import ListNotations.

Local Open Scope string_scope.
Local Open Scope Z_scope.

(** ** Base types *)

(** [uuid.UUID]: a 128-bit identifier, kept abstract as a natural number;
    [uuid.Nil] is the all-zero identifier. *)
Definition UUID := N.
Bind Scope N_scope with UUID.
Definition uuid_Nil : UUID := 0%N.

(** [time.Time], as seconds since the Unix epoch. *)
Definition Time := Z.

(** The zero [time.Time] (January 1, year 1, 00:00 UTC). *)
Definition zeroTime : Time := -62135596800.
Definition IsZero (t : Time) : bool := t =? zeroTime.

(** [t.After(u)] *)
Definition After (t u : Time) : bool := u <? t.

(** [7 * 24 * time.Hour], in seconds. *)
Definition sevenDays : Z := 7 * 24 * 3600.

(** Go's [error] values as they are produced and inspected by the code:
    [gorm.ErrRecordNotFound] (tested with [==] / [errors.Is]),
    [errors.New(msg)] (tested through [err.Error()]),
    [echo.NewHTTPError(code, msg)], and an error reported by the database
    driver (constraint violation). *)
Inductive error : Type :=
| ErrRecordNotFound
| errors_New (msg : string)
| HTTPError (code : Z) (msg : string)
| ErrDriver (msg : string).

Definition Error (e : error) : string :=
  match e with
  | ErrRecordNotFound => "record not found"
  | errors_New m => m
  | HTTPError _ m => m
  | ErrDriver m => m
  end.

Definition is_ErrRecordNotFound (e : error) : bool :=
  match e with ErrRecordNotFound => true | _ => false end.

Definition StatusBadRequest : Z := 400.
Definition StatusUnauthorized : Z := 401.
Definition StatusForbidden : Z := 403.
Definition StatusNotFound : Z := 404.
Definition StatusConflict : Z := 409.
Definition StatusInternalServerError : Z := 500.

(** ** models *)

(** [models.Role] *)
Definition Role := string.
Definition RoleOwner : Role := "owner".
Definition RoleAdmin : Role := "admin".
Definition RoleMember : Role := "member".

(** [models.InvitationStatus] *)
Definition InvitationStatus := string.
Definition StatusPending : InvitationStatus := "pending".
Definition StatusAccepted : InvitationStatus := "accepted".
Definition StatusDeclined : InvitationStatus := "declined".
Definition StatusExpired : InvitationStatus := "expired".

(** [models.User]; only the columns the modelled code reads or writes. *)
Module User.
Record t := mk {
    ID : UUID;
    Email : string;
    UpdatedAt : Time;
    DeletedAt : option Time;
    StripeCustomerID : option string
  }.
Definition zero : t := mk uuid_Nil "" zeroTime None None.
End User.

(** [models.Invitation] (the preloaded [Team] and [Inviter] relations are
    not columns and are left out). *)
Module Invitation.
Record t := mk {
    ID : UUID;
    CreatedAt : Time;
    UpdatedAt : Time;
    DeletedAt : option Time;
    Email : string;
    TeamID : UUID;
    InviterID : UUID;
    Role : Role;
    Token : string;
    Status : InvitationStatus;
    ExpiresAt : Time
  }.
Definition zero : t :=
    mk uuid_Nil zeroTime zeroTime None "" uuid_Nil uuid_Nil "" "" "" zeroTime.
Definition set_Status (s : InvitationStatus) (i : t) : t :=
    mk (ID i) (CreatedAt i) (UpdatedAt i) (DeletedAt i) (Email i) (TeamID i)
       (InviterID i) (Role i) (Token i) s (ExpiresAt i).
Definition set_UpdatedAt (u : Time) (i : t) : t :=
    mk (ID i) (CreatedAt i) u (DeletedAt i) (Email i) (TeamID i)
       (InviterID i) (Role i) (Token i) (Status i) (ExpiresAt i).
Definition set_DeletedAt (d : option Time) (i : t) : t :=
    mk (ID i) (CreatedAt i) (UpdatedAt i) d (Email i) (TeamID i)
       (InviterID i) (Role i) (Token i) (Status i) (ExpiresAt i).
End Invitation.

(** [models.Membership] *)
Module Membership.
Record t := mk {
    ID : UUID;
    CreatedAt : Time;
    UpdatedAt : Time;
    DeletedAt : option Time;
    UserID : UUID;
    TeamID : UUID;
    Role : Role
  }.
Definition zero : t := mk uuid_Nil zeroTime zeroTime None uuid_Nil uuid_Nil "".
End Membership.

(** [models.Plan]; only the columns the modelled code reads. *)
Module Plan.
Record t := mk {
    ID : string;
    StripePriceID : string;
    StripePriceIDYearly : option string;
    DeletedAt : option Time
  }.
End Plan.

(** [models.Subscription] *)
Module Subscription.
Record t := mk {
    ID : UUID;
    UserID : UUID;
    PlanID : string;
    StripeSubscriptionID : string;
    Status : string;
    CurrentPeriodStart : Time;
    CurrentPeriodEnd : Time;
    CancelAtPeriodEnd : bool;
    CreatedAt : Time;
    UpdatedAt : Time
  }.
End Subscription.

(** ** The store *)

Record Tables := mkTables {
  users : list User.t;
  invitations : list Invitation.t;
  memberships : list Membership.t;
  plans : list Plan.t;
  subscriptions : list Subscription.t
}.

Definition emptyTables : Tables := mkTables [] [] [] [] [].

Definition set_users (x : list User.t) (t : Tables) : Tables :=
  mkTables x (invitations t) (memberships t) (plans t) (subscriptions t).
Definition set_invitations (x : list Invitation.t) (t : Tables) : Tables :=
  mkTables (users t) x (memberships t) (plans t) (subscriptions t).
Definition set_memberships (x : list Membership.t) (t : Tables) : Tables :=
  mkTables (users t) (invitations t) x (plans t) (subscriptions t).
Definition set_subscriptions (x : list Subscription.t) (t : Tables) : Tables :=
  mkTables (users t) (invitations t) (memberships t) (plans t) x.

(** One entry per statement sent to the database. *)
Inductive Access : Type :=
| Select (table : string)
| Insert (table : string)
| Update (table : string) (rowsAffected : nat)
| Begin
| Commit
| Rollback.

Definition is_write (a : Access) : bool :=
  match a with
  | Insert _ | Update _ _ => true
  | _ => false
  end.

(** The tables together with the log of accesses, most recent first. *)
Record World := mkWorld {
  tables : Tables;
  log : list Access
}.

Definition is_None {A} (o : option A) : bool :=
  match o with None => true | Some _ => false end.

(** ** Statements thread the world *)

Definition M (A : Type) : Type := World -> A * World.

Definition ret {A} (a : A) : M A := fun w => (a, w).

Definition bind {A B} (m : M A) (k : A -> M B) : M B :=
  fun w => let (a, w') := m w in k a w'.

Declare Scope db_scope.
Delimit Scope db_scope with db.
Notation "x <- m ;; k" := (bind m (fun x => k))
  (at level 61, m at next level, right associativity) : db_scope.
Notation "m ;;; k" := (bind m (fun _ => k))
  (at level 61, right associativity) : db_scope.
Local Open Scope db_scope.

Definition trace (a : Access) : M unit :=
  fun w => (tt, mkWorld (tables w) (a :: log w)).

Definition query {A} (table : string) (f : Tables -> A) : M A :=
  fun w => (f (tables w), mkWorld (tables w) (Select table :: log w)).

Definition modify (f : Tables -> Tables) : M unit :=
  fun w => (tt, mkWorld (f (tables w)) (log w)).

(** Effects of other transactions that commit while the caller is running:
    they become visible to the caller's next statement (read committed). *)
Definition Interference := Tables -> Tables.
Definition quiet : Interference := fun t => t.


Definition interfere (others : Interference) : M unit := modify others.

(** [db.Transaction(func(tx) error {...})]: the body's writes are kept when
    it returns [nil], and undone when it returns an error or panics; what the
    other transactions committed meanwhile stays. [failed] tells which
    results of the body roll the transaction back. *)
Definition TransactionBy {R} (failed : R -> bool) (others : Interference)
    (body : M R) : M R :=
  fun w =>
    let (r, w') := body (mkWorld (tables w) (Begin :: log w)) in
    if failed r
    then (r, mkWorld (others (tables w)) (Rollback :: log w'))
    else (r, mkWorld (tables w') (Commit :: log w')).

(** A body that hands back the values of the captured variables together
    with its error, [None] for [nil]. *)
Definition Transaction {A} (others : Interference)
    (body : M (A * option error)) : M (A * option error) :=
  TransactionBy (fun r => negb (is_None (snd r))) others body.

(** ** GORM statements on a table *)

Section Rows.
Context {A : Type}.

(** [.First(&dest)] with conditions [cond]: the matching row with the
    least primary key ([ORDER BY id LIMIT 1]); [None] is
    [gorm.ErrRecordNotFound]. At equal keys the earlier row wins. *)
Fixpoint First (key_ltb : A -> A -> bool) (cond : A -> bool)
    (rows : list A) : option A :=
  match rows with
  | [] => None
  | r :: rest =>
      match First key_ltb cond rest with
      | None => if cond r then Some r else None
      | Some r' =>
          if cond r && negb (key_ltb r' r) then Some r else Some r'
      end
  end.

(** [UPDATE ... SET ... WHERE cond]: the new rows. *)
Definition UpdateWhere (cond : A -> bool) (f : A -> A)
    (rows : list A) : list A :=
  map (fun r => if cond r then f r else r) rows.

(** [RowsAffected] of that statement. *)
Definition RowsAffected (cond : A -> bool) (rows : list A) : nat :=
  List.length (filter cond rows).
End Rows.

Definition opt_string_eqb (o : option string) (s : string) : bool :=
  match o with Some x => String.eqb x s | None => false end.


(** A statement that may change the tables; it reports what it did. *)
Definition statement {A} (f : Tables -> Access * A * Tables) : M A :=
  fun w =>
    let '(a, r, t') := f (tables w) in (r, mkWorld t' (a :: log w)).

(** Rows of soft-deletable models are visible while [deleted_at IS NULL]. *)
Definition user_live (u : User.t) : bool := is_None (User.DeletedAt u).
Definition inv_live (i : Invitation.t) : bool := is_None (Invitation.DeletedAt i).
Definition mem_live (m : Membership.t) : bool := is_None (Membership.DeletedAt m).
Definition plan_live (p : Plan.t) : bool := is_None (Plan.DeletedAt p).

Definition user_ltb (a b : User.t) : bool := (User.ID a <? User.ID b)%N.
Definition inv_ltb (a b : Invitation.t) : bool :=
  (Invitation.ID a <? Invitation.ID b)%N.
Definition mem_ltb (a b : Membership.t) : bool :=
  (Membership.ID a <? Membership.ID b)%N.
Definition plan_ltb (a b : Plan.t) : bool := String.ltb (Plan.ID a) (Plan.ID b).
Definition sub_ltb (a b : Subscription.t) : bool :=
  (Subscription.ID a <? Subscription.ID b)%N.

(** ** models/membership.go *)

Definition valid_membership_role (r : Role) : bool :=
  String.eqb r RoleOwner || String.eqb r RoleAdmin || String.eqb r RoleMember.

(** [Membership.BeforeCreate]; [newID] is what [uuid.New()] returns. *)
Definition Membership_BeforeCreate (newID : UUID) (m : Membership.t)
    : Membership.t * option error :=
  let m1 :=
    if (Membership.ID m =? uuid_Nil)%N
    then Membership.mk newID (Membership.CreatedAt m) (Membership.UpdatedAt m)
           (Membership.DeletedAt m) (Membership.UserID m)
           (Membership.TeamID m) (Membership.Role m)
    else m in
  if valid_membership_role (Membership.Role m1)
  then (m1, None)
  else (m1, Some (errors_New "invalid membership role")).

Definition mem_by_user_team (userID teamID : UUID) (m : Membership.t) : bool :=
  mem_live m && (Membership.UserID m =? userID)%N
             && (Membership.TeamID m =? teamID)%N.

(** The primary key and the unique index [idx_user_team]; both range over
    all rows, soft-deleted ones included. *)
Definition membership_conflicts (row r : Membership.t) : bool :=
  (Membership.ID r =? Membership.ID row)%N
  || ((Membership.UserID r =? Membership.UserID row)%N
      && (Membership.TeamID r =? Membership.TeamID row)%N).

(** [tx.Create(&membership)]: the hook, then the [INSERT]. *)
Definition Create_membership (now : Time) (newID : UUID) (m : Membership.t)
    : M (Membership.t * option error) :=
  match Membership_BeforeCreate newID m with
  | (m1, Some e) => ret (m1, Some e)
  | (m1, None) =>
      let row :=
        Membership.mk (Membership.ID m1)
          (if IsZero (Membership.CreatedAt m1) then now else Membership.CreatedAt m1)
          (if IsZero (Membership.UpdatedAt m1) then now else Membership.UpdatedAt m1)
          (Membership.DeletedAt m1) (Membership.UserID m1)
          (Membership.TeamID m1) (Membership.Role m1) in
      statement (fun t =>
        if existsb (membership_conflicts row) (memberships t)
        then (Insert "memberships",
              (m1, Some (ErrDriver "duplicate key value violates unique constraint")),
              t)
        else (Insert "memberships", (row, None),
              set_memberships (memberships t ++ [row]) t))
  end.

(** [tx.Where("user_id = ? AND team_id = ?", u, t).FirstOrCreate(&membership)]:
    the found row is returned as it is stored; only when none is found is
    [membership] inserted. *)
Definition FirstOrCreate_membership (now : Time) (newID : UUID)
    (userID teamID : UUID) (membership : Membership.t)
    : M (Membership.t * option error) :=
  found <- query "memberships"
             (fun t => First mem_ltb (mem_by_user_team userID teamID)
                         (memberships t)) ;;
  match found with
  | Some m => ret (m, None)
  | None => Create_membership now newID membership
  end.

(** [FindMembershipByUserAndTeam] *)
Definition FindMembershipByUserAndTeam (userID teamID : UUID)
    : M (option Membership.t * option error) :=
  result <- query "memberships"
              (fun t => First mem_ltb (mem_by_user_team userID teamID)
                          (memberships t)) ;;
  match result with
  | None => ret (None, Some ErrRecordNotFound)
  | Some membership => ret (Some membership, None)
  end.

(** ** models/user.go *)

Definition user_by_id (userID : UUID) (u : User.t) : bool :=
  user_live u && (User.ID u =? userID)%N.

Definition user_by_email (email : string) (u : User.t) : bool :=
  user_live u && String.eqb (User.Email u) email.

(** [FindUserByEmail] *)
Definition FindUserByEmail (email : string) : M (option User.t * option error) :=
  result <- query "users"
              (fun t => First user_ltb (user_by_email email) (users t)) ;;
  match result with
  | None => ret (None, Some ErrRecordNotFound)
  | Some user => ret (Some user, None)
  end.

(** ** models/invitation.go *)

(** [Invitation.BeforeCreate]. [newID] is what [uuid.New()] returns and
    [newToken] what [GenerateInvitationToken] returns ([inr] when
    [rand.Read] fails). *)
Definition Invitation_BeforeCreate (now : Time) (newID : UUID)
    (newToken : string + error) (inv : Invitation.t)
    : Invitation.t * option error :=
  let id := if (Invitation.ID inv =? uuid_Nil)%N then newID else Invitation.ID inv in
  let withTok (tok : string) :=
    let expires :=
      if IsZero (Invitation.ExpiresAt inv) then now + sevenDays
      else Invitation.ExpiresAt inv in
    let status :=
      if String.eqb (Invitation.Status inv) "" then StatusPending
      else Invitation.Status inv in
    let inv1 :=
      Invitation.mk id (Invitation.CreatedAt inv) (Invitation.UpdatedAt inv)
        (Invitation.DeletedAt inv) (Invitation.Email inv) (Invitation.TeamID inv)
        (Invitation.InviterID inv) (Invitation.Role inv) tok status expires in
    if String.eqb (Invitation.Role inv) RoleOwner
    then (inv1, Some (errors_New "cannot invite user as owner"))
    else if String.eqb (Invitation.Role inv) RoleAdmin
            || String.eqb (Invitation.Role inv) RoleMember
    then (inv1, None)
    else (inv1, Some (errors_New "invalid role for invitation")) in
  if String.eqb (Invitation.Token inv) ""
  then match newToken with
       | inr e =>
           (Invitation.mk id (Invitation.CreatedAt inv) (Invitation.UpdatedAt inv)
              (Invitation.DeletedAt inv) (Invitation.Email inv)
              (Invitation.TeamID inv) (Invitation.InviterID inv)
              (Invitation.Role inv) (Invitation.Token inv)
              (Invitation.Status inv) (Invitation.ExpiresAt inv),
            Some e)
       | inl tok => withTok tok
       end
  else withTok (Invitation.Token inv).

(** The primary key and the unique index on [token]. *)
Definition invitation_conflicts (row r : Invitation.t) : bool :=
  (Invitation.ID r =? Invitation.ID row)%N
  || String.eqb (Invitation.Token r) (Invitation.Token row).

(** [CreateInvitation]: [db.Create(invitation)], hook first. *)
Definition CreateInvitation (now : Time) (newID : UUID)
    (newToken : string + error) (invitation : Invitation.t)
    : M (Invitation.t * option error) :=
  match Invitation_BeforeCreate now newID newToken invitation with
  | (inv1, Some e) => ret (inv1, Some e)
  | (inv1, None) =>
      let row :=
        Invitation.mk (Invitation.ID inv1)
          (if IsZero (Invitation.CreatedAt inv1) then now else Invitation.CreatedAt inv1)
          (if IsZero (Invitation.UpdatedAt inv1) then now else Invitation.UpdatedAt inv1)
          (Invitation.DeletedAt inv1) (Invitation.Email inv1)
          (Invitation.TeamID inv1) (Invitation.InviterID inv1)
          (Invitation.Role inv1) (Invitation.Token inv1)
          (Invitation.Status inv1) (Invitation.ExpiresAt inv1) in
      statement (fun t =>
        if existsb (invitation_conflicts row) (invitations t)
        then (Insert "invitations",
              (inv1, Some (ErrDriver "duplicate key value violates unique constraint")),
              t)
        else (Insert "invitations", (row, None),
              set_invitations (invitations t ++ [row]) t))
  end.

Definition inv_by_token (token : string) (i : Invitation.t) : bool :=
  inv_live i && String.eqb (Invitation.Token i) token.

Definition inv_by_id (id : UUID) (i : Invitation.t) : bool :=
  inv_live i && (Invitation.ID i =? id)%N.

Definition inv_by_id_team (id teamID : UUID) (i : Invitation.t) : bool :=
  inv_live i && (Invitation.ID i =? id)%N && (Invitation.TeamID i =? teamID)%N.

Definition inv_pending_by_team_email (teamID : UUID) (email : string)
    (i : Invitation.t) : bool :=
  inv_live i && (Invitation.TeamID i =? teamID)%N
             && String.eqb (Invitation.Email i) email
             && String.eqb (Invitation.Status i) StatusPending.

(** [FindInvitationByTokenWithTeam]; the [Preload("Team")] is a second
    query, issued when the invitation was found. *)
Definition FindInvitationByTokenWithTeam (token : string)
    : M (option Invitation.t * option error) :=
  result <- query "invitations"
              (fun t => First inv_ltb (inv_by_token token) (invitations t)) ;;
  match result with
  | None => ret (None, Some ErrRecordNotFound)
  | Some invitation =>
      trace (Select "teams") ;;; ret (Some invitation, None)
  end.

(** [FindPendingInvitationByTeamAndEmail] *)
Definition FindPendingInvitationByTeamAndEmail (teamID : UUID) (email : string)
    : M (option Invitation.t * option error) :=
  result <- query "invitations"
              (fun t => First inv_ltb (inv_pending_by_team_email teamID email)
                          (invitations t)) ;;
  match result with
  | None => ret (None, Some ErrRecordNotFound)
  | Some invitation => ret (Some invitation, None)
  end.

(** [FindInvitationByIDAndTeam] *)
Definition FindInvitationByIDAndTeam (invitationID teamID : UUID)
    : M (option Invitation.t * option error) :=
  result <- query "invitations"
              (fun t => First inv_ltb (inv_by_id_team invitationID teamID)
                          (invitations t)) ;;
  match result with
  | None => ret (None, Some ErrRecordNotFound)
  | Some invitation => ret (Some invitation, None)
  end.

(** The guard of the conditional transition:
    [WHERE status = 'pending' AND id = ? AND deleted_at IS NULL]. *)
Definition inv_guard (id : UUID) (i : Invitation.t) : bool :=
  inv_live i && (Invitation.ID i =? id)%N
             && String.eqb (Invitation.Status i) StatusPending.

(** [db.Model(&invitation).Where("status = ?", StatusPending).Update("status", s)]:
    returns [RowsAffected]. *)
Definition UpdateStatusIfPending (now : Time) (id : UUID)
    (newStatus : InvitationStatus) : M nat :=
  statement (fun t =>
    let n := RowsAffected (inv_guard id) (invitations t) in
    (Update "invitations" n, n,
     set_invitations
       (UpdateWhere (inv_guard id)
          (fun r => Invitation.set_UpdatedAt now (Invitation.set_Status newStatus r))
          (invitations t)) t)).

(** What GORM leaves in the Go value handed to [Model(&invitation)]: the
    assigned column and [UpdatedAt] are written into it when the statement
    is built, whatever the number of rows affected. *)
Definition assigned (now : Time) (newStatus : InvitationStatus)
    (invitation : Invitation.t) : Invitation.t :=
  Invitation.set_UpdatedAt now (Invitation.set_Status newStatus invitation).

(** [db.Where(...).First(&invitation)] into a value whose primary key is
    already set: GORM adds [id = invitation.ID] to the conditions, and leaves
    the value as it is when no row is found. *)
Definition Refetch (table_cond : Invitation.t -> bool) (invitation : Invitation.t)
    : M Invitation.t :=
  result <- query "invitations"
              (fun t => First inv_ltb
                          (fun r => table_cond r
                                    && (Invitation.ID r =? Invitation.ID invitation)%N)
                          (invitations t)) ;;
  match result with
  | None => ret invitation
  | Some current => ret current
  end.

(** [AcceptInvitation], the body of the transaction. The captured variables
    [invitation] and [membership] are returned with the error. [others] is
    what other callers committed between the status check of step 2 and the
    guarded write of step 6. *)
Definition AcceptInvitation_tx (others : Interference) (now : Time)
    (newID : UUID) (userID : UUID) (token : string)
    : M ((Invitation.t * Membership.t) * option error) :=
  (* 1. Find the invitation by token *)
  invResult <- query "invitations"
                 (fun t => First inv_ltb (inv_by_token token) (invitations t)) ;;
  match invResult with
  | None => ret ((Invitation.zero, Membership.zero), Some ErrRecordNotFound)
  | Some invitation =>
      (* 2. Check invitation status *)
      if negb (String.eqb (Invitation.Status invitation) StatusPending)
      then ret ((invitation, Membership.zero),
                Some (errors_New "invitation is no longer pending"))
      (* 3. Check expiry *)
      else if After now (Invitation.ExpiresAt invitation)
      then ret ((invitation, Membership.zero),
                Some (errors_New "invitation has expired"))
      else
        (* 4. The accepting user must be the invited one *)
        userResult <- query "users"
                        (fun t => First user_ltb (user_by_id userID) (users t)) ;;
        match userResult with
        | None => ret ((invitation, Membership.zero),
                       Some (errors_New "failed to find accepting user"))
        | Some user =>
            if negb (String.eqb (User.Email user) (Invitation.Email invitation))
            then ret ((invitation, Membership.zero),
                      Some (errors_New
                        "authenticated user email does not match invited email"))
            else
              (* 5. Create or find the Membership record *)
              let membership :=
                Membership.mk uuid_Nil zeroTime zeroTime None userID
                  (Invitation.TeamID invitation) (Invitation.Role invitation) in
              memResult <- FirstOrCreate_membership now newID userID
                             (Invitation.TeamID invitation) membership ;;
              match memResult with
              | (membership1, Some e) => ret ((invitation, membership1), Some e)
              | (membership1, None) =>
                  (* 6. Update the status to accepted, if still pending *)
                  interfere others ;;;
                  n <- UpdateStatusIfPending now (Invitation.ID invitation)
                         StatusAccepted ;;
                  let invitation1 := assigned now StatusAccepted invitation in
                  if (n =? 0)%nat
                  then
                    invitation2 <- Refetch (inv_by_token token) invitation1 ;;
                    ret ((invitation2, membership1),
                         Some (errors_New
                           "failed to update invitation status, it might have been accepted or declined already"))
                  else
                    ret ((Invitation.set_Status StatusAccepted invitation1,
                          membership1), None)
              end
        end
  end.

(** [AcceptInvitation]: [(nil, &invitation, err)] on error,
    [(&membership, &invitation, nil)] otherwise. *)
Definition AcceptInvitation (others : Interference) (now : Time)
    (newID : UUID) (userID : UUID) (token : string)
    : M (option Membership.t * Invitation.t * option error) :=
  r <- Transaction others (AcceptInvitation_tx others now newID userID token) ;;
  match r with
  | ((invitation, _), Some err) => ret (None, invitation, Some err)
  | ((invitation, membership), None) => ret (Some membership, invitation, None)
  end.

(** [db.Delete(&invitation)]: a soft delete,
    [UPDATE invitations SET deleted_at = now WHERE id = ? AND deleted_at IS NULL]. *)
Definition SoftDelete_invitation (now : Time) (id : UUID) : M nat :=
  statement (fun t =>
    let n := RowsAffected (inv_by_id id) (invitations t) in
    (Update "invitations" n, n,
     set_invitations
       (UpdateWhere (inv_by_id id) (Invitation.set_DeletedAt (Some now))
          (invitations t)) t)).

(** [DeleteInvitation] *)
Definition DeleteInvitation (now : Time) (invitationID : UUID) : M (option error) :=
  findResult <- query "invitations"
                  (fun t => First inv_ltb (inv_by_id invitationID) (invitations t)) ;;
  match findResult with
  | None => ret (Some ErrRecordNotFound)
  | Some invitation =>
      n <- SoftDelete_invitation now (Invitation.ID invitation) ;;
      if (n =? 0)%nat then ret (Some ErrRecordNotFound) else ret None
  end.

(** [UpdateInvitationStatus]; [others] is what other callers committed
    between the find and the guarded update (the function runs outside any
    transaction). *)
Definition UpdateInvitationStatus (others : Interference) (now : Time)
    (invitationID : UUID) (newStatus : InvitationStatus)
    : M (option Invitation.t * option error) :=
  findResult <- query "invitations"
                  (fun t => First inv_ltb (inv_by_id invitationID) (invitations t)) ;;
  match findResult with
  | None => ret (None, Some ErrRecordNotFound)
  | Some invitation =>
      (* Already the target status *)
      if String.eqb (Invitation.Status invitation) newStatus
      then ret (Some invitation, None)
      (* Only from pending *)
      else if negb (String.eqb (Invitation.Status invitation) StatusPending)
      then ret (Some invitation, Some (errors_New "invitation is no longer pending"))
      else
        interfere others ;;;
        n <- UpdateStatusIfPending now (Invitation.ID invitation) newStatus ;;
        let invitation1 := assigned now newStatus invitation in
        if (n =? 0)%nat
        then
          invitation2 <- Refetch (inv_by_id invitationID) invitation1 ;;
          ret (Some invitation2,
               Some (errors_New "invitation status changed unexpectedly"))
        else ret (Some (Invitation.set_Status newStatus invitation1), None)
  end.

(** ** External collaborators *)

(** [stripe-go] values, with the fields the webhook processor touches.
    Pointer fields are options: [None] is the nil pointer. *)
Module StripeCustomer.
Record t := mk { ID : string }.
End StripeCustomer.

Module StripePrice.
Record t := mk { ID : string }.
End StripePrice.

Module StripeSubscriptionItem.
Record t := mk { Price : option StripePrice.t }.
End StripeSubscriptionItem.

Module StripeSubscription.
Record t := mk {
  ID : string;
  Status : string;
  Items : option (list (option StripeSubscriptionItem.t));
  CurrentPeriodStart : Z;
  CurrentPeriodEnd : Z;
  CancelAtPeriodEnd : bool
}.
End StripeSubscription.

Module StripeCheckoutSession.
Record t := mk {
  ClientReferenceID : string;
  Customer : option StripeCustomer.t;
  Subscription : option StripeSubscription.t
}.
End StripeCheckoutSession.

Module StripeInvoice.
Record t := mk {
  ID : string;
  Status : string;
  Subscription : option StripeSubscription.t
}.
End StripeInvoice.

Module StripeEvent.
Record t := mk {
  ID : string;
  Type_ : string;
  Data_Raw : string
}.
End StripeEvent.

Definition InvoiceStatusPaid : string := "paid".
Definition SubscriptionStatusActive : string := "active".
Definition SubscriptionStatusPastDue : string := "past_due".

(** Library calls whose results the code only inspects: [uuid.Parse],
    [webhook.ConstructEvent(payload, header, secret)], [json.Unmarshal] into
    each Stripe type, and the remote [subscription.Get]. [None] and [inr]
    are the error results. *)
Record External := mkExternal {
  uuid_Parse : string -> option UUID;
  webhook_ConstructEvent : string -> string -> string -> StripeEvent.t + string;
  Unmarshal_CheckoutSession : string -> option StripeCheckoutSession.t;
  Unmarshal_Subscription : string -> option StripeSubscription.t;
  Unmarshal_Invoice : string -> option StripeInvoice.t;
  subscription_Get : string -> StripeSubscription.t + string
}.

(** [c.Get(middleware.ContextUserKey)]: absent, a value of another type, or
    a [*models.User] (possibly nil). *)
Inductive ContextValue : Type :=
| ctx_nil
| ctx_other
| ctx_User (u : option User.t).

(** A Go call either returns or panics. *)
Inductive Go (A : Type) : Type :=
| Returns (a : A)
| Panics (msg : string).
Arguments Returns {A} a.
Arguments Panics {A} msg.

Definition nil_dereference : string :=
  "runtime error: invalid memory address or nil pointer dereference".

(** ** types *)

(** [types.Invitation]; the team id and the expiry are rendered with
    [String()] and [Format(time.RFC3339)] in the source and kept as values
    here. *)
Module types_Invitation.
Record t := mk {
  Email : string;
  TeamID : UUID;
  Role : string;
  Token : string;
  Status : string;
  ExpiresAt : Time
}.
Definition zero : t := mk "" uuid_Nil "" "" "" zeroTime.
End types_Invitation.

Module types_InvitationResponse.
Record t := mk {
  Success : bool;
  Message : string;
  Invitation : types_Invitation.t
}.
End types_InvitationResponse.

Module types_Response.
Record t := mk {
  Success : bool;
  Message : string
}.
End types_Response.

Definition respInvitation (i : Invitation.t) : types_Invitation.t :=
  types_Invitation.mk (Invitation.Email i) (Invitation.TeamID i)
    (Invitation.Role i) (Invitation.Token i) (Invitation.Status i)
    (Invitation.ExpiresAt i).

(** ** internal/logic/teams *)

(** [PostAcceptInvitation], the answer built from what [AcceptInvitation]
    returned. [finalInvitation] is [&invitation], never nil. *)
Definition acceptAnswer (finalInvitation : Invitation.t) (err : option error)
    : types_InvitationResponse.t + error :=
  let success :=
    inl (types_InvitationResponse.mk true "Invitation accepted successfully"
           (respInvitation finalInvitation)) in
  match err with
  | None => success
  | Some e =>
      if is_ErrRecordNotFound e
      then inr (HTTPError StatusNotFound "Invitation not found or invalid")
      else if String.eqb (Error e) "invitation is no longer pending"
      then inr (HTTPError StatusBadRequest "This invitation is no longer pending")
      else if String.eqb (Error e) "invitation has expired"
      then inr (HTTPError StatusBadRequest "This invitation has expired")
      else if String.eqb (Error e)
                "authenticated user email does not match invited email"
      then inr (HTTPError StatusForbidden
                  "This invitation is not addressed to your email")
      else if String.eqb (Error e)
                "failed to update invitation status, it might have been accepted or declined already"
      then
        (* Treated as success; the response is built from finalInvitation. *)
        success
      else inr (HTTPError StatusInternalServerError "Failed to accept invitation")
  end.

(** [PostAcceptInvitation] *)
Definition PostAcceptInvitation (others : Interference) (now : Time)
    (newID : UUID) (c : ContextValue) (token : string)
    : M (types_InvitationResponse.t + error) :=
  if String.eqb token ""
  then ret (inr (HTTPError StatusBadRequest "Invitation token is required"))
  else
    match c with
    | ctx_nil => ret (inr (HTTPError StatusUnauthorized "User not authenticated"))
    | ctx_other | ctx_User None =>
        ret (inr (HTTPError StatusInternalServerError "Error retrieving user data"))
    | ctx_User (Some acceptingUser) =>
        r <- AcceptInvitation others now newID (User.ID acceptingUser) token ;;
        let '(_, finalInvitation, err) := r in
        ret (acceptAnswer finalInvitation err)
    end.

(** [PostDeclineInvitation], the answer built from what
    [UpdateInvitationStatus] returned. *)
Definition declineAnswer (r : option Invitation.t * option error)
    : types_InvitationResponse.t + error :=
  match r with
  | (Some updatedInvitation, None) =>
      inl (types_InvitationResponse.mk true "Invitation declined successfully"
             (respInvitation updatedInvitation))
  | (_, Some e) =>
      if String.eqb (Error e) "invitation is no longer pending"
      then inr (HTTPError StatusConflict
                  "Invitation was already accepted or cancelled")
      else if String.eqb (Error e) "invitation status changed unexpectedly"
      then inr (HTTPError StatusConflict "Invitation status changed unexpectedly")
      else inr (HTTPError StatusInternalServerError
                  "Failed to update invitation status")
  | (None, None) =>
      (* not produced by UpdateInvitationStatus *)
      inr (HTTPError StatusInternalServerError "Failed to update invitation status")
  end.

(** [PostDeclineInvitation] *)
Definition PostDeclineInvitation (others : Interference) (now : Time)
    (c : ContextValue) (token : string)
    : M (types_InvitationResponse.t + error) :=
  if String.eqb token ""
  then ret (inr (HTTPError StatusBadRequest "Invitation token is required"))
  else
    match c with
    | ctx_nil => ret (inr (HTTPError StatusUnauthorized "User not authenticated"))
    | ctx_other | ctx_User None =>
        ret (inr (HTTPError StatusInternalServerError "Error retrieving user data"))
    | ctx_User (Some decliningUser) =>
        found <- FindInvitationByTokenWithTeam token ;;
        match found with
        | (Some invitation, None) =>
            if negb (String.eqb (Invitation.Status invitation) StatusPending)
            then ret (inr (HTTPError StatusBadRequest
                             "This invitation is no longer pending"))
            else if After now (Invitation.ExpiresAt invitation)
            then ret (inr (HTTPError StatusBadRequest "This invitation has expired"))
            else if negb (String.eqb (Invitation.Email invitation)
                            (User.Email decliningUser))
            then ret (inr (HTTPError StatusForbidden
                             "This invitation is not addressed to your email"))
            else
              r <- UpdateInvitationStatus others now (Invitation.ID invitation)
                     StatusDeclined ;;
              ret (declineAnswer r)
        | (_, Some e) =>
            if is_ErrRecordNotFound e
            then ret (inr (HTTPError StatusNotFound "Invitation not found or invalid"))
            else ret (inr (HTTPError StatusInternalServerError
                             "Failed to retrieve invitation"))
        | (None, None) =>
            ret (inr (HTTPError StatusInternalServerError
                        "Failed to retrieve invitation"))
        end
    end.

Definition isAdminOrOwner (r : Role) : bool :=
  String.eqb r RoleOwner || String.eqb r RoleAdmin.

(** [DeleteCancelInvitation]; the request carries the team id and the
    invitation id as strings. *)
Definition DeleteCancelInvitation (ext : External) (now : Time)
    (c : ContextValue) (reqTeamID reqInvitationID : string)
    : M (types_InvitationResponse.t + error) :=
  match c with
  | ctx_nil => ret (inr (HTTPError StatusUnauthorized "User not authenticated"))
  | ctx_other | ctx_User None =>
      ret (inr (HTTPError StatusInternalServerError "Error retrieving user data"))
  | ctx_User (Some authedUser) =>
      match uuid_Parse ext reqTeamID with
      | None => ret (inr (HTTPError StatusBadRequest "Invalid team ID format"))
      | Some teamUUID =>
          match uuid_Parse ext reqInvitationID with
          | None => ret (inr (HTTPError StatusBadRequest "Invalid invitation ID format"))
          | Some invitationUUID =>
              mres <- FindMembershipByUserAndTeam (User.ID authedUser) teamUUID ;;
              match mres with
              | (Some requestingMembership, None) =>
                  if negb (isAdminOrOwner (Membership.Role requestingMembership))
                  then ret (inr (HTTPError StatusForbidden
                        "You do not have permission to cancel invitations for this team"))
                  else
                    ires <- FindInvitationByIDAndTeam invitationUUID teamUUID ;;
                    match ires with
                    | (Some invitation, None) =>
                        if negb (String.eqb (Invitation.Status invitation) StatusPending)
                        then ret (inr (HTTPError StatusConflict
                              "This invitation is no longer pending and cannot be cancelled"))
                        else
                          err <- DeleteInvitation now (Invitation.ID invitation) ;;
                          match err with
                          | None =>
                              ret (inl (types_InvitationResponse.mk true
                                          "Invitation cancelled successfully"
                                          types_Invitation.zero))
                          | Some e =>
                              if is_ErrRecordNotFound e
                              then ret (inr (HTTPError StatusNotFound
                                    "Invitation not found (or already cancelled)"))
                              else ret (inr (HTTPError StatusInternalServerError
                                    "Failed to cancel invitation"))
                          end
                    | (_, Some e) =>
                        if is_ErrRecordNotFound e
                        then ret (inr (HTTPError StatusNotFound
                                         "Invitation not found in this team"))
                        else ret (inr (HTTPError StatusInternalServerError
                                         "Failed to find invitation"))
                    | (None, None) =>
                        ret (inr (HTTPError StatusInternalServerError
                                    "Failed to find invitation"))
                    end
              | (_, Some e) =>
                  if is_ErrRecordNotFound e
                  then ret (inr (HTTPError StatusForbidden
                        "You do not have permission to access this team"))
                  else ret (inr (HTTPError StatusInternalServerError
                        "Failed to verify team membership"))
              | (None, None) =>
                  ret (inr (HTTPError StatusInternalServerError
                              "Failed to verify team membership"))
              end
          end
      end
  end.

(** [PostInviteMember]; the request carries the team id, the invited email
    and the offered role. *)
Definition PostInviteMember (ext : External) (now : Time) (newID : UUID)
    (newToken : string + error) (c : ContextValue)
    (reqTeamID reqEmail reqRole : string)
    : M (types_InvitationResponse.t + error) :=
  match c with
  | ctx_nil => ret (inr (HTTPError StatusUnauthorized "User not authenticated"))
  | ctx_other | ctx_User None =>
      ret (inr (HTTPError StatusInternalServerError "Error retrieving user data"))
  | ctx_User (Some authedUser) =>
      let inviterID := User.ID authedUser in
      match uuid_Parse ext reqTeamID with
      | None => ret (inr (HTTPError StatusBadRequest "Invalid team ID format"))
      | Some teamUUID =>
          if String.eqb reqEmail ""
          then ret (inr (HTTPError StatusBadRequest "Invited email is required"))
          else if negb (String.eqb reqRole RoleAdmin) && negb (String.eqb reqRole RoleMember)
          then ret (inr (HTTPError StatusBadRequest
                  ("invalid role specified: " ++ reqRole
                   ++ ". Must be 'admin' or 'member'")))
          else
            mres <- FindMembershipByUserAndTeam inviterID teamUUID ;;
            match mres with
            | (Some inviterMembership, None) =>
                if negb (isAdminOrOwner (Membership.Role inviterMembership))
                then ret (inr (HTTPError StatusForbidden
                      "You do not have permission to invite members to this team"))
                else
                  ures <- FindUserByEmail reqEmail ;;
                  let continue :=
                    ires <- FindPendingInvitationByTeamAndEmail teamUUID reqEmail ;;
                    match ires with
                    | (_, None) =>
                        ret (inr (HTTPError StatusConflict
                              "An invitation for this email address is already pending"))
                    | (_, Some e) =>
                        if negb (is_ErrRecordNotFound e)
                        then ret (inr (HTTPError StatusInternalServerError
                                "Failed to check existing invitations"))
                        else
                          let invitation :=
                            Invitation.mk uuid_Nil zeroTime zeroTime None reqEmail
                              teamUUID inviterID reqRole "" StatusPending zeroTime in
                          cres <- CreateInvitation now newID newToken invitation ;;
                          match cres with
                          | (_, Some _) =>
                              ret (inr (HTTPError StatusInternalServerError
                                          "Failed to create invitation"))
                          | (created, None) =>
                              ret (inl (types_InvitationResponse.mk true
                                          "Invitation sent successfully"
                                          (respInvitation created)))
                          end
                    end in
                  match ures with
                  | (Some invitedUser, None) =>
                      existing <- FindMembershipByUserAndTeam (User.ID invitedUser)
                                    teamUUID ;;
                      match existing with
                      | (_, None) =>
                          ret (inr (HTTPError StatusConflict
                                "This user is already a member of the team"))
                      | (_, Some e) =>
                          if negb (is_ErrRecordNotFound e)
                          then ret (inr (HTTPError StatusInternalServerError
                                  "Failed to check existing membership"))
                          else continue
                      end
                  | (_, Some e) =>
                      if negb (is_ErrRecordNotFound e)
                      then ret (inr (HTTPError StatusInternalServerError
                              "Failed to check invited user"))
                      else continue
                  | (None, None) => continue
                  end
            | (_, Some e) =>
                if is_ErrRecordNotFound e
                then ret (inr (HTTPError StatusForbidden
                      "You do not have permission to access this team"))
                else ret (inr (HTTPError StatusInternalServerError
                      "Failed to verify team membership"))
            | (None, None) =>
                ret (inr (HTTPError StatusInternalServerError
                            "Failed to verify team membership"))
            end
      end
  end.

(** ** internal/logic/billing: the Stripe webhook processor *)

Definition failed_error (e : option error) : bool := negb (is_None e).

Definition failed_Go (r : Go (option error)) : bool :=
  match r with
  | Returns None => false
  | _ => true
  end.

Definition plan_by_price (priceID : string) (p : Plan.t) : bool :=
  plan_live p
  && (String.eqb (Plan.StripePriceID p) priceID
      || opt_string_eqb (Plan.StripePriceIDYearly p) priceID).

(** [db.Where("stripe_price_id = ?", id).Or("stripe_price_id_yearly = ?", id).First(&plan)] *)
Definition FindPlanByPrice (priceID : string) : M (option Plan.t) :=
  query "plans" (fun t => First plan_ltb (plan_by_price priceID) (plans t)).

Definition sub_by_stripe_id (sid : string) (s : Subscription.t) : bool :=
  String.eqb (Subscription.StripeSubscriptionID s) sid.

(** [tx.Model(&models.User{}).Where("id = ?", userID).Update("stripe_customer_id", cid)];
    the column carries a unique index. *)
Definition UpdateUserStripeCustomerID (now : Time) (userID : UUID)
    (cid : string) : M (option error) :=
  statement (fun t =>
    let n := RowsAffected (user_by_id userID) (users t) in
    let taken :=
      existsb (fun r => negb (user_by_id userID r)
                        && opt_string_eqb (User.StripeCustomerID r) cid)
              (users t) in
    if (0 <? n)%nat && taken
    then (Update "users" 0,
          Some (ErrDriver "duplicate key value violates unique constraint"), t)
    else (Update "users" n, None,
          set_users
            (UpdateWhere (user_by_id userID)
               (fun r => User.mk (User.ID r) (User.Email r) now
                           (User.DeletedAt r) (Some cid))
               (users t)) t)).

(** The condition built from [models.Subscription{StripeSubscriptionID: sid}]:
    a struct condition keeps the non-zero fields only. *)
Definition sub_where_struct (sid : string) (s : Subscription.t) : bool :=
  String.eqb sid "" || sub_by_stripe_id sid s.

(** The columns [Assign(record)] writes to a row that was found: GORM turns
    the struct into conditions and keeps the non-zero fields only, so an
    empty string, [uuid.Nil] and [false] are not written. The two period
    fields come from [time.Unix], which never is the zero [time.Time].
    [updated_at] is set by the update. *)
Definition assign_nonzero (now : Time) (record r : Subscription.t)
    : Subscription.t :=
  Subscription.mk
    (Subscription.ID r)
    (if (Subscription.UserID record =? uuid_Nil)%N
     then Subscription.UserID r else Subscription.UserID record)
    (if String.eqb (Subscription.PlanID record) ""
     then Subscription.PlanID r else Subscription.PlanID record)
    (if String.eqb (Subscription.StripeSubscriptionID record) ""
     then Subscription.StripeSubscriptionID r
     else Subscription.StripeSubscriptionID record)
    (if String.eqb (Subscription.Status record) ""
     then Subscription.Status r else Subscription.Status record)
    (Subscription.CurrentPeriodStart record)
    (Subscription.CurrentPeriodEnd record)
    (if Subscription.CancelAtPeriodEnd record
     then true else Subscription.CancelAtPeriodEnd r)
    (Subscription.CreatedAt r)
    now.

(** The columns of a Subscription row that a delivery determines: external
    id, plan, status, period and the cancel-at-period-end flag. *)
Definition delivered_columns (s : Subscription.t)
    : string * string * string * Time * Time * bool :=
  (Subscription.StripeSubscriptionID s, Subscription.PlanID s,
   Subscription.Status s, Subscription.CurrentPeriodStart s,
   Subscription.CurrentPeriodEnd s, Subscription.CancelAtPeriodEnd s).

(** The primary key and the unique index on [stripe_subscription_id]. *)
Definition subscription_conflicts (row r : Subscription.t) : bool :=
  (Subscription.ID r =? Subscription.ID row)%N
  || String.eqb (Subscription.StripeSubscriptionID r)
       (Subscription.StripeSubscriptionID row).

(** [tx.Where(models.Subscription{StripeSubscriptionID: sid}).Assign(record).FirstOrCreate(&record)];
    [newID] is the identifier the database generates for a new row. *)
Definition FirstOrCreate_subscription (now : Time) (newID : UUID)
    (sid : string) (record : Subscription.t) : M (option error) :=
  found <- query "subscriptions"
             (fun t => First sub_ltb (sub_where_struct sid) (subscriptions t)) ;;
  match found with
  | None =>
      let row :=
        Subscription.mk
          (if (Subscription.ID record =? uuid_Nil)%N then newID
           else Subscription.ID record)
          (Subscription.UserID record) (Subscription.PlanID record)
          (Subscription.StripeSubscriptionID record) (Subscription.Status record)
          (Subscription.CurrentPeriodStart record)
          (Subscription.CurrentPeriodEnd record)
          (Subscription.CancelAtPeriodEnd record)
          (if IsZero (Subscription.CreatedAt record) then now
           else Subscription.CreatedAt record)
          (if IsZero (Subscription.UpdatedAt record) then now
           else Subscription.UpdatedAt record) in
      statement (fun t =>
        if existsb (subscription_conflicts row) (subscriptions t)
        then (Insert "subscriptions",
              Some (ErrDriver "duplicate key value violates unique constraint"), t)
        else (Insert "subscriptions", None,
              set_subscriptions (subscriptions t ++ [row]) t))
  | Some existing =>
      let cond r :=
        sub_where_struct sid r
        && (Subscription.ID r =? Subscription.ID existing)%N in
      statement (fun t =>
        (Update "subscriptions" (RowsAffected cond (subscriptions t)), None,
         set_subscriptions
           (UpdateWhere cond (assign_nonzero now record) (subscriptions t)) t))
  end.

(** [tx.Model(&models.Subscription{}).Where("stripe_subscription_id = ?", sid).Update("status", status)] *)
Definition UpdateSubscriptionStatus (now : Time) (sid status : string) : M nat :=
  statement (fun t =>
    let n := RowsAffected (sub_by_stripe_id sid) (subscriptions t) in
    (Update "subscriptions" n, n,
     set_subscriptions
       (UpdateWhere (sub_by_stripe_id sid)
          (fun r =>
             Subscription.mk (Subscription.ID r) (Subscription.UserID r)
               (Subscription.PlanID r) (Subscription.StripeSubscriptionID r)
               status (Subscription.CurrentPeriodStart r)
               (Subscription.CurrentPeriodEnd r)
               (Subscription.CancelAtPeriodEnd r) (Subscription.CreatedAt r) now)
          (subscriptions t)) t)).

(** [handleCheckoutSessionCompleted], the body of its transaction. *)
Definition handleCheckoutSessionCompleted_tx (now : Time) (newID : UUID)
    (userID : UUID) (stripeCustomerID stripeSubscriptionID : string)
    (plan : Plan.t) (sub : StripeSubscription.t) : M (option error) :=
  userExists <- query "users"
                  (fun t => First user_ltb (user_by_id userID) (users t)) ;;
  match userExists with
  | None => ret (Some (HTTPError StatusBadRequest
                         "User specified in webhook not found"))
  | Some _ =>
      uerr <- UpdateUserStripeCustomerID now userID stripeCustomerID ;;
      match uerr with
      | Some _ => ret (Some (HTTPError StatusInternalServerError
                               "Failed to update user billing info"))
      | None =>
          let subscriptionRecord :=
            Subscription.mk uuid_Nil userID (Plan.ID plan) stripeSubscriptionID
              (StripeSubscription.Status sub)
              (StripeSubscription.CurrentPeriodStart sub)
              (StripeSubscription.CurrentPeriodEnd sub)
              (StripeSubscription.CancelAtPeriodEnd sub)
              zeroTime zeroTime in
          ferr <- FirstOrCreate_subscription now newID stripeSubscriptionID
                    subscriptionRecord ;;
          match ferr with
          | Some _ => ret (Some (HTTPError StatusInternalServerError
                                   "Failed to save subscription details"))
          | None => ret None
          end
      end
  end.

(** [handleCheckoutSessionCompleted]. Its first statement formats
    [session.Customer.ID] and [session.Subscription.ID] for the log, before
    the nil checks that follow. *)
Definition handleCheckoutSessionCompleted (ext : External) (now : Time)
    (newID : UUID) (session : StripeCheckoutSession.t) : M (Go (option error)) :=
  match StripeCheckoutSession.Customer session,
        StripeCheckoutSession.Subscription session with
  | Some _, Some _ =>
      let userIDStr := StripeCheckoutSession.ClientReferenceID session in
      let stripeCustomerID :=
        match StripeCheckoutSession.Customer session with
        | Some customer => StripeCustomer.ID customer
        | None => ""
        end in
      let stripeSubscriptionID :=
        match StripeCheckoutSession.Subscription session with
        | Some s => StripeSubscription.ID s
        | None => ""
        end in
      if String.eqb userIDStr "" || String.eqb stripeCustomerID ""
         || String.eqb stripeSubscriptionID ""
      then ret (Returns (Some (HTTPError StatusBadRequest
                                 "Webhook payload missing required IDs")))
      else
        match uuid_Parse ext userIDStr with
        | None => ret (Returns (Some (HTTPError StatusBadRequest
                                        "Invalid user identifier in webhook")))
        | Some userID =>
            match subscription_Get ext stripeSubscriptionID with
            | inr _ =>
                ret (Returns (Some (HTTPError StatusInternalServerError
                       "Failed to retrieve subscription details from Stripe")))
            | inl sub =>
                let missing :=
                  ret (Returns (Some (HTTPError StatusBadRequest
                         "Subscription details missing plan information"))) in
                match StripeSubscription.Items sub with
                | None => ret (Panics nil_dereference)
                | Some [] => missing
                | Some (None :: _) => ret (Panics nil_dereference)
                | Some (Some item :: _) =>
                    match StripeSubscriptionItem.Price item with
                    | None => missing
                    | Some price =>
                        let stripePriceID := StripePrice.ID price in
                        planResult <- FindPlanByPrice stripePriceID ;;
                        match planResult with
                        | None =>
                            ret (Returns (Some (HTTPError StatusInternalServerError
                                   "Could not match subscription to an internal plan")))
                        | Some plan =>
                            txErr <- TransactionBy failed_error quiet
                                       (handleCheckoutSessionCompleted_tx now newID
                                          userID stripeCustomerID
                                          stripeSubscriptionID plan sub) ;;
                            ret (Returns txErr)
                        end
                    end
                end
            end
        end
  | _, _ => ret (Panics nil_dereference)
  end.

(** [tx.Model(&existingSub).Updates(updateData)], with the map of the five
    columns. *)
Definition UpdateSubscriptionFromEvent (now : Time) (id : UUID)
    (sub : StripeSubscription.t) (planID : string) : M unit :=
  statement (fun t =>
    let cond r := (Subscription.ID r =? id)%N in
    (Update "subscriptions" (RowsAffected cond (subscriptions t)), tt,
     set_subscriptions
       (UpdateWhere cond
          (fun r =>
             Subscription.mk (Subscription.ID r) (Subscription.UserID r)
               planID (Subscription.StripeSubscriptionID r)
               (StripeSubscription.Status sub)
               (StripeSubscription.CurrentPeriodStart sub)
               (StripeSubscription.CurrentPeriodEnd sub)
               (StripeSubscription.CancelAtPeriodEnd sub)
               (Subscription.CreatedAt r) now)
          (subscriptions t)) t)).

(** [handleSubscriptionUpdated] *)
Definition handleSubscriptionUpdated (now : Time) (sub : StripeSubscription.t)
    : M (Go (option error)) :=
  TransactionBy failed_Go quiet
    (existing <- query "subscriptions"
                   (fun t => First sub_ltb
                               (sub_by_stripe_id (StripeSubscription.ID sub))
                               (subscriptions t)) ;;
     match existing with
     | None => ret (Returns None)  (* unknown subscription: ignore *)
     | Some existingSub =>
         let update planID :=
           UpdateSubscriptionFromEvent now (Subscription.ID existingSub) sub planID ;;;
           ret (Returns None) in
         match StripeSubscription.Items sub with
         | None => ret (Panics nil_dereference)
         | Some [] => update (Subscription.PlanID existingSub)
         | Some (None :: _) => ret (Panics nil_dereference)
         | Some (Some item :: _) =>
             match StripeSubscriptionItem.Price item with
             | None => update (Subscription.PlanID existingSub)
             | Some price =>
                 planResult <- FindPlanByPrice (StripePrice.ID price) ;;
                 match planResult with
                 | Some plan => update (Plan.ID plan)
                 | None => update (Subscription.PlanID existingSub)
                 end
             end
         end
     end).

(** [handleSubscriptionDeleted] *)
Definition handleSubscriptionDeleted (now : Time) (sub : StripeSubscription.t)
    : M (Go (option error)) :=
  TransactionBy failed_Go quiet
    (UpdateSubscriptionStatus now (StripeSubscription.ID sub)
       (StripeSubscription.Status sub) ;;;
     ret (Returns None)).

(** [handleInvoicePaid]. Its first statement formats
    [invoice.Subscription.ID] for the log, before the nil check. *)
Definition handleInvoicePaid (now : Time) (invoice : StripeInvoice.t)
    : M (Go (option error)) :=
  match StripeInvoice.Subscription invoice with
  | None => ret (Panics nil_dereference)
  | Some subscription =>
      if negb (String.eqb (StripeInvoice.Status invoice) InvoiceStatusPaid)
         || String.eqb (StripeSubscription.ID subscription) ""
      then ret (Returns None)  (* ignore *)
      else
        let stripeSubscriptionID := StripeSubscription.ID subscription in
        TransactionBy failed_Go quiet
          (UpdateSubscriptionStatus now stripeSubscriptionID
             SubscriptionStatusActive ;;;
           ret (Returns None))
  end.

(** [handleInvoicePaymentFailed] *)
Definition handleInvoicePaymentFailed (now : Time) (invoice : StripeInvoice.t)
    : M (Go (option error)) :=
  match StripeInvoice.Subscription invoice with
  | None => ret (Panics nil_dereference)
  | Some subscription =>
      if String.eqb (StripeSubscription.ID subscription) ""
      then ret (Returns None)  (* ignore *)
      else
        let stripeSubscriptionID := StripeSubscription.ID subscription in
        TransactionBy failed_Go quiet
          (UpdateSubscriptionStatus now stripeSubscriptionID
             SubscriptionStatusPastDue ;;;
           ret (Returns None))
  end.

(** The parts of the HTTP request and of the service configuration that
    [PostStripeWebhook] reads. [Body = None] is a failing [io.ReadAll]. *)
Record WebhookRequest := mkWebhookRequest {
  Body : option string;
  Stripe_Signature : string
}.

Record StripeConfig := mkStripeConfig {
  WebhookSecret : string;
  SecretKey : string
}.

Definition parse_error : Go (option error) :=
  Returns (Some (HTTPError StatusBadRequest "Error parsing webhook payload")).

(** [PostStripeWebhook] *)
Definition PostStripeWebhook (ext : External) (cfg : StripeConfig)
    (now : Time) (newID : UUID) (req : WebhookRequest)
    : M (Go (types_Response.t + error)) :=
  match Body req with
  | None => ret (Returns (inr (HTTPError StatusInternalServerError
                                 "Failed to read request body")))
  | Some payload =>
      let signature := Stripe_Signature req in
      if String.eqb signature ""
      then ret (Returns (inr (HTTPError StatusBadRequest
                                "Missing Stripe-Signature header")))
      else
        let endpointSecret := WebhookSecret cfg in
        if String.eqb endpointSecret ""
        then ret (Returns (inr (HTTPError StatusInternalServerError
                                  "Webhook configuration error")))
        else
          (* 2. Verify the webhook signature *)
          match webhook_ConstructEvent ext payload signature endpointSecret with
          | inr err =>
              ret (Returns (inr (HTTPError StatusBadRequest
                     ("Webhook signature verification failed: " ++ err))))
          | inl event =>
              if String.eqb (SecretKey cfg) ""
              then ret (Returns (inr (HTTPError StatusInternalServerError
                                        "Webhook configuration error")))
              else
                let raw := StripeEvent.Data_Raw event in
                let type := StripeEvent.Type_ event in
                processing <-
                  (if String.eqb type "checkout.session.completed"
                   then match Unmarshal_CheckoutSession ext raw with
                        | None => ret parse_error
                        | Some session =>
                            handleCheckoutSessionCompleted ext now newID session
                        end
                   else if String.eqb type "customer.subscription.updated"
                   then match Unmarshal_Subscription ext raw with
                        | None => ret parse_error
                        | Some sub => handleSubscriptionUpdated now sub
                        end
                   else if String.eqb type "customer.subscription.deleted"
                   then match Unmarshal_Subscription ext raw with
                        | None => ret parse_error
                        | Some sub => handleSubscriptionDeleted now sub
                        end
                   else if String.eqb type "invoice.paid"
                   then match Unmarshal_Invoice ext raw with
                        | None => ret parse_error
                        | Some invoice => handleInvoicePaid now invoice
                        end
                   else if String.eqb type "invoice.payment_failed"
                   then match Unmarshal_Invoice ext raw with
                        | None => ret parse_error
                        | Some invoice => handleInvoicePaymentFailed now invoice
                        end
                   else ret (Returns None)) ;;
                match processing with
                | Panics msg => ret (Panics msg)
                | Returns (Some processingError) => ret (Returns (inr processingError))
                | Returns None =>
                    ret (Returns (inl (types_Response.mk true
                                         "Webhook received successfully")))
                end
          end
  end.


(** ** Reachable stores *)

(** The three status values that are ever stored. *)
Definition stored_status (s : InvitationStatus) : Prop :=
  s = StatusPending \/ s = StatusAccepted \/ s = StatusDeclined.

Definition statuses_stored (t : Tables) : Prop :=
  Forall (fun i => stored_status (Invitation.Status i)) (invitations t).

(** The requests that reach the invitations table, with the values the
    environment supplies to each (clock, generated identifiers, the
    authenticated user). *)
Inductive TeamRequest : Type :=
| Invite (now : Time) (newID : UUID) (newToken : string + error)
    (c : ContextValue) (teamID email role : string)
| Accept (now : Time) (newID : UUID) (c : ContextValue) (token : string)
| Decline (now : Time) (c : ContextValue) (token : string)
| Cancel (now : Time) (c : ContextValue) (teamID invitationID : string).

(** Serving one request, requests being served one after the other. *)
Definition serve (ext : External) (r : TeamRequest) (t : Tables) : Tables :=
  match r with
  | Invite now newID newToken c teamID email role =>
      tables (snd (PostInviteMember ext now newID newToken c teamID email role
                     (mkWorld t [])))
  | Accept now newID c token =>
      tables (snd (PostAcceptInvitation quiet now newID c token (mkWorld t [])))
  | Decline now c token =>
      tables (snd (PostDeclineInvitation quiet now c token (mkWorld t [])))
  | Cancel now c teamID invitationID =>
      tables (snd (DeleteCancelInvitation ext now c teamID invitationID
                     (mkWorld t [])))
  end.

(** The stores the application can be in: it starts without invitations;
    the four invitation handlers are the only code that writes the
    invitations table; every other handler leaves that table as it is. *)
Inductive reachable (ext : External) : Tables -> Prop :=
| reach_start : forall t, invitations t = [] -> reachable ext t
| reach_request : forall t r, reachable ext t -> reachable ext (serve ext r t)
| reach_elsewhere : forall t t',
    reachable ext t -> invitations t' = invitations t -> reachable ext t'.

(** A computation keeps a property of the tables. *)
Definition preserves {A} (P : Tables -> Prop) (m : M A) : Prop :=
  forall w, P (tables w) -> P (tables (snd (m w))).

(** ** Sample data *)

Module Sample.
Definition ext : External :=
  mkExternal
    (fun s => if String.eqb s "team-5" then Some 5%N
              else if String.eqb s "inv-10" then Some 10%N
              else if String.eqb s "user-1" then Some 1%N
              else None)
    (fun payload header secret =>
       if String.eqb header "good"
       then inl (StripeEvent.mk "evt_1" payload payload)
       else inr "no signatures found matching the expected signature")
    (fun raw => None)
    (fun raw =>
       if String.eqb raw "customer.subscription.updated"
       then Some (StripeSubscription.mk "sub_unknown" "active" None 0 0 false)
       else None)
    (fun raw => None)
    (fun sid =>
       if String.eqb sid "sub_1"
       then inl (StripeSubscription.mk "sub_1" "active"
                   (Some [Some (StripeSubscriptionItem.mk
                                  (Some (StripePrice.mk "price_pro")))])
                   1000 2000 false)
       else inr "No such subscription").

Definition alice : User.t := User.mk 1 "a@x.com" 0 None None.
Definition owner : User.t := User.mk 2 "owner@x.com" 0 None None.

(** Team 5, owned by user 2. *)
Definition ownership : Membership.t := Membership.mk 20 0 0 None 2 5 RoleOwner.

(** Invitation 10 of a@x.com to team 5 as member, token K, expiring at 1000. *)
Definition invitation : Invitation.t :=
  Invitation.mk 10 0 0 None "a@x.com" 5 2 RoleMember "K" StatusPending 1000.

Definition store : Tables :=
  mkTables [alice; owner] [invitation] [ownership] [] [].

(** Another caller declining invitation K while the first one runs. *)
Definition declined_meanwhile : Interference :=
  fun t => tables (snd (PostDeclineInvitation quiet 50 (ctx_User (Some alice)) "K"
                          (mkWorld t []))).


(** Billing: one plan sold at price_pro; a checkout session of user 1 for
    subscription sub_1, whose provider detail ([subscription_Get] of [ext])
    is active, period 1000 to 2000, not cancelling. *)
Definition plan_pro : Plan.t := Plan.mk "pro" "price_pro" None None.

Definition billing_store : Tables := mkTables [alice] [] [] [plan_pro] [].

Definition session : StripeCheckoutSession.t :=
  StripeCheckoutSession.mk "user-1" (Some (StripeCustomer.mk "cus_1"))
    (Some (StripeSubscription.mk "sub_1" "" None 0 0 false)).

(** The subscription-updated event sent when the user schedules the
    cancellation of sub_1. *)
Definition cancelling : StripeSubscription.t :=
  StripeSubscription.mk "sub_1" "active" (Some []) 1000 2000 true.
End Sample.

(** ** Invitation tokens *)

(** [hex.EncodeToString]: two lower-case digits per byte, high nibble
    first. *)
Definition hextable : string := "0123456789abcdef".

Definition hexdigit (n : N) : Ascii.ascii :=
  match String.get (N.to_nat n) hextable with
  | Some c => c
  | None => Ascii.zero
  end.

Fixpoint EncodeToString (src : list Byte.byte) : string :=
  match src with
  | [] => EmptyString
  | v :: rest =>
      String (hexdigit (N.shiftr (Byte.to_N v) 4))
        (String (hexdigit (N.land (Byte.to_N v) 15)) (EncodeToString rest))
  end.

(** [rand.Read(b)] on a buffer of [n] bytes: the system's random source
    either fails or fills the whole buffer. [source] is what the system can
    deliver. *)
Definition rand_Read (n : nat) (source : list Byte.byte + error)
    : list Byte.byte + error :=
  match source with
  | inr e => inr e
  | inl bytes =>
      if (n <=? List.length bytes)%nat then inl (firstn n bytes)
      else if (List.length bytes =? 0)%nat then inr (errors_New "EOF")
      else inr (errors_New "unexpected EOF")
  end.

(** [GenerateInvitationToken]: 32 random bytes, hex-encoded. *)
Definition GenerateInvitationToken (source : list Byte.byte + error)
    : string + error :=
  match rand_Read 32 source with
  | inr e => inr e
  | inl bytes => inl (EncodeToString bytes)
  end.

(** The value of a hex digit; used to read a token back. *)
Definition unhex (c : Ascii.ascii) : N :=
  let n := Ascii.N_of_ascii c in
  if (n <? 58)%N then (n - 48)%N else (n - 87)%N.

(** Reading a hex string back, two digits per byte. *)
Fixpoint DecodeString (s : string) : list Byte.byte :=
  match s with
  | String hi (String lo rest) =>
      match Byte.of_N (16 * unhex hi + unhex lo)%N with
      | Some v => v :: DecodeString rest
      | None => []
      end
  | _ => []
  end.

Definition is_hexdigit (c : Ascii.ascii) : bool :=
  let n := Ascii.N_of_ascii c in
  ((48 <=? n) && (n <=? 57) || (97 <=? n) && (n <=? 102))%N.

Fixpoint all_chars (p : Ascii.ascii -> bool) (s : string) : bool :=
  match s with
  | EmptyString => true
  | String c rest => p c && all_chars p rest
  end.

(** ** Listings and details *)

Module types_TeamInvitationsResponse.
Record t := mk {
  Success : bool;
  Message : string;
  Invitations : list types_Invitation.t
}.
End types_TeamInvitationsResponse.

(** [types.Membership]; the ids are rendered with [String()] in the source. *)
Module types_Membership.
Record t := mk {
  UserID : UUID;
  TeamID : UUID;
  Role : string
}.
Definition zero : t := mk uuid_Nil uuid_Nil "".
End types_Membership.

Module types_TeamMembersResponse.
Record t := mk {
  Success : bool;
  Message : string;
  Members : list types_Membership.t
}.
End types_TeamMembersResponse.

Module types_TeamMemberResponse.
Record t := mk {
  Success : bool;
  Message : string;
  Member : types_Membership.t
}.
End types_TeamMemberResponse.

(** [types.Subscription]; ids and times are rendered as strings in the
    source. *)
Module types_Subscription.
Record t := mk {
  ID : UUID;
  UserID : UUID;
  PlanID : string;
  Status : string;
  CurrentPeriodStart : Time;
  CurrentPeriodEnd : Time
}.
End types_Subscription.

Definition inv_pending_by_team (teamID : UUID) (i : Invitation.t) : bool :=
  inv_live i && (Invitation.TeamID i =? teamID)%N
             && String.eqb (Invitation.Status i) StatusPending.

(** [FindPendingInvitationsByTeam]: [Find], all matching rows. *)
Definition FindPendingInvitationsByTeam (teamID : UUID)
    : M (list Invitation.t) :=
  query "invitations"
    (fun t => filter (inv_pending_by_team teamID) (invitations t)).

(** [GetListInvitations] *)
Definition GetListInvitations (ext : External) (c : ContextValue)
    (reqTeamID : string) : M (types_TeamInvitationsResponse.t + error) :=
  match c with
  | ctx_nil => ret (inr (HTTPError StatusUnauthorized "User not authenticated"))
  | ctx_other | ctx_User None =>
      ret (inr (HTTPError StatusInternalServerError "Error retrieving user data"))
  | ctx_User (Some authedUser) =>
      match uuid_Parse ext reqTeamID with
      | None => ret (inr (HTTPError StatusBadRequest "Invalid team ID format"))
      | Some teamUUID =>
          mres <- FindMembershipByUserAndTeam (User.ID authedUser) teamUUID ;;
          match mres with
          | (Some requestingMembership, None) =>
              if negb (isAdminOrOwner (Membership.Role requestingMembership))
              then ret (inr (HTTPError StatusForbidden
                    "You do not have permission to view invitations for this team"))
              else
                invitations <- FindPendingInvitationsByTeam teamUUID ;;
                ret (inl (types_TeamInvitationsResponse.mk true
                            "Pending invitations retrieved successfully"
                            (map respInvitation invitations)))
          | (_, Some e) =>
              if is_ErrRecordNotFound e
              then ret (inr (HTTPError StatusForbidden
                    "You do not have permission to access this team"))
              else ret (inr (HTTPError StatusInternalServerError
                    "Failed to verify team membership"))
          | (None, None) =>
              ret (inr (HTTPError StatusInternalServerError
                          "Failed to verify team membership"))
          end
      end
  end.

(** [GetInvitationDetails] (public: no authenticated user is read). *)
Definition GetInvitationDetails (now : Time) (token : string)
    : M (types_InvitationResponse.t + error) :=
  if String.eqb token ""
  then ret (inr (HTTPError StatusBadRequest "Invitation token is required"))
  else
    found <- FindInvitationByTokenWithTeam token ;;
    match found with
    | (Some invitation, None) =>
        if negb (String.eqb (Invitation.Status invitation) StatusPending)
        then ret (inr (HTTPError StatusBadRequest
                         "This invitation is no longer pending"))
        else if After now (Invitation.ExpiresAt invitation)
        then ret (inr (HTTPError StatusBadRequest "This invitation has expired"))
        else ret (inl (types_InvitationResponse.mk true
                         "Invitation details retrieved successfully"
                         (respInvitation invitation)))
    | (_, Some e) =>
        if is_ErrRecordNotFound e
        then ret (inr (HTTPError StatusNotFound "Invitation not found or invalid"))
        else ret (inr (HTTPError StatusInternalServerError
                         "Failed to retrieve invitation details"))
    | (None, None) =>
        ret (inr (HTTPError StatusInternalServerError
                    "Failed to retrieve invitation details"))
    end.

Definition mem_by_team (teamID : UUID) (m : Membership.t) : bool :=
  mem_live m && (Membership.TeamID m =? teamID)%N.

(** [FindMembershipsByTeam] *)
Definition FindMembershipsByTeam (teamID : UUID) : M (list Membership.t) :=
  query "memberships" (fun t => filter (mem_by_team teamID) (memberships t)).

Definition respMembership (m : Membership.t) : types_Membership.t :=
  types_Membership.mk (Membership.UserID m) (Membership.TeamID m)
    (Membership.Role m).

(** [GetListMembers] *)
Definition GetListMembers (ext : External) (c : ContextValue)
    (reqTeamID : string) : M (types_TeamMembersResponse.t + error) :=
  match c with
  | ctx_nil => ret (inr (HTTPError StatusUnauthorized "User not authenticated"))
  | ctx_other | ctx_User None =>
      ret (inr (HTTPError StatusInternalServerError "Error retrieving user data"))
  | ctx_User (Some authedUser) =>
      match uuid_Parse ext reqTeamID with
      | None => ret (inr (HTTPError StatusBadRequest "Invalid team ID format"))
      | Some teamUUID =>
          mres <- FindMembershipByUserAndTeam (User.ID authedUser) teamUUID ;;
          match mres with
          | (_, None) =>
              memberships <- FindMembershipsByTeam teamUUID ;;
              ret (inl (types_TeamMembersResponse.mk true
                          "Team members retrieved successfully"
                          (map respMembership memberships)))
          | (_, Some e) =>
              if is_ErrRecordNotFound e
              then ret (inr (HTTPError StatusForbidden
                    "You do not have permission to access this team's members"))
              else ret (inr (HTTPError StatusInternalServerError
                    "Failed to verify team membership"))
          end
      end
  end.

(** ** Removing a member *)

Definition mem_by_id (id : UUID) (m : Membership.t) : bool :=
  mem_live m && (Membership.ID m =? id)%N.

Definition Membership_set_DeletedAt (d : option Time) (m : Membership.t)
    : Membership.t :=
  Membership.mk (Membership.ID m) (Membership.CreatedAt m)
    (Membership.UpdatedAt m) d (Membership.UserID m) (Membership.TeamID m)
    (Membership.Role m).

(** [db.Delete(&membership)]: a soft delete by primary key. *)
Definition SoftDelete_membership (now : Time) (id : UUID) : M nat :=
  statement (fun t =>
    let n := RowsAffected (mem_by_id id) (memberships t) in
    (Update "memberships" n, n,
     set_memberships
       (UpdateWhere (mem_by_id id) (Membership_set_DeletedAt (Some now))
          (memberships t)) t)).

(** [DeleteMembershipByUserAndTeam] *)
Definition DeleteMembershipByUserAndTeam (now : Time) (userID teamID : UUID)
    : M (option error) :=
  findResult <- query "memberships"
                  (fun t => First mem_ltb (mem_by_user_team userID teamID)
                              (memberships t)) ;;
  match findResult with
  | None => ret (Some ErrRecordNotFound)
  | Some membership =>
      n <- SoftDelete_membership now (Membership.ID membership) ;;
      if (n =? 0)%nat then ret (Some ErrRecordNotFound) else ret None
  end.

(** [DeleteRemoveMember]; the request carries the team id and the member's
    user id as strings. *)
Definition DeleteRemoveMember (ext : External) (now : Time) (c : ContextValue)
    (reqTeamID reqMemberID : string)
    : M (types_TeamMemberResponse.t + error) :=
  match c with
  | ctx_nil => ret (inr (HTTPError StatusUnauthorized "User not authenticated"))
  | ctx_other | ctx_User None =>
      ret (inr (HTTPError StatusInternalServerError "Error retrieving user data"))
  | ctx_User (Some authedUser) =>
      let requestingUserID := User.ID authedUser in
      match uuid_Parse ext reqTeamID with
      | None => ret (inr (HTTPError StatusBadRequest "Invalid team ID format"))
      | Some teamUUID =>
          match uuid_Parse ext reqMemberID with
          | None => ret (inr (HTTPError StatusBadRequest "Invalid member ID format"))
          | Some memberUUIDToRemove =>
              mres <- FindMembershipByUserAndTeam requestingUserID teamUUID ;;
              match mres with
              | (Some requestingMembership, None) =>
                  if negb (isAdminOrOwner (Membership.Role requestingMembership))
                  then ret (inr (HTTPError StatusForbidden
                        "You do not have permission to remove members from this team"))
                  else if (requestingUserID =? memberUUIDToRemove)%N
                  then ret (inr (HTTPError StatusBadRequest
                        "You cannot remove yourself from the team using this endpoint"))
                  else
                    tres <- FindMembershipByUserAndTeam memberUUIDToRemove teamUUID ;;
                    match tres with
                    | (Some membershipToRemove, None) =>
                        if String.eqb (Membership.Role membershipToRemove) RoleOwner
                        then ret (inr (HTTPError StatusBadRequest
                                         "The team owner cannot be removed"))
                        else
                          err <- DeleteMembershipByUserAndTeam now
                                   memberUUIDToRemove teamUUID ;;
                          match err with
                          | None =>
                              ret (inl (types_TeamMemberResponse.mk true
                                          "Member removed successfully"
                                          types_Membership.zero))
                          | Some e =>
                              if is_ErrRecordNotFound e
                              then ret (inr (HTTPError StatusNotFound
                                    "Member not found (or already removed)"))
                              else ret (inr (HTTPError StatusInternalServerError
                                    "Failed to remove member"))
                          end
                    | (_, Some e) =>
                        if is_ErrRecordNotFound e
                        then ret (inr (HTTPError StatusNotFound
                                         "Member not found in this team"))
                        else ret (inr (HTTPError StatusInternalServerError
                                         "Failed to find member"))
                    | (None, None) =>
                        ret (inr (HTTPError StatusInternalServerError
                                    "Failed to find member"))
                    end
              | (_, Some e) =>
                  if is_ErrRecordNotFound e
                  then ret (inr (HTTPError StatusForbidden
                        "You do not have permission to access this team"))
                  else ret (inr (HTTPError StatusInternalServerError
                        "Failed to verify team membership"))
              | (None, None) =>
                  ret (inr (HTTPError StatusInternalServerError
                              "Failed to verify team membership"))
              end
          end
      end
  end.

(** ** The current subscription *)

Definition sub_active_of (userID : UUID) (s : Subscription.t) : bool :=
  (Subscription.UserID s =? userID)%N
  && String.eqb (Subscription.Status s) "active".

(** [ORDER BY created_at DESC, id]: the order [Order("created_at DESC")]
    followed by [First] asks for. *)
Definition sub_latest_ltb (a b : Subscription.t) : bool :=
  (Subscription.CreatedAt b <? Subscription.CreatedAt a)
  || ((Subscription.CreatedAt a =? Subscription.CreatedAt b)
      && (Subscription.ID a <? Subscription.ID b)%N).

(** [FindLatestActiveSubscriptionByUserID] *)
Definition FindLatestActiveSubscriptionByUserID (userID : UUID)
    : M (option Subscription.t * option error) :=
  result <- query "subscriptions"
              (fun t => First sub_latest_ltb (sub_active_of userID)
                          (subscriptions t)) ;;
  match result with
  | None => ret (None, Some ErrRecordNotFound)
  | Some sub => ret (Some sub, None)
  end.

(** [GetSubscription]: [(nil, nil)] when the user has no active
    subscription. *)
Definition GetSubscription (c : ContextValue)
    : M (option types_Subscription.t + error) :=
  match c with
  | ctx_nil => ret (inr (HTTPError StatusUnauthorized "User not authenticated"))
  | ctx_other | ctx_User None =>
      ret (inr (HTTPError StatusInternalServerError "Error retrieving user data"))
  | ctx_User (Some authedUser) =>
      r <- FindLatestActiveSubscriptionByUserID (User.ID authedUser) ;;
      match r with
      | (Some subscription, None) =>
          ret (inl (Some (types_Subscription.mk (Subscription.ID subscription)
                            (Subscription.UserID subscription)
                            (Subscription.PlanID subscription)
                            (Subscription.Status subscription)
                            (Subscription.CurrentPeriodStart subscription)
                            (Subscription.CurrentPeriodEnd subscription))))
      | (_, Some e) =>
          if is_ErrRecordNotFound e then ret (inl None)
          else ret (inr (HTTPError StatusInternalServerError
                           "Failed to retrieve subscription details"))
      | (None, None) =>
          ret (inr (HTTPError StatusInternalServerError
                      "Failed to retrieve subscription details"))
      end
  end.

(** ** A team with a second member *)

Module Joined.
(** a@x.com is a plain member of team 5. *)
Definition membership_alice : Membership.t :=
  Membership.mk 21 0 0 None 1 5 RoleMember.

(** A fresh invitation of a@x.com to team 5, token K2, expiring at 1000. *)
Definition reinvitation : Invitation.t :=
  Invitation.mk 11 0 0 None "a@x.com" 5 2 RoleMember "K2" StatusPending 1000.

Definition store : Tables :=
  mkTables [Sample.alice; Sample.owner] [reinvitation]
    [Sample.ownership; membership_alice] [] [].
End Joined.

(** ** Deliveries to the webhook *)

Module Delivery.
(** The provider of [Sample.ext], with payloads that parse: a checkout
    event carries [Sample.session], a subscription event
    [Sample.cancelling], an invoice event an invoice of sub_1 whose status
    is the payload's name. *)
Definition ext : External :=
  mkExternal
    (uuid_Parse Sample.ext)
    (fun payload header secret =>
       if String.eqb header "good"
       then inl (StripeEvent.mk "evt_1" payload payload)
       else inr "no signatures found matching the expected signature")
    (fun raw => Some Sample.session)
    (fun raw => Some Sample.cancelling)
    (fun raw =>
       Some (StripeInvoice.mk "in_1"
               (if String.eqb raw "invoice.paid" then "paid" else "open")
               (Some (StripeSubscription.mk "sub_1" "" None 0 0 false))))
    (subscription_Get Sample.ext).

Definition cfg : StripeConfig := mkStripeConfig "whsec" "sk".

Definition request (type : string) : WebhookRequest :=
  mkWebhookRequest (Some type) "good".

(** The billing store once the checkout of [Sample.session] was delivered
    at time 100. *)
Definition subscribed : Tables :=
  tables (snd (handleCheckoutSessionCompleted Sample.ext 100 77 Sample.session
                 (mkWorld Sample.billing_store []))).

(** A store in which the identifier the database would generate is already
    taken by a subscription of another provider id. *)
Definition clash : Tables :=
  mkTables [Sample.alice] [] [] [Sample.plan_pro]
    [Subscription.mk 77 2 "pro" "sub_0" "active" 0 0 false 0 0].
End Delivery.
(** * Properties *)

(** ** Queries *)

Section RowsFacts.
Context {A : Type}.
Variable key_ltb : A -> A -> bool.
Variable cond : A -> bool.

Lemma First_Some (rows : list A) (r : A) :
  First key_ltb cond rows = Some r -> In r rows /\ cond r = true.
Proof.
  revert r. induction rows as [|x rest IH]; simpl; intros r H.
  - discriminate.
  - destruct (First key_ltb cond rest) as [r'|] eqn:E.
    + destruct (cond x && negb (key_ltb r' x)) eqn:C.
      * inversion H; subst. apply andb_true_iff in C. tauto.
      * inversion H; subst. destruct (IH r eq_refl). tauto.
    + destruct (cond x) eqn:C; inversion H; subst. tauto.
Qed.

Lemma First_None (rows : list A) :
  First key_ltb cond rows = None <-> (forall r, In r rows -> cond r = false).
Proof.
  induction rows as [|x rest IH]; simpl.
  - split; [intros _ r [] | reflexivity].
  - destruct (First key_ltb cond rest) as [r'|] eqn:E.
    + split.
      * destruct (cond x && negb (key_ltb r' x)); discriminate.
      * intros H. apply First_Some in E. destruct E as [Hin Hc].
        rewrite (H r' (or_intror Hin)) in Hc. discriminate.
    + destruct IH as [IH1 IH2]. split.
      * destruct (cond x) eqn:C; [discriminate|].
        intros _ r [<-|Hin]; [assumption|]. apply IH1; [reflexivity|assumption].
      * intros H. rewrite (H x (or_introl eq_refl)). reflexivity.
Qed.

Lemma RowsAffected_zero (rows : list A) :
  RowsAffected cond rows = 0%nat <-> (forall r, In r rows -> cond r = false).
Proof.
  unfold RowsAffected. induction rows as [|x rest IH]; simpl.
  - split; [intros _ r [] | reflexivity].
  - destruct (cond x) eqn:C; simpl.
    + split; [discriminate|]. intros H. rewrite (H x (or_introl eq_refl)) in C.
      discriminate.
    + rewrite IH. split.
      * intros H r [<-|Hin]; [assumption | apply H; assumption].
      * intros H r Hin. apply H. right. assumption.
Qed.

Lemma UpdateWhere_none (f : A -> A) (rows : list A) :
  (forall r, In r rows -> cond r = false) -> UpdateWhere cond f rows = rows.
Proof.
  unfold UpdateWhere. induction rows as [|x rest IH]; simpl; intros H.
  - reflexivity.
  - rewrite (H x (or_introl eq_refl)). f_equal. apply IH.
    intros r Hin. apply H. right. assumption.
Qed.

Lemma In_UpdateWhere (f : A -> A) (rows : list A) (r : A) :
  In r (UpdateWhere cond f rows) ->
  In r rows \/ exists r0, In r0 rows /\ cond r0 = true /\ r = f r0.
Proof.
  unfold UpdateWhere. rewrite in_map_iff. intros [r0 [E Hin]].
  destruct (cond r0) eqn:C.
  - right. exists r0. auto.
  - left. subst. assumption.
Qed.
End RowsFacts.

Lemma tables_eta (t : Tables) :
  mkTables (users t) (invitations t) (memberships t) (plans t) (subscriptions t) = t.
Proof. destruct t; reflexivity. Qed.

Lemma set_invitations_same (t : Tables) : set_invitations (invitations t) t = t.
Proof. apply tables_eta. Qed.

Lemma set_subscriptions_same (t : Tables) : set_subscriptions (subscriptions t) t = t.
Proof. apply tables_eta. Qed.

(** ** Expired invitations *)

(** C3. Accepting a stored pending invitation whose expiry lies in the past
    returns the error "invitation has expired" with no membership, and the
    handler answers 400 "This invitation has expired". The transaction is
    rolled back after its single read: the tables are those the call found
    (up to what other callers committed meanwhile, nothing when [others] is
    [quiet]), so the row keeps its status and no Membership row appears. *)
Theorem C3_expired_accept_changes_nothing
    (others : Interference) (now : Time) (newID : UUID) (user : User.t)
    (token : string) (w : World) (inv : Invitation.t) :
  token <> "" ->
  First inv_ltb (inv_by_token token) (invitations (tables w)) = Some inv ->
  Invitation.Status inv = StatusPending ->
  Invitation.ExpiresAt inv < now ->
  AcceptInvitation others now newID (User.ID user) token w
    = ((None, inv, Some (errors_New "invitation has expired")),
       mkWorld (others (tables w))
               (Rollback :: Select "invitations" :: Begin :: log w))
  /\ PostAcceptInvitation others now newID (ctx_User (Some user)) token w
    = (inr (HTTPError StatusBadRequest "This invitation has expired"),
       mkWorld (others (tables w))
               (Rollback :: Select "invitations" :: Begin :: log w))
  /\ AcceptInvitation quiet now newID (User.ID user) token w
    = ((None, inv, Some (errors_New "invitation has expired")),
       mkWorld (tables w)
               (Rollback :: Select "invitations" :: Begin :: log w)).
Proof.
  intros Htok Hfind Hst Hexp.
  assert (Hrun : forall o,
    AcceptInvitation o now newID (User.ID user) token w
    = ((None, inv, Some (errors_New "invitation has expired")),
       mkWorld (o (tables w))
               (Rollback :: Select "invitations" :: Begin :: log w))).
  { intros o.
    unfold AcceptInvitation, Transaction, TransactionBy, AcceptInvitation_tx,
      bind, query, ret. simpl.
    rewrite Hfind, Hst. simpl.
    unfold After. replace (Invitation.ExpiresAt inv <? now) with true
      by (symmetry; apply Z.ltb_lt; assumption).
    reflexivity. }
  split; [apply Hrun|]. split; [|apply (Hrun quiet)].
  unfold PostAcceptInvitation.
  apply String.eqb_neq in Htok. rewrite Htok.
  unfold bind at 1. rewrite Hrun. reflexivity.
Qed.

(** ** Existing memberships *)

Ltac run_accept :=
  unfold AcceptInvitation, Transaction, TransactionBy, AcceptInvitation_tx,
    FirstOrCreate_membership, Create_membership, UpdateStatusIfPending,
    Refetch, interfere, modify, statement, bind, query, ret; simpl.

(** C10. When a visible Membership row for the accepting user and the
    invitation's team exists, [AcceptInvitation] inserts nothing and writes
    nothing into the memberships table, whatever the outcome: the table is
    the one the call found (up to what other callers committed), and a
    successful call hands back the stored row with its stored role, also
    when the invitation offers another role. When no such row exists and
    the call succeeds, the returned membership is the inserted row and it
    carries the invitation's role. *)
Theorem C10_existing_membership_role_kept
    (others : Interference) (now : Time) (newID userID : UUID)
    (token : string) (w : World) (inv : Invitation.t) :
  First inv_ltb (inv_by_token token) (invitations (tables w)) = Some inv ->
  (forall existing,
     First mem_ltb (mem_by_user_team userID (Invitation.TeamID inv))
       (memberships (tables w)) = Some existing ->
     let r := AcceptInvitation others now newID userID token w in
     memberships (tables (snd r)) = memberships (others (tables w))
     /\ (forall a, In a (log (snd r)) -> In a (log w) \/ a <> Insert "memberships")
     /\ (snd (fst r) = None -> fst (fst (fst r)) = Some existing))
  /\ (First mem_ltb (mem_by_user_team userID (Invitation.TeamID inv))
        (memberships (tables w)) = None ->
      forall m i w',
        AcceptInvitation quiet now newID userID token w = ((Some m, i, None), w') ->
        Membership.Role m = Invitation.Role inv
        /\ Membership.UserID m = userID
        /\ Membership.TeamID m = Invitation.TeamID inv
        /\ memberships (tables w') = (memberships (tables w) ++ [m])%list).
Proof.
  intros Hinv. split.
  - intros existing Hmem. run_accept. rewrite Hinv.
    destruct (negb (Invitation.Status inv =? StatusPending)%string); simpl.
    { repeat split; try discriminate.
      intros a [<-|[<-|[<-|H]]]; auto; right; discriminate. }
    destruct (After now (Invitation.ExpiresAt inv)); simpl.
    { repeat split; try discriminate.
      intros a [<-|[<-|[<-|H]]]; auto; right; discriminate. }
    destruct (First user_ltb (user_by_id userID) (users (tables w))) as [u|]; simpl.
    2:{ repeat split; try discriminate.
        intros a [<-|[<-|[<-|[<-|H]]]]; auto; right; discriminate. }
    destruct (negb (User.Email u =? Invitation.Email inv)%string); simpl.
    { repeat split; try discriminate.
      intros a [<-|[<-|[<-|[<-|H]]]]; auto; right; discriminate. }
    rewrite Hmem. simpl.
    destruct (RowsAffected (inv_guard (Invitation.ID inv))
                (invitations (others (tables w))) =? 0)%nat; simpl.
    + match goal with
      | |- context [First inv_ltb ?c ?l] => destruct (First inv_ltb c l)
      end; simpl;
      (repeat split; try discriminate;
       intros a [<-|[<-|[<-|[<-|[<-|[<-|[<-|H]]]]]]]; auto; right; discriminate).
    + repeat split; auto.
      intros a [<-|[<-|[<-|[<-|[<-|[<-|H]]]]]]; auto; right; discriminate.
  - intros Hmem m i w'. run_accept. rewrite Hinv.
    destruct (negb (Invitation.Status inv =? StatusPending)%string); simpl;
      [discriminate|].
    destruct (After now (Invitation.ExpiresAt inv)); simpl; [discriminate|].
    destruct (First user_ltb (user_by_id userID) (users (tables w))) as [u|]; simpl;
      [|discriminate].
    destruct (negb (User.Email u =? Invitation.Email inv)%string); simpl;
      [discriminate|].
    rewrite Hmem. unfold Membership_BeforeCreate. simpl.
    destruct (valid_membership_role (Invitation.Role inv)); simpl; [|discriminate].
    match goal with
    | |- context [existsb ?f ?l] => destruct (existsb f l)
    end; simpl; [discriminate|].
    unfold quiet. simpl.
    match goal with
    | |- context [(?n =? 0)%nat] => destruct (n =? 0)%nat
    end; simpl.
    + match goal with
      | |- context [First inv_ltb ?c ?l] => destruct (First inv_ltb c l)
      end; simpl; discriminate.
    + intros H. inversion H; subst; clear H. simpl. auto.
Qed.

(** ** Stored invitation statuses *)

Section Preservation.
Variable P : Tables -> Prop.

Lemma preserves_ret {A} (a : A) : preserves P (ret a).
Proof. intros w H. exact H. Qed.

Lemma preserves_bind {A B} (m : M A) (k : A -> M B) :
  preserves P m -> (forall a, preserves P (k a)) -> preserves P (bind m k).
Proof.
  intros Hm Hk w H. unfold bind. specialize (Hm w H).
  destruct (m w) as [a w1]. simpl in Hm. apply Hk. exact Hm.
Qed.

Lemma preserves_query {A} (table : string) (f : Tables -> A) :
  preserves P (query table f).
Proof. intros w H. exact H. Qed.

Lemma preserves_trace (a : Access) : preserves P (trace a).
Proof. intros w H. exact H. Qed.

Lemma preserves_TransactionBy {R} (failed : R -> bool) (others : Interference)
    (body : M R) :
  (forall t, P t -> P (others t)) ->
  preserves P body -> preserves P (TransactionBy failed others body).
Proof.
  intros Ho Hb w H. unfold TransactionBy.
  specialize (Hb (mkWorld (tables w) (Begin :: log w)) H).
  destruct (body _) as [r w1]. simpl in Hb.
  destruct (failed r); simpl; auto.
Qed.

Lemma preserves_statement {A} (f : Tables -> Access * A * Tables) :
  (forall t, P t -> P (snd (f t))) -> preserves P (statement f).
Proof.
  intros Hf w H. unfold statement. specialize (Hf (tables w) H).
  destruct (f (tables w)) as [[a r] t']. exact Hf.
Qed.
End Preservation.

(** Destructs the scrutinee of every branch the handlers take. *)
Ltac pres_step :=
  match goal with
  | |- preserves _ (ret _) => apply preserves_ret
  | |- preserves _ (query _ _) => apply preserves_query
  | |- preserves _ (trace _) => apply preserves_trace
  | |- preserves _ (bind _ _) => apply preserves_bind; [|intros ?]
  | |- preserves _ (if ?b then _ else _) => destruct b
  | |- preserves _ (match ?x with _ => _ end) => destruct x
  | |- preserves _ (let '(_, _) := ?x in _) => destruct x
  end.

Section InvitationsOnly.
(** Properties that only read the invitations table. *)
Variable Q : list Invitation.t -> Prop.
Let P := fun t => Q (invitations t).

Lemma FirstOrCreate_membership_preserves now newID userID teamID m :
  preserves P (FirstOrCreate_membership now newID userID teamID m).
Proof.
  unfold FirstOrCreate_membership, Create_membership.
  repeat pres_step.
  apply preserves_statement. intros tb Htb.
  destruct (existsb _ _); exact Htb.
Qed.

Lemma FindMembershipByUserAndTeam_preserves userID teamID :
  preserves P (FindMembershipByUserAndTeam userID teamID).
Proof. unfold FindMembershipByUserAndTeam. repeat pres_step. Qed.

Lemma FindUserByEmail_preserves email : preserves P (FindUserByEmail email).
Proof. unfold FindUserByEmail. repeat pres_step. Qed.

Lemma UpdateStatusIfPending_preserves now id s :
  (forall l, Q l ->
     Q (UpdateWhere (inv_guard id)
          (fun r => Invitation.set_UpdatedAt now (Invitation.set_Status s r)) l)) ->
  preserves P (UpdateStatusIfPending now id s).
Proof.
  intros H. apply preserves_statement. intros t Ht. simpl. apply H. exact Ht.
Qed.

Lemma Refetch_preserves c i : preserves P (Refetch c i).
Proof. unfold Refetch. repeat pres_step. Qed.
End InvitationsOnly.

Lemma stored_after_status_update now id s l :
  stored_status s ->
  Forall (fun i => stored_status (Invitation.Status i)) l ->
  Forall (fun i => stored_status (Invitation.Status i))
    (UpdateWhere (inv_guard id)
       (fun r => Invitation.set_UpdatedAt now (Invitation.set_Status s r)) l).
Proof.
  intros Hs H. unfold UpdateWhere. rewrite Forall_forall in *.
  intros x Hx. apply in_map_iff in Hx. destruct Hx as [r [E Hin]].
  destruct (inv_guard id r); subst; simpl; auto.
Qed.

Lemma stored_after_soft_delete now id l :
  Forall (fun i => stored_status (Invitation.Status i)) l ->
  Forall (fun i => stored_status (Invitation.Status i))
    (UpdateWhere (inv_by_id id) (Invitation.set_DeletedAt (Some now)) l).
Proof.
  intros H. unfold UpdateWhere. rewrite Forall_forall in *.
  intros x Hx. apply in_map_iff in Hx. destruct Hx as [r [E Hin]].
  destruct (inv_by_id id r); subst; simpl; auto.
Qed.

Lemma AcceptInvitation_statuses now newID userID token :
  preserves statuses_stored (AcceptInvitation quiet now newID userID token).
Proof.
  unfold AcceptInvitation, Transaction, AcceptInvitation_tx.
  apply preserves_bind.
  - apply preserves_TransactionBy; [auto|].
    repeat first
      [ apply (FirstOrCreate_membership_preserves
                 (Forall (fun i => stored_status (Invitation.Status i))))
      | apply (Refetch_preserves
                 (Forall (fun i => stored_status (Invitation.Status i))))
      | apply (UpdateStatusIfPending_preserves
                 (Forall (fun i => stored_status (Invitation.Status i))));
        intros l Hl; apply stored_after_status_update;
        [right; left; reflexivity | exact Hl]
      | pres_step
      | (intros w H; exact H) ].
  - intros [[i m] [e|]]; apply preserves_ret.
Qed.

Lemma PostAcceptInvitation_statuses now newID c token :
  preserves statuses_stored (PostAcceptInvitation quiet now newID c token).
Proof.
  unfold PostAcceptInvitation.
  repeat first [ apply AcceptInvitation_statuses | pres_step ].
Qed.

Lemma UpdateInvitationStatus_statuses now id s :
  stored_status s ->
  preserves statuses_stored (UpdateInvitationStatus quiet now id s).
Proof.
  intros Hs. unfold UpdateInvitationStatus.
  repeat first
    [ apply (Refetch_preserves
               (Forall (fun i => stored_status (Invitation.Status i))))
    | apply (UpdateStatusIfPending_preserves
               (Forall (fun i => stored_status (Invitation.Status i))));
      intros l Hl; apply stored_after_status_update; [exact Hs | exact Hl]
    | pres_step
    | (intros w H; exact H) ].
Qed.

Lemma PostDeclineInvitation_statuses now c token :
  preserves statuses_stored (PostDeclineInvitation quiet now c token).
Proof.
  unfold PostDeclineInvitation, FindInvitationByTokenWithTeam.
  repeat first
    [ apply UpdateInvitationStatus_statuses; right; right; reflexivity
    | pres_step ].
Qed.

Lemma SoftDelete_invitation_preserves (Q : list Invitation.t -> Prop) now id :
  (forall l, Q l ->
     Q (UpdateWhere (inv_by_id id) (Invitation.set_DeletedAt (Some now)) l)) ->
  preserves (fun t => Q (invitations t)) (SoftDelete_invitation now id).
Proof.
  intros H. apply preserves_statement. intros t Ht. simpl. apply H. exact Ht.
Qed.

Lemma DeleteCancelInvitation_preserves (Q : list Invitation.t -> Prop)
    ext now c teamID invitationID :
  (forall id l, Q l ->
     Q (UpdateWhere (inv_by_id id) (Invitation.set_DeletedAt (Some now)) l)) ->
  preserves (fun t => Q (invitations t))
    (DeleteCancelInvitation ext now c teamID invitationID).
Proof.
  intros HQ.
  unfold DeleteCancelInvitation, FindInvitationByIDAndTeam, DeleteInvitation.
  repeat first
    [ apply (FindMembershipByUserAndTeam_preserves Q)
    | apply SoftDelete_invitation_preserves; apply HQ
    | pres_step ].
Qed.

Lemma CreateInvitation_statuses now newID newToken inv :
  Invitation.Status inv = StatusPending ->
  preserves statuses_stored (CreateInvitation now newID newToken inv).
Proof.
  intros Hst. unfold CreateInvitation.
  destruct (Invitation_BeforeCreate now newID newToken inv) as [inv1 e] eqn:E.
  destruct e; [apply preserves_ret|].
  assert (H1 : Invitation.Status inv1 = StatusPending).
  { unfold Invitation_BeforeCreate in E. rewrite Hst in E. simpl in E.
    destruct (Invitation.Token inv =? "")%string;
      [destruct newToken|];
      repeat match type of E with
             | context [if ?b then _ else _] => destruct b
             end; inversion E; subst; reflexivity. }
  apply preserves_statement. intros t Ht.
  destruct (existsb _ _); simpl; [exact Ht|].
  unfold statuses_stored in *. simpl. apply Forall_app. split; [exact Ht|].
  constructor; [|constructor]. simpl. left. exact H1.
Qed.

Lemma PostInviteMember_statuses ext now newID newToken c teamID email role :
  preserves statuses_stored
    (PostInviteMember ext now newID newToken c teamID email role).
Proof.
  unfold PostInviteMember, FindPendingInvitationByTeamAndEmail.
  repeat first
    [ apply (FindMembershipByUserAndTeam_preserves
               (Forall (fun i => stored_status (Invitation.Status i))))
    | apply (FindUserByEmail_preserves
               (Forall (fun i => stored_status (Invitation.Status i))))
    | apply CreateInvitation_statuses; reflexivity
    | pres_step ].
Qed.

Lemma serve_statuses ext r t :
  statuses_stored t -> statuses_stored (serve ext r t).
Proof.
  intros H. destruct r; simpl.
  - apply (PostInviteMember_statuses ext now newID newToken c teamID email role
             (mkWorld t [])). exact H.
  - apply (PostAcceptInvitation_statuses now newID c token (mkWorld t [])). exact H.
  - apply (PostDeclineInvitation_statuses now c token (mkWorld t [])). exact H.
  - apply (DeleteCancelInvitation_preserves
             (Forall (fun i => stored_status (Invitation.Status i)))
             ext now c teamID invitationID); [|exact H].
    intros id l Hl. apply stored_after_soft_delete. exact Hl.
Qed.

Lemma reachable_statuses ext t : reachable ext t -> statuses_stored t.
Proof.
  induction 1 as [t H | t r _ IH | t t' _ IH E].
  - unfold statuses_stored. rewrite H. constructor.
  - apply serve_statuses. exact IH.
  - unfold statuses_stored in *. rewrite E. exact IH.
Qed.

Lemma soft_delete_keeps_statuses now id l :
  map Invitation.Status
    (UpdateWhere (inv_by_id id) (Invitation.set_DeletedAt (Some now)) l)
  = map Invitation.Status l.
Proof.
  unfold UpdateWhere. rewrite map_map. apply map_ext.
  intros r. destruct (inv_by_id id r); reflexivity.
Qed.

Lemma inv_by_id_team_ID id teamID i :
  inv_by_id_team id teamID i = true -> Invitation.ID i = id /\ inv_live i = true.
Proof.
  unfold inv_by_id_team. intros H.
  apply andb_true_iff in H. destruct H as [H _].
  apply andb_true_iff in H. destruct H as [H1 H2].
  apply N.eqb_eq in H2. auto.
Qed.

Lemma inv_by_id_ID id i :
  inv_by_id id i = true -> Invitation.ID i = id /\ inv_live i = true.
Proof.
  unfold inv_by_id. intros H. apply andb_true_iff in H. destruct H as [H1 H2].
  apply N.eqb_eq in H2. auto.
Qed.

Lemma cancel_success_soft_deletes ext now c teamID invitationID w resp w' id :
  DeleteCancelInvitation ext now c teamID invitationID w = (inl resp, w') ->
  uuid_Parse ext invitationID = Some id ->
  invitations (tables w')
    = UpdateWhere (inv_by_id id) (Invitation.set_DeletedAt (Some now))
        (invitations (tables w))
  /\ exists inv, In inv (invitations (tables w))
       /\ Invitation.ID inv = id
       /\ Invitation.Status inv = StatusPending
       /\ Invitation.DeletedAt inv = None.
Proof.
  unfold DeleteCancelInvitation. intros H Hid.
  destruct c as [| |[u|]]; try discriminate.
  destruct (uuid_Parse ext teamID) as [team|]; try discriminate.
  rewrite Hid in H.
  unfold FindMembershipByUserAndTeam, FindInvitationByIDAndTeam, DeleteInvitation,
    SoftDelete_invitation, statement, bind, query, ret in H. simpl in H.
  destruct (First mem_ltb _ _) as [m|]; simpl in H; try discriminate.
  destruct (negb (isAdminOrOwner (Membership.Role m))); simpl in H; try discriminate.
  destruct (First inv_ltb (inv_by_id_team id team) (invitations (tables w)))
    as [inv|] eqn:Einv; simpl in H; try discriminate.
  destruct (String.eqb (Invitation.Status inv) StatusPending) eqn:Est;
    simpl in H; try discriminate.
  apply First_Some in Einv. destruct Einv as [Hin Hc].
  apply inv_by_id_team_ID in Hc. destruct Hc as [Hi Hl].
  destruct (First inv_ltb (inv_by_id (Invitation.ID inv)) (invitations (tables w)))
    as [inv'|] eqn:E2; simpl in H; try discriminate.
  apply First_Some in E2. destruct E2 as [_ Hc2].
  apply inv_by_id_ID in Hc2. destruct Hc2 as [Hi2 _].
  rewrite Hi2, Hi in H.
  destruct (RowsAffected (inv_by_id id) (invitations (tables w)) =? 0)%nat;
    simpl in H; try discriminate.
  inversion H; subst; clear H. simpl. split; [reflexivity|].
  exists inv. repeat split; auto.
  - apply String.eqb_eq. exact Est.
  - unfold inv_live, is_None in Hl. destruct (Invitation.DeletedAt inv);
      [discriminate|reflexivity].
Qed.

(** C9. In every store the application can reach, every Invitation row,
    visible or soft-deleted, has status pending, accepted or declined; in
    particular none is "expired" or "cancelled". Cancelling from such a
    store changes no status column, and a successful cancellation is the
    soft delete of the rows with that id, one of which was pending and
    visible. *)
Theorem C9_statuses_pending_accepted_declined (ext : External) (t : Tables) :
  reachable ext t ->
  Forall (fun i => stored_status (Invitation.Status i)
                   /\ Invitation.Status i <> StatusExpired
                   /\ Invitation.Status i <> "cancelled")
         (invitations t)
  /\ (forall now c teamID invitationID,
        let r := DeleteCancelInvitation ext now c teamID invitationID
                   (mkWorld t []) in
        map Invitation.Status (invitations (tables (snd r)))
          = map Invitation.Status (invitations t)
        /\ (forall resp id,
              fst r = inl resp ->
              uuid_Parse ext invitationID = Some id ->
              invitations (tables (snd r))
                = UpdateWhere (inv_by_id id) (Invitation.set_DeletedAt (Some now))
                    (invitations t)
              /\ exists inv, In inv (invitations t)
                   /\ Invitation.ID inv = id
                   /\ Invitation.Status inv = StatusPending
                   /\ Invitation.DeletedAt inv = None)).
Proof.
  intros Hr. split.
  - apply reachable_statuses in Hr. unfold statuses_stored in Hr.
    eapply Forall_impl; [|exact Hr]. intros i Hi. split; [exact Hi|].
    destruct Hi as [E|[E|E]]; rewrite E; split; discriminate.
  - intros now c teamID invitationID r. split.
    + apply (DeleteCancelInvitation_preserves
               (fun l => map Invitation.Status l = map Invitation.Status (invitations t))
               ext now c teamID invitationID); [|reflexivity].
      intros id l Hl. rewrite soft_delete_keeps_statuses. exact Hl.
    + intros resp id Hres Hid.
      apply (cancel_success_soft_deletes ext now c teamID invitationID
               (mkWorld t []) resp (snd r)); [|exact Hid].
      subst r. destruct (DeleteCancelInvitation _ _ _ _ _ _) as [x w']. simpl in *.
      rewrite Hres. reflexivity.
Qed.

(** ** The guarded transition when it affects no row *)


Lemma UpdateWhere_zero {A} (cond : A -> bool) (f : A -> A) (rows : list A) :
  (RowsAffected cond rows =? 0)%nat = true -> UpdateWhere cond f rows = rows.
Proof.
  intros H. apply Nat.eqb_eq in H. apply UpdateWhere_none.
  apply RowsAffected_zero. exact H.
Qed.

Lemma FirstOrCreate_membership_frame now newID userID teamID m w :
  let r := FirstOrCreate_membership now newID userID teamID m w in
  invitations (tables (snd r)) = invitations (tables w)
  /\ (log (snd r) = Select "memberships" :: log w
      \/ log (snd r) = Insert "memberships" :: Select "memberships" :: log w).
Proof.
  unfold FirstOrCreate_membership, Create_membership, statement, bind, query, ret.
  simpl. destruct (First mem_ltb _ _); simpl; [auto|].
  destruct (Membership_BeforeCreate newID m) as [m1 [e|]]; simpl; [auto|].
  destruct (existsb _ _); simpl; auto.
Qed.



(** ** The webhook processor *)

(** C5. When the signature check of a webhook request fails against the
    configured secret, [PostStripeWebhook] answers 400 and the world is the
    one it was called in: tables and access log are untouched, so no
    storage statement was issued. Consequently a run that touches the store
    at all has passed the signature check first. *)
Theorem C5_unverified_webhook_touches_nothing
    (ext : External) (cfg : StripeConfig) (now : Time) (newID : UUID)
    (req : WebhookRequest) (w : World) (payload : string) :
  Body req = Some payload ->
  WebhookSecret cfg <> "" ->
  (forall err,
     webhook_ConstructEvent ext payload (Stripe_Signature req) (WebhookSecret cfg)
       = inr err ->
     exists msg,
       PostStripeWebhook ext cfg now newID req w
         = (Returns (inr (HTTPError StatusBadRequest msg)), w))
  /\ (snd (PostStripeWebhook ext cfg now newID req w) <> w ->
      exists event,
        webhook_ConstructEvent ext payload (Stripe_Signature req)
          (WebhookSecret cfg) = inl event).
Proof.
  intros Hbody Hsecret.
  assert (H1 : forall err,
     webhook_ConstructEvent ext payload (Stripe_Signature req) (WebhookSecret cfg)
       = inr err ->
     exists msg,
       PostStripeWebhook ext cfg now newID req w
         = (Returns (inr (HTTPError StatusBadRequest msg)), w)).
  { intros err Herr. unfold PostStripeWebhook. rewrite Hbody.
    destruct (String.eqb (Stripe_Signature req) "").
    - eexists. reflexivity.
    - apply String.eqb_neq in Hsecret. rewrite Hsecret, Herr.
      eexists. reflexivity. }
  split; [exact H1|].
  intros Hchanged.
  destruct (webhook_ConstructEvent ext payload (Stripe_Signature req)
              (WebhookSecret cfg)) as [event|err] eqn:E.
  - exists event. reflexivity.
  - destruct (H1 err eq_refl) as [msg Hrun]. rewrite Hrun in Hchanged.
    exfalso. apply Hchanged. reflexivity.
Qed.

Lemma C5_unverified_webhook_witness :
  exists msg,
    PostStripeWebhook Sample.ext (mkStripeConfig "whsec" "sk") 100 77
      (mkWebhookRequest (Some "invoice.paid") "forged")
      (mkWorld Sample.store [])
    = (Returns (inr (HTTPError StatusBadRequest msg)), mkWorld Sample.store []).
Proof.
  apply (proj1 (C5_unverified_webhook_touches_nothing Sample.ext
                  (mkStripeConfig "whsec" "sk") 100 77
                  (mkWebhookRequest (Some "invoice.paid") "forged")
                  (mkWorld Sample.store []) "invoice.paid" eq_refl
                  ltac:(discriminate))
               "no signatures found matching the expected signature").
  reflexivity.
Defined.

(** C6. A verified subscription-updated event whose subscription id matches
    no local Subscription row is acknowledged with the success response, and
    the tables are left exactly as they were: the transaction consists of
    the one lookup and commits without a write. *)
Theorem C6_unknown_subscription_update_is_noop
    (ext : External) (cfg : StripeConfig) (now : Time) (newID : UUID)
    (req : WebhookRequest) (w : World) (payload : string)
    (event : StripeEvent.t) (sub : StripeSubscription.t) :
  Body req = Some payload ->
  Stripe_Signature req <> "" ->
  WebhookSecret cfg <> "" ->
  SecretKey cfg <> "" ->
  webhook_ConstructEvent ext payload (Stripe_Signature req) (WebhookSecret cfg)
    = inl event ->
  StripeEvent.Type_ event = "customer.subscription.updated" ->
  Unmarshal_Subscription ext (StripeEvent.Data_Raw event) = Some sub ->
  (forall s, In s (subscriptions (tables w)) ->
             Subscription.StripeSubscriptionID s <> StripeSubscription.ID sub) ->
  PostStripeWebhook ext cfg now newID req w
    = (Returns (inl (types_Response.mk true "Webhook received successfully")),
       mkWorld (tables w) (Commit :: Select "subscriptions" :: Begin :: log w))
  /\ handleSubscriptionUpdated now sub w
    = (Returns None,
       mkWorld (tables w) (Commit :: Select "subscriptions" :: Begin :: log w)).
Proof.
  intros Hbody Hsig Hsecret Hkey Hevent Htype Hsub Hnone.
  assert (Hfirst : First sub_ltb (sub_by_stripe_id (StripeSubscription.ID sub))
                     (subscriptions (tables w)) = None).
  { apply First_None. intros s Hs. unfold sub_by_stripe_id.
    apply String.eqb_neq. apply Hnone. exact Hs. }
  assert (Hh : handleSubscriptionUpdated now sub w
    = (Returns None,
       mkWorld (tables w) (Commit :: Select "subscriptions" :: Begin :: log w))).
  { unfold handleSubscriptionUpdated, TransactionBy, bind, query, ret. simpl.
    rewrite Hfirst. reflexivity. }
  split; [|exact Hh].
  unfold PostStripeWebhook. rewrite Hbody.
  apply String.eqb_neq in Hsig, Hsecret, Hkey.
  rewrite Hsig, Hsecret, Hevent, Hkey, Htype. simpl.
  rewrite Hsub. unfold bind. rewrite Hh. reflexivity.
Qed.

Lemma C6_unknown_subscription_update_witness :
  PostStripeWebhook Sample.ext (mkStripeConfig "whsec" "sk") 100 77
    (mkWebhookRequest (Some "customer.subscription.updated") "good")
    (mkWorld Sample.store [])
  = (Returns (inl (types_Response.mk true "Webhook received successfully")),
     mkWorld Sample.store [Commit; Select "subscriptions"; Begin]).
Proof.
  apply (proj1 (C6_unknown_subscription_update_is_noop Sample.ext
                  (mkStripeConfig "whsec" "sk") 100 77
                  (mkWebhookRequest (Some "customer.subscription.updated") "good")
                  (mkWorld Sample.store []) "customer.subscription.updated"
                  (StripeEvent.mk "evt_1" "customer.subscription.updated"
                     "customer.subscription.updated")
                  (StripeSubscription.mk "sub_unknown" "active" None 0 0 false)
                  eq_refl ltac:(discriminate) ltac:(discriminate)
                  ltac:(discriminate) eq_refl eq_refl eq_refl
                  ltac:(simpl; intros s [])) ).
Defined.

(** C7, at the failing inputs. A checkout-completed event whose customer or
    subscription object is absent makes [handleCheckoutSessionCompleted]
    panic on its first statement, which dereferences both for the log; it
    does not return the bad-request error. Only when both objects are
    present and a value is empty does it return 400 "Webhook payload missing
    required IDs", without any storage access. *)
Theorem C7_checkout_absent_object_panics
    (ext : External) (now : Time) (newID : UUID) (w : World) (ref : string)
    (customer : option StripeCustomer.t)
    (subscription : option StripeSubscription.t) :
  handleCheckoutSessionCompleted ext now newID
    (StripeCheckoutSession.mk ref None subscription) w
    = (Panics nil_dereference, w)
  /\ handleCheckoutSessionCompleted ext now newID
       (StripeCheckoutSession.mk ref customer None) w
    = (Panics nil_dereference, w)
  /\ (forall c s,
        ref = "" \/ StripeCustomer.ID c = "" \/ StripeSubscription.ID s = "" ->
        handleCheckoutSessionCompleted ext now newID
          (StripeCheckoutSession.mk ref (Some c) (Some s)) w
        = (Returns (Some (HTTPError StatusBadRequest
                            "Webhook payload missing required IDs")), w)).
Proof.
  split; [reflexivity|]. split.
  - unfold handleCheckoutSessionCompleted. simpl. destruct customer; reflexivity.
  - intros c s H. unfold handleCheckoutSessionCompleted. simpl.
    replace ((ref =? "")%string || (StripeCustomer.ID c =? "")%string
             || (StripeSubscription.ID s =? "")%string) with true; [reflexivity|].
    symmetry. destruct H as [H|[H|H]]; rewrite H; simpl;
      rewrite ?orb_true_r; reflexivity.
Qed.

(** C8, at the failing input. An invoice-paid event that is not linked to a
    subscription (nil [Subscription]) makes [handleInvoicePaid] panic on its
    first statement, which dereferences it for the log; it is not a no-op
    success. With a subscription object present the handler does what the
    claim says: it ignores the event unless the invoice is paid and the id
    is not empty, and otherwise sets the status of the rows with that id to
    "active" and succeeds, also when there is no such row. *)
Theorem C8_invoice_paid_unlinked_panics
    (now : Time) (w : World) (id status : string) :
  handleInvoicePaid now (StripeInvoice.mk id status None) w
    = (Panics nil_dereference, w)
  /\ (forall s,
        status <> InvoiceStatusPaid \/ StripeSubscription.ID s = "" ->
        handleInvoicePaid now (StripeInvoice.mk id status (Some s)) w
          = (Returns None, w))
  /\ (forall s,
        status = InvoiceStatusPaid -> StripeSubscription.ID s <> "" ->
        let sid := StripeSubscription.ID s in
        handleInvoicePaid now (StripeInvoice.mk id status (Some s)) w
        = (Returns None,
           mkWorld
             (set_subscriptions
                (UpdateWhere (sub_by_stripe_id sid)
                   (fun r =>
                      Subscription.mk (Subscription.ID r) (Subscription.UserID r)
                        (Subscription.PlanID r)
                        (Subscription.StripeSubscriptionID r)
                        SubscriptionStatusActive
                        (Subscription.CurrentPeriodStart r)
                        (Subscription.CurrentPeriodEnd r)
                        (Subscription.CancelAtPeriodEnd r)
                        (Subscription.CreatedAt r) now)
                   (subscriptions (tables w)))
                (tables w))
             (Commit
              :: Update "subscriptions"
                   (RowsAffected (sub_by_stripe_id sid) (subscriptions (tables w)))
              :: Begin :: log w))).
Proof.
  split; [reflexivity|]. split.
  - intros s H. unfold handleInvoicePaid. simpl.
    replace (negb (status =? InvoiceStatusPaid)%string
             || (StripeSubscription.ID s =? "")%string) with true; [reflexivity|].
    symmetry. destruct H as [H|H].
    + apply String.eqb_neq in H. rewrite H. reflexivity.
    + rewrite H. simpl. apply orb_true_r.
  - intros s Hpaid Hid sid. unfold handleInvoicePaid. simpl.
    apply String.eqb_neq in Hid. rewrite Hid, Hpaid. simpl.
    reflexivity.
Qed.

(** C4, at the failing input. The checkout of sub_1 is processed and creates
    the row; a subscription-updated event then records that the
    subscription cancels at period end; the provider detail meanwhile says
    it does not. The checkout event is now delivered twice more: both runs
    succeed, there is exactly one row for sub_1, and its
    cancel-at-period-end flag is still [true], not the [false] of the
    delivery, because the struct given to [Assign] carries [false] as a zero
    value, which is not written. *)
Theorem C4_redelivered_checkout_keeps_stale_flag :
  let first := handleCheckoutSessionCompleted Sample.ext 10 30 Sample.session
                 (mkWorld Sample.billing_store []) in
  let updated := handleSubscriptionUpdated 20 Sample.cancelling (snd first) in
  let again := handleCheckoutSessionCompleted Sample.ext 30 31 Sample.session
                 (snd updated) in
  let twice := handleCheckoutSessionCompleted Sample.ext 40 32 Sample.session
                 (snd again) in
  fst first = Returns None
  /\ map delivered_columns (subscriptions (tables (snd first)))
     = [("sub_1", "pro", "active", 1000, 2000, false)]
  /\ fst updated = Returns None
  /\ fst again = Returns None
  /\ fst twice = Returns None
  /\ subscription_Get Sample.ext "sub_1"
     = inl (StripeSubscription.mk "sub_1" "active"
              (Some [Some (StripeSubscriptionItem.mk
                             (Some (StripePrice.mk "price_pro")))])
              1000 2000 false)
  /\ map delivered_columns (subscriptions (tables (snd twice)))
     = [("sub_1", "pro", "active", 1000, 2000, true)].
Proof.
  vm_compute. repeat split; reflexivity.
Qed.

(** ** Redelivered checkouts on a store without the subscription *)

Lemma handleCheckoutSessionCompleted_success ext now newID session w w1 :
  handleCheckoutSessionCompleted ext now newID session w = (Returns None, w1) ->
  exists c s0 userID sub item price plan,
    StripeCheckoutSession.Customer session = Some c
    /\ StripeCheckoutSession.Subscription session = Some s0
    /\ StripeSubscription.ID s0 <> ""
    /\ uuid_Parse ext (StripeCheckoutSession.ClientReferenceID session) = Some userID
    /\ subscription_Get ext (StripeSubscription.ID s0) = inl sub
    /\ (exists rest, StripeSubscription.Items sub = Some (Some item :: rest))
    /\ StripeSubscriptionItem.Price item = Some price
    /\ First plan_ltb (plan_by_price (StripePrice.ID price)) (plans (tables w))
       = Some plan
    /\ plans (tables w1) = plans (tables w)
    /\ exists wu,
         subscriptions (tables wu) = subscriptions (tables w)
         /\ FirstOrCreate_subscription now newID (StripeSubscription.ID s0)
              (Subscription.mk uuid_Nil userID (Plan.ID plan)
                 (StripeSubscription.ID s0) (StripeSubscription.Status sub)
                 (StripeSubscription.CurrentPeriodStart sub)
                 (StripeSubscription.CurrentPeriodEnd sub)
                 (StripeSubscription.CancelAtPeriodEnd sub) zeroTime zeroTime)
              wu
            = (None, mkWorld (tables w1) (tl (log w1))).
Proof.
  unfold handleCheckoutSessionCompleted.
  destruct (StripeCheckoutSession.Customer session) as [c|] eqn:Ec;
    [|destruct (StripeCheckoutSession.Subscription session); discriminate].
  destruct (StripeCheckoutSession.Subscription session) as [s0|] eqn:Es;
    [|discriminate].
  destruct (String.eqb (StripeCheckoutSession.ClientReferenceID session) "") eqn:E1;
    simpl; [discriminate|].
  destruct (String.eqb (StripeCustomer.ID c) "") eqn:E2; simpl; [discriminate|].
  destruct (String.eqb (StripeSubscription.ID s0) "") eqn:E3; simpl; [discriminate|].
  destruct (uuid_Parse ext _) as [userID|] eqn:Eu; [|discriminate].
  destruct (subscription_Get ext _) as [sub|] eqn:Eg; [|discriminate].
  destruct (StripeSubscription.Items sub) as [[|[item|] rest]|] eqn:Ei;
    try discriminate.
  destruct (StripeSubscriptionItem.Price item) as [price|] eqn:Ep; [|discriminate].
  unfold FindPlanByPrice, TransactionBy, handleCheckoutSessionCompleted_tx,
    UpdateUserStripeCustomerID, statement, bind, query, ret. simpl.
  destruct (First plan_ltb _ _) as [plan|] eqn:Eplan; [|discriminate].
  destruct (First user_ltb _ _) as [u|]; simpl; [|discriminate].
  match goal with
  | |- context [if ?b then _ else _] => destruct b
  end; simpl; [discriminate|].
  match goal with
  | |- context [FirstOrCreate_subscription ?a ?b ?c ?d ?wu] =>
      destruct (FirstOrCreate_subscription a b c d wu) as [[e|] w2] eqn:Ef
  end; simpl; [discriminate|].
  intros H. inversion H; subst; clear H. simpl.
  exists c, s0, userID, sub, item, price, plan.
  split; [reflexivity|]. split; [reflexivity|].
  split; [apply String.eqb_neq; exact E3|].
  split; [assumption || reflexivity|]. split; [assumption || reflexivity|].
  split; [exists rest; assumption || reflexivity|].
  split; [exact Ep|]. split; [exact Eplan|].
  split.
  - revert Ef. unfold FirstOrCreate_subscription, statement, bind, query, ret.
    simpl. destruct (First sub_ltb _ _); simpl.
    + intros H; inversion H; reflexivity.
    + destruct (existsb _ _); intros H; inversion H; reflexivity.
  - eexists. split; [|rewrite Ef; destruct w2; reflexivity]. reflexivity.
Qed.

Lemma filter_none {A} (f : A -> bool) (l : list A) :
  (forall x, In x l -> f x = false) -> filter f l = [].
Proof.
  induction l as [|x l IH]; simpl; intros H; [reflexivity|].
  rewrite (H x (or_introl eq_refl)). apply IH. intros y Hy. apply H. right. exact Hy.
Qed.

Lemma sub_where_struct_false sid s :
  sid <> "" -> Subscription.StripeSubscriptionID s <> sid ->
  sub_where_struct sid s = false.
Proof.
  intros H1 H2. unfold sub_where_struct, sub_by_stripe_id.
  apply String.eqb_neq in H1, H2. rewrite H1, H2. reflexivity.
Qed.

Lemma assign_nonzero_columns now record r :
  delivered_columns r = delivered_columns record ->
  delivered_columns (assign_nonzero now record r) = delivered_columns record.
Proof.
  destruct record, r. unfold delivered_columns, assign_nonzero. simpl.
  intros H. inversion H; subst.
  repeat match goal with
         | |- context [if ?b then _ else _] => destruct b
         end; reflexivity.
Qed.

(** A first delivery on a store without the subscription inserts the row. *)
Lemma FirstOrCreate_subscription_fresh now newID sid record wu w' :
  sid <> "" ->
  (forall s, In s (subscriptions (tables wu)) ->
             Subscription.StripeSubscriptionID s <> sid) ->
  FirstOrCreate_subscription now newID sid record wu = (None, w') ->
  exists row,
    subscriptions (tables w') = (subscriptions (tables wu) ++ [row])%list
    /\ delivered_columns row = delivered_columns record.
Proof.
  intros Hsid Hnone.
  unfold FirstOrCreate_subscription, statement, bind, query, ret. simpl.
  assert (E : First sub_ltb (sub_where_struct sid) (subscriptions (tables wu)) = None).
  { apply First_None. intros s Hs. apply sub_where_struct_false; auto. }
  rewrite E. destruct (existsb _ _); intros H; inversion H; subst; clear H.
  simpl. eexists. split; reflexivity.
Qed.

(** A later delivery finds that row and rewrites it. *)
Lemma FirstOrCreate_subscription_again now newID sid record l row wu r w' :
  sid <> "" ->
  Subscription.StripeSubscriptionID record = sid ->
  subscriptions (tables wu) = (l ++ [row])%list ->
  (forall s, In s l -> Subscription.StripeSubscriptionID s <> sid) ->
  delivered_columns row = delivered_columns record ->
  FirstOrCreate_subscription now newID sid record wu = (r, w') ->
  exists row',
    filter (sub_by_stripe_id sid) (subscriptions (tables w')) = [row']
    /\ delivered_columns row' = delivered_columns record.
Proof.
  intros Hsid Hrec Hsubs Hl Hcols.
  assert (Hrow : Subscription.StripeSubscriptionID row = sid).
  { unfold delivered_columns in Hcols. inversion Hcols. congruence. }
  assert (Hwhere : sub_where_struct sid row = true).
  { unfold sub_where_struct, sub_by_stripe_id. rewrite Hrow, String.eqb_refl.
    apply orb_true_r. }
  unfold FirstOrCreate_subscription, statement, bind, query, ret. simpl.
  rewrite Hsubs.
  destruct (First sub_ltb (sub_where_struct sid) (l ++ [row])) as [existing|] eqn:E.
  2:{ exfalso. rewrite First_None in E.
      rewrite (E row) in Hwhere; [discriminate|].
      apply in_or_app. right. left. reflexivity. }
  apply First_Some in E. destruct E as [Hin Hc].
  assert (existing = row).
  { apply in_app_or in Hin. destruct Hin as [Hin|[Hin|[]]]; [|auto].
    rewrite (sub_where_struct_false sid existing Hsid (Hl _ Hin)) in Hc.
    discriminate. }
  subst existing. simpl.
  intros H. inversion H; subst; clear H. simpl.
  exists (assign_nonzero now record row). split.
  - rewrite Hsubs. unfold UpdateWhere. rewrite map_app, filter_app. simpl.
    rewrite Hwhere, N.eqb_refl. simpl.
    replace (filter _ (map _ l)) with (@nil Subscription.t).
    + simpl.
      assert (Hs : sub_by_stripe_id (Subscription.StripeSubscriptionID record)
                     (assign_nonzero now record row) = true).
      { unfold sub_by_stripe_id, assign_nonzero. simpl.
        destruct (String.eqb (Subscription.StripeSubscriptionID record) "");
          [rewrite Hrow|]; apply String.eqb_refl. }
      rewrite Hs. reflexivity.
    + symmetry. apply filter_none. intros x Hx.
      apply in_map_iff in Hx. destruct Hx as [y [Ey Hy]].
      rewrite (sub_where_struct_false _ y Hsid (Hl _ Hy)) in Ey. simpl in Ey.
      subst x. unfold sub_by_stripe_id. apply String.eqb_neq. apply Hl. exact Hy.
  - apply assign_nonzero_columns. exact Hcols.
Qed.

(** Redelivery on a store that has no row for the subscription: when both
    deliveries of a checkout-completed event succeed, exactly one row
    carries the external subscription id, and its plan, status, period and
    cancel-at-period-end flag are those of the delivery. *)
Lemma checkout_redelivery_on_fresh_store
    ext now1 id1 now2 id2 session s0 w w1 w2 :
  StripeCheckoutSession.Subscription session = Some s0 ->
  (forall s, In s (subscriptions (tables w)) ->
             Subscription.StripeSubscriptionID s <> StripeSubscription.ID s0) ->
  handleCheckoutSessionCompleted ext now1 id1 session w = (Returns None, w1) ->
  handleCheckoutSessionCompleted ext now2 id2 session w1 = (Returns None, w2) ->
  exists sub plan row,
    subscription_Get ext (StripeSubscription.ID s0) = inl sub
    /\ filter (sub_by_stripe_id (StripeSubscription.ID s0))
         (subscriptions (tables w2)) = [row]
    /\ delivered_columns row
       = (StripeSubscription.ID s0, Plan.ID plan, StripeSubscription.Status sub,
          StripeSubscription.CurrentPeriodStart sub,
          StripeSubscription.CurrentPeriodEnd sub,
          StripeSubscription.CancelAtPeriodEnd sub).
Proof.
  intros Hs Hnone H1 H2.
  apply handleCheckoutSessionCompleted_success in H1, H2.
  destruct H1 as (c & s1 & userID & sub & item & price & plan & _ & Es1 & Hsid
                  & Hu & Hg & [rest Hi] & Hp & Hplan & Hplans & wu & Hwu & Hf).
  destruct H2 as (c' & s2 & userID' & sub' & item' & price' & plan' & _ & Es2 & _
                  & Hu' & Hg' & [rest' Hi'] & Hp' & Hplan' & _ & wu' & Hwu' & Hf').
  rewrite Hs in Es1, Es2. inversion Es1; subst s1. inversion Es2; subst s2.
  rewrite Hu in Hu'. inversion Hu'; subst userID'.
  rewrite Hg in Hg'. inversion Hg'; subst sub'.
  rewrite Hi in Hi'. inversion Hi'; subst item' rest'.
  rewrite Hp in Hp'. inversion Hp'; subst price'.
  rewrite Hplans, Hplan in Hplan'. inversion Hplan'; subst plan'.
  apply FirstOrCreate_subscription_fresh in Hf; [|exact Hsid|].
  2:{ rewrite Hwu. exact Hnone. }
  destruct Hf as [row [Hrows Hcols]]. simpl in Hrows.
  rewrite Hwu in Hrows.
  eapply FirstOrCreate_subscription_again in Hf';
    [| exact Hsid | reflexivity | rewrite Hwu'; exact Hrows | exact Hnone
     | exact Hcols ].
  destruct Hf' as [row' [Hfilter Hcols']]. simpl in Hfilter.
  exists sub, plan, row'. split; [exact Hg|]. split; [exact Hfilter|].
  rewrite Hcols'. reflexivity.
Qed.

(** ** Instances *)

Lemma C3_expired_accept_witness :
  AcceptInvitation Sample.declined_meanwhile 2000 77 (User.ID Sample.alice) "K"
    (mkWorld Sample.store [])
    = ((None, Sample.invitation, Some (errors_New "invitation has expired")),
       mkWorld (Sample.declined_meanwhile Sample.store)
               [Rollback; Select "invitations"; Begin])
  /\ PostAcceptInvitation Sample.declined_meanwhile 2000 77
       (ctx_User (Some Sample.alice)) "K" (mkWorld Sample.store [])
    = (inr (HTTPError StatusBadRequest "This invitation has expired"),
       mkWorld (Sample.declined_meanwhile Sample.store)
               [Rollback; Select "invitations"; Begin])
  /\ AcceptInvitation quiet 2000 77 (User.ID Sample.alice) "K"
       (mkWorld Sample.store [])
    = ((None, Sample.invitation, Some (errors_New "invitation has expired")),
       mkWorld Sample.store [Rollback; Select "invitations"; Begin]).
Proof.
  apply (C3_expired_accept_changes_nothing Sample.declined_meanwhile 2000 77
           Sample.alice "K" (mkWorld Sample.store []) Sample.invitation).
  - discriminate.
  - reflexivity.
  - reflexivity.
  - simpl. lia.
Defined.

Lemma C9_statuses_witness :
  Forall (fun i => stored_status (Invitation.Status i)
                   /\ Invitation.Status i <> StatusExpired
                   /\ Invitation.Status i <> "cancelled")
    (invitations
       (serve Sample.ext (Cancel 300 (ctx_User (Some Sample.owner)) "team-5" "inv-10")
          (serve Sample.ext
             (Invite 100 10 (inl "K") (ctx_User (Some Sample.owner))
                "team-5" "a@x.com" "member")
             (mkTables [Sample.alice; Sample.owner] [] [Sample.ownership] [] [])))).
Proof.
  apply (C9_statuses_pending_accepted_declined Sample.ext).
  apply reach_request. apply reach_request. apply reach_start. reflexivity.
Defined.

Lemma C10_existing_membership_witness :
  let t := mkTables [Sample.alice; Sample.owner] [Sample.invitation]
             [Sample.ownership; Membership.mk 21 0 0 None 1 5 RoleAdmin] [] [] in
  let r := AcceptInvitation quiet 100 77 1 "K" (mkWorld t []) in
  memberships (tables (snd r)) = memberships t
  /\ (snd (fst r) = None ->
      fst (fst (fst r)) = Some (Membership.mk 21 0 0 None 1 5 RoleAdmin)).
Proof.
  intros t r.
  destruct (C10_existing_membership_role_kept quiet 100 77 1 "K" (mkWorld t [])
              Sample.invitation eq_refl) as [H _].
  destruct (H (Membership.mk 21 0 0 None 1 5 RoleAdmin) eq_refl) as [H1 [_ H3]].
  split; [exact H1 | exact H3].
Defined.

(** * Further properties *)

(** ** Invitation tokens *)

Lemma hex_byte_roundtrip (v : Byte.byte) :
  Byte.of_N (16 * unhex (hexdigit (N.shiftr (Byte.to_N v) 4))
             + unhex (hexdigit (N.land (Byte.to_N v) 15)))%N = Some v.
Proof. destruct v; reflexivity. Qed.

Lemma hex_byte_digits (v : Byte.byte) :
  is_hexdigit (hexdigit (N.shiftr (Byte.to_N v) 4)) = true
  /\ is_hexdigit (hexdigit (N.land (Byte.to_N v) 15)) = true.
Proof. destruct v; split; reflexivity. Qed.

Lemma DecodeString_two (hi lo : Ascii.ascii) (rest : string) :
  DecodeString (String hi (String lo rest))
  = match Byte.of_N (16 * unhex hi + unhex lo)%N with
    | Some v => v :: DecodeString rest
    | None => []
    end.
Proof. reflexivity. Qed.

Lemma DecodeString_EncodeToString (src : list Byte.byte) :
  DecodeString (EncodeToString src) = src.
Proof.
  induction src as [|v rest IH]; [reflexivity|].
  cbn [EncodeToString]. rewrite DecodeString_two, hex_byte_roundtrip, IH.
  reflexivity.
Qed.

Lemma EncodeToString_length (src : list Byte.byte) :
  String.length (EncodeToString src) = (2 * List.length src)%nat.
Proof.
  induction src as [|v rest IH]; [reflexivity|].
  cbn [EncodeToString String.length List.length]. rewrite IH. lia.
Qed.

Lemma EncodeToString_hex (src : list Byte.byte) :
  all_chars is_hexdigit (EncodeToString src) = true.
Proof.
  induction src as [|v rest IH]; [reflexivity|].
  cbn [EncodeToString all_chars].
  destruct (hex_byte_digits v) as [H1 H2]. rewrite H1, H2, IH. reflexivity.
Qed.

Lemma rand_Read_filled n source b :
  rand_Read n source = inl b ->
  exists bytes, source = inl bytes /\ b = firstn n bytes
                /\ List.length b = n.
Proof.
  unfold rand_Read. destruct source as [bytes|e]; [|discriminate].
  destruct (n <=? List.length bytes)%nat eqn:E.
  2:{ destruct (List.length bytes =? 0)%nat; discriminate. }
  intros H. injection H as <-. apply Nat.leb_le in E.
  exists bytes. repeat split. rewrite length_firstn. lia.
Qed.

(** X1. A generated invitation token is 64 lower-case hex digits, so it is
    not empty and fills the 64-character token column exactly; it encodes
    the 32 random bytes without loss: decoding it gives the bytes back, so
    two tokens are equal only if the random bytes were. *)
Theorem X1_token_is_64_hex_digits_of_the_random_bytes
    (source : list Byte.byte + error) (token : string) :
  GenerateInvitationToken source = inl token ->
  String.length token = 64%nat
  /\ all_chars is_hexdigit token = true
  /\ token <> ""
  /\ exists bytes,
       source = inl bytes
       /\ DecodeString token = firstn 32 bytes
       /\ List.length (DecodeString token) = 32%nat.
Proof.
  unfold GenerateInvitationToken.
  destruct (rand_Read 32 source) as [b|e] eqn:E; [|discriminate].
  intros H. injection H as <-.
  apply rand_Read_filled in E. destruct E as [bytes [Hs [Hb L]]].
  split; [rewrite EncodeToString_length, L; reflexivity|].
  split; [apply EncodeToString_hex|].
  split.
  - intros C. apply (f_equal String.length) in C.
    rewrite EncodeToString_length, L in C. discriminate.
  - exists bytes. rewrite DecodeString_EncodeToString.
    split; [exact Hs|]. split; [exact Hb | exact L].
Qed.

Lemma X1_token_witness :
  String.length (EncodeToString (repeat Byte.xa7 32)) = 64%nat
  /\ all_chars is_hexdigit (EncodeToString (repeat Byte.xa7 32)) = true
  /\ EncodeToString (repeat Byte.xa7 32) <> ""
  /\ exists bytes,
       @inl _ error (repeat Byte.xa7 40) = inl bytes
       /\ DecodeString (EncodeToString (repeat Byte.xa7 32)) = firstn 32 bytes
       /\ List.length (DecodeString (EncodeToString (repeat Byte.xa7 32))) = 32%nat.
Proof.
  apply (X1_token_is_64_hex_digits_of_the_random_bytes
           (inl (repeat Byte.xa7 40))).
  reflexivity.
Defined.

(** ** More on queries *)

Section MoreRowsFacts.
Context {A : Type}.
Variable key_ltb : A -> A -> bool.
Variable cond : A -> bool.

Lemma First_map (g : A -> A) (rows : list A) :
  (forall r, cond (g r) = cond r) ->
  (forall a b, key_ltb (g a) (g b) = key_ltb a b) ->
  First key_ltb cond (map g rows) = option_map g (First key_ltb cond rows).
Proof.
  intros Hc Hk. induction rows as [|x rest IH]; simpl; [reflexivity|].
  rewrite IH. destruct (First key_ltb cond rest) as [r'|]; simpl.
  - rewrite Hc, Hk. destruct (cond x && negb (key_ltb r' x)); reflexivity.
  - rewrite Hc. destruct (cond x); reflexivity.
Qed.

Lemma First_unique (rows : list A) (x : A) :
  In x rows -> cond x = true ->
  (forall r, In r rows -> cond r = true -> r = x) ->
  First key_ltb cond rows = Some x.
Proof.
  intros Hin Hx Hall.
  destruct (First key_ltb cond rows) as [r|] eqn:E.
  - apply First_Some in E. destruct E as [Hr Hc]. f_equal. apply Hall; assumption.
  - pose proof (proj1 (First_None key_ltb cond rows) E) as E'.
    rewrite (E' x Hin) in Hx. discriminate.
Qed.

Lemma RowsAffected_pos (rows : list A) (x : A) :
  In x rows -> cond x = true -> (RowsAffected cond rows =? 0)%nat = false.
Proof.
  intros Hin Hx. apply Nat.eqb_neq. intros E.
  pose proof (proj1 (RowsAffected_zero cond rows) E) as E'.
  rewrite (E' x Hin) in Hx. discriminate.
Qed.
End MoreRowsFacts.

Lemma NoDup_map_eq {A B} (f : A -> B) (l : list A) (a b : A) :
  NoDup (map f l) -> In a l -> In b l -> f a = f b -> a = b.
Proof.
  induction l as [|x l IH]; simpl; intros Hnd Ha Hb E; [contradiction|].
  inversion Hnd as [|? ? Hnot Hnd']; subst.
  destruct Ha as [<-|Ha]; destruct Hb as [<-|Hb]; auto.
  - exfalso. apply Hnot. rewrite E. apply in_map. exact Hb.
  - exfalso. apply Hnot. rewrite <- E. apply in_map. exact Ha.
Qed.

Lemma no_visible_token (token : string) (l : list Invitation.t) :
  (forall i, In i l -> Invitation.DeletedAt i = None ->
             Invitation.Token i <> token) ->
  First inv_ltb (inv_by_token token) l = None.
Proof.
  intros H. apply First_None. intros i Hi. unfold inv_by_token, inv_live.
  destruct (Invitation.DeletedAt i) eqn:E; [reflexivity|]. simpl.
  apply String.eqb_neq. apply H; assumption.
Qed.

(** ** Guards of accepting and declining *)

(** X2. A token that no visible invitation carries (never issued, or its
    invitation cancelled) is answered with 404 by accept, decline and the
    details lookup; each does a single read and writes nothing. *)
Theorem X2_unknown_token_is_not_found
    (others : Interference) (now : Time) (newID : UUID) (user : User.t)
    (token : string) (w : World) :
  token <> "" ->
  (forall i, In i (invitations (tables w)) ->
             Invitation.DeletedAt i = None -> Invitation.Token i <> token) ->
  PostAcceptInvitation others now newID (ctx_User (Some user)) token w
    = (inr (HTTPError StatusNotFound "Invitation not found or invalid"),
       mkWorld (others (tables w))
               (Rollback :: Select "invitations" :: Begin :: log w))
  /\ PostDeclineInvitation others now (ctx_User (Some user)) token w
    = (inr (HTTPError StatusNotFound "Invitation not found or invalid"),
       mkWorld (tables w) (Select "invitations" :: log w))
  /\ GetInvitationDetails now token w
    = (inr (HTTPError StatusNotFound "Invitation not found or invalid"),
       mkWorld (tables w) (Select "invitations" :: log w)).
Proof.
  intros Htok Hnone. apply no_visible_token in Hnone.
  apply String.eqb_neq in Htok.
  unfold PostAcceptInvitation, PostDeclineInvitation, GetInvitationDetails,
    AcceptInvitation, Transaction, TransactionBy, AcceptInvitation_tx,
    FindInvitationByTokenWithTeam, bind, query, ret.
  rewrite Htok. simpl. rewrite Hnone. simpl. auto.
Qed.

Lemma X2_unknown_token_witness :
  PostAcceptInvitation quiet 100 77 (ctx_User (Some Sample.alice)) "L"
    (mkWorld Sample.store [])
    = (inr (HTTPError StatusNotFound "Invitation not found or invalid"),
       mkWorld Sample.store [Rollback; Select "invitations"; Begin])
  /\ PostDeclineInvitation quiet 100 (ctx_User (Some Sample.alice)) "L"
       (mkWorld Sample.store [])
    = (inr (HTTPError StatusNotFound "Invitation not found or invalid"),
       mkWorld Sample.store [Select "invitations"])
  /\ GetInvitationDetails 100 "L" (mkWorld Sample.store [])
    = (inr (HTTPError StatusNotFound "Invitation not found or invalid"),
       mkWorld Sample.store [Select "invitations"]).
Proof.
  apply (X2_unknown_token_is_not_found quiet 100 77 Sample.alice "L"
           (mkWorld Sample.store [])).
  - discriminate.
  - simpl. intros i [<-|[]] _. discriminate.
Defined.

(** X3. Once the invitation a token resolves to is no longer pending,
    accept, decline and the details lookup all answer 400 "This invitation
    is no longer pending" and write nothing: no status other than pending
    is ever left again through these calls. *)
Theorem X3_non_pending_invitation_is_refused
    (now : Time) (newID : UUID) (user : User.t) (token : string) (w : World)
    (inv : Invitation.t) :
  token <> "" ->
  First inv_ltb (inv_by_token token) (invitations (tables w)) = Some inv ->
  Invitation.Status inv <> StatusPending ->
  PostAcceptInvitation quiet now newID (ctx_User (Some user)) token w
    = (inr (HTTPError StatusBadRequest "This invitation is no longer pending"),
       mkWorld (tables w) (Rollback :: Select "invitations" :: Begin :: log w))
  /\ PostDeclineInvitation quiet now (ctx_User (Some user)) token w
    = (inr (HTTPError StatusBadRequest "This invitation is no longer pending"),
       mkWorld (tables w) (Select "teams" :: Select "invitations" :: log w))
  /\ GetInvitationDetails now token w
    = (inr (HTTPError StatusBadRequest "This invitation is no longer pending"),
       mkWorld (tables w) (Select "teams" :: Select "invitations" :: log w)).
Proof.
  intros Htok Hfind Hst.
  apply String.eqb_neq in Htok, Hst.
  unfold PostAcceptInvitation, PostDeclineInvitation, GetInvitationDetails,
    AcceptInvitation, Transaction, TransactionBy, AcceptInvitation_tx,
    FindInvitationByTokenWithTeam, bind, query, trace, ret.
  rewrite Htok. simpl. rewrite Hfind. simpl. rewrite Hst. simpl. auto.
Qed.

Lemma X3_non_pending_witness :
  let t := mkTables [Sample.alice] [Invitation.set_Status StatusDeclined Sample.invitation]
             [] [] [] in
  PostAcceptInvitation quiet 100 77 (ctx_User (Some Sample.alice)) "K" (mkWorld t [])
    = (inr (HTTPError StatusBadRequest "This invitation is no longer pending"),
       mkWorld t [Rollback; Select "invitations"; Begin])
  /\ PostDeclineInvitation quiet 100 (ctx_User (Some Sample.alice)) "K" (mkWorld t [])
    = (inr (HTTPError StatusBadRequest "This invitation is no longer pending"),
       mkWorld t [Select "teams"; Select "invitations"])
  /\ GetInvitationDetails 100 "K" (mkWorld t [])
    = (inr (HTTPError StatusBadRequest "This invitation is no longer pending"),
       mkWorld t [Select "teams"; Select "invitations"]).
Proof.
  intros t.
  apply (X3_non_pending_invitation_is_refused 100 77 Sample.alice "K"
           (mkWorld t []) (Invitation.set_Status StatusDeclined Sample.invitation)).
  - discriminate.
  - reflexivity.
  - discriminate.
Defined.

(** X4. Only the invited address can act on a pending, unexpired
    invitation. Accept compares the invitation's email with the email
    stored for the accepting user's id, decline with the email of the
    authenticated user; on a mismatch both answer 403 and write nothing. *)
Theorem X4_other_address_is_forbidden
    (now : Time) (newID : UUID) (user stored : User.t) (token : string)
    (w : World) (inv : Invitation.t) :
  token <> "" ->
  First inv_ltb (inv_by_token token) (invitations (tables w)) = Some inv ->
  Invitation.Status inv = StatusPending ->
  now <= Invitation.ExpiresAt inv ->
  (First user_ltb (user_by_id (User.ID user)) (users (tables w)) = Some stored ->
   User.Email stored <> Invitation.Email inv ->
   PostAcceptInvitation quiet now newID (ctx_User (Some user)) token w
     = (inr (HTTPError StatusForbidden
               "This invitation is not addressed to your email"),
        mkWorld (tables w)
          (Rollback :: Select "users" :: Select "invitations" :: Begin :: log w)))
  /\ (User.Email user <> Invitation.Email inv ->
      PostDeclineInvitation quiet now (ctx_User (Some user)) token w
        = (inr (HTTPError StatusForbidden
                  "This invitation is not addressed to your email"),
           mkWorld (tables w) (Select "teams" :: Select "invitations" :: log w))).
Proof.
  intros Htok Hfind Hst Hexp.
  apply String.eqb_neq in Htok.
  assert (Hafter : After now (Invitation.ExpiresAt inv) = false).
  { unfold After. apply Z.ltb_ge. exact Hexp. }
  split.
  - intros Hu Hne. apply String.eqb_neq in Hne.
    unfold PostAcceptInvitation, AcceptInvitation, Transaction, TransactionBy,
      AcceptInvitation_tx, bind, query, ret.
    rewrite Htok. simpl. rewrite Hfind. simpl. rewrite Hst. simpl.
    rewrite Hafter. simpl. rewrite Hu. simpl. rewrite Hne. reflexivity.
  - intros Hne.
    assert (Hne' : String.eqb (Invitation.Email inv) (User.Email user) = false).
    { apply String.eqb_neq. congruence. }
    unfold PostDeclineInvitation, FindInvitationByTokenWithTeam, bind, query,
      trace, ret.
    rewrite Htok. simpl. rewrite Hfind. simpl. rewrite Hst. simpl.
    rewrite Hafter, Hne'. reflexivity.
Qed.

Lemma X4_other_address_witness :
  PostAcceptInvitation quiet 100 77 (ctx_User (Some Sample.owner)) "K"
    (mkWorld Sample.store [])
    = (inr (HTTPError StatusForbidden
              "This invitation is not addressed to your email"),
       mkWorld Sample.store
         [Rollback; Select "users"; Select "invitations"; Begin])
  /\ PostDeclineInvitation quiet 100 (ctx_User (Some Sample.owner)) "K"
       (mkWorld Sample.store [])
    = (inr (HTTPError StatusForbidden
              "This invitation is not addressed to your email"),
       mkWorld Sample.store [Select "teams"; Select "invitations"]).
Proof.
  destruct (X4_other_address_is_forbidden 100 77 Sample.owner Sample.owner "K"
              (mkWorld Sample.store []) Sample.invitation
              ltac:(discriminate) eq_refl eq_refl ltac:(simpl; lia)) as [Ha Hd].
  split.
  - apply Ha; [reflexivity | discriminate].
  - apply Hd. discriminate.
Defined.

(** X5. Declining, or looking up the details of, a pending invitation
    whose expiry lies in the past answers 400 "This invitation has expired"
    and writes nothing; the row stays pending, as on the accept path. *)
Theorem X5_expired_invitation_cannot_be_declined
    (now : Time) (user : User.t) (token : string) (w : World)
    (inv : Invitation.t) :
  token <> "" ->
  First inv_ltb (inv_by_token token) (invitations (tables w)) = Some inv ->
  Invitation.Status inv = StatusPending ->
  Invitation.ExpiresAt inv < now ->
  PostDeclineInvitation quiet now (ctx_User (Some user)) token w
    = (inr (HTTPError StatusBadRequest "This invitation has expired"),
       mkWorld (tables w) (Select "teams" :: Select "invitations" :: log w))
  /\ GetInvitationDetails now token w
    = (inr (HTTPError StatusBadRequest "This invitation has expired"),
       mkWorld (tables w) (Select "teams" :: Select "invitations" :: log w)).
Proof.
  intros Htok Hfind Hst Hexp.
  apply String.eqb_neq in Htok.
  assert (Hafter : After now (Invitation.ExpiresAt inv) = true).
  { unfold After. apply Z.ltb_lt. exact Hexp. }
  unfold PostDeclineInvitation, GetInvitationDetails,
    FindInvitationByTokenWithTeam, bind, query, trace, ret.
  rewrite Htok. simpl. rewrite Hfind. simpl. rewrite Hst. simpl.
  rewrite Hafter. auto.
Qed.

Lemma X5_expired_decline_witness :
  PostDeclineInvitation quiet 2000 (ctx_User (Some Sample.alice)) "K"
    (mkWorld Sample.store [])
    = (inr (HTTPError StatusBadRequest "This invitation has expired"),
       mkWorld Sample.store [Select "teams"; Select "invitations"])
  /\ GetInvitationDetails 2000 "K" (mkWorld Sample.store [])
    = (inr (HTTPError StatusBadRequest "This invitation has expired"),
       mkWorld Sample.store [Select "teams"; Select "invitations"]).
Proof.
  apply (X5_expired_invitation_cannot_be_declined 2000 Sample.alice "K"
           (mkWorld Sample.store []) Sample.invitation).
  - discriminate.
  - reflexivity.
  - reflexivity.
  - simpl. lia.
Defined.

(** ** Accepting and declining: effect and finality *)

Lemma inv_by_token_guard token inv :
  inv_by_token token inv = true -> Invitation.Status inv = StatusPending ->
  inv_guard (Invitation.ID inv) inv = true.
Proof.
  unfold inv_by_token, inv_guard. intros H Hst.
  apply andb_true_iff in H. destruct H as [Hl _].
  rewrite Hl, N.eqb_refl, Hst. reflexivity.
Qed.

(** X6. Accepting a pending, unexpired invitation as the invited user who
    has no membership in the team inserts exactly one Membership row, for
    that user and team with the offered role, marks the invitation
    accepted, and answers success with status "accepted"; nothing else in
    the store changes. *)
Theorem X6_accept_inserts_membership_and_accepts
    (now : Time) (newID : UUID) (user stored : User.t) (token : string)
    (w : World) (inv : Invitation.t) :
  let row := Membership.mk newID now now None (User.ID user)
               (Invitation.TeamID inv) (Invitation.Role inv) in
  token <> "" ->
  First inv_ltb (inv_by_token token) (invitations (tables w)) = Some inv ->
  Invitation.Status inv = StatusPending ->
  now <= Invitation.ExpiresAt inv ->
  First user_ltb (user_by_id (User.ID user)) (users (tables w)) = Some stored ->
  User.Email stored = Invitation.Email inv ->
  First mem_ltb (mem_by_user_team (User.ID user) (Invitation.TeamID inv))
    (memberships (tables w)) = None ->
  valid_membership_role (Invitation.Role inv) = true ->
  existsb (membership_conflicts row) (memberships (tables w)) = false ->
  exists w',
    PostAcceptInvitation quiet now newID (ctx_User (Some user)) token w
      = (inl (types_InvitationResponse.mk true "Invitation accepted successfully"
                (types_Invitation.mk (Invitation.Email inv) (Invitation.TeamID inv)
                   (Invitation.Role inv) (Invitation.Token inv) StatusAccepted
                   (Invitation.ExpiresAt inv))),
         w')
    /\ tables w'
       = mkTables (users (tables w))
           (UpdateWhere (inv_guard (Invitation.ID inv))
              (assigned now StatusAccepted) (invitations (tables w)))
           (memberships (tables w) ++ [row])
           (plans (tables w)) (subscriptions (tables w))
    /\ In (assigned now StatusAccepted inv) (invitations (tables w')).
Proof.
  intros row Htok Hfind Hst Hexp Hu Hemail Hmem Hrole Hconf.
  apply String.eqb_neq in Htok.
  assert (Hafter : After now (Invitation.ExpiresAt inv) = false).
  { unfold After. apply Z.ltb_ge. exact Hexp. }
  pose proof (First_Some _ _ _ _ Hfind) as [Hin Hc].
  pose proof (inv_by_token_guard _ _ Hc Hst) as Hg.
  pose proof (RowsAffected_pos _ _ _ Hin Hg) as Hn.
  unfold PostAcceptInvitation. rewrite Htok.
  unfold AcceptInvitation, Transaction, TransactionBy, AcceptInvitation_tx,
    FirstOrCreate_membership, Create_membership, Membership_BeforeCreate,
    UpdateStatusIfPending, interfere, modify, statement, bind, query, ret, quiet.
  simpl. rewrite Hfind. simpl. rewrite Hst. simpl. rewrite Hafter. simpl.
  rewrite Hu. simpl. rewrite Hemail, String.eqb_refl. simpl.
  rewrite Hmem. simpl. rewrite Hrole. simpl.
  fold row. rewrite Hconf. simpl. rewrite Hn. simpl.
  eexists. split; [reflexivity|]. simpl. split; [reflexivity|].
  unfold UpdateWhere. apply in_map_iff. exists inv. rewrite Hg. auto.
Qed.

Lemma X6_accept_witness :
  exists w',
    PostAcceptInvitation quiet 100 77 (ctx_User (Some Sample.alice)) "K"
      (mkWorld Sample.store [])
      = (inl (types_InvitationResponse.mk true "Invitation accepted successfully"
                (types_Invitation.mk "a@x.com" 5 RoleMember "K" StatusAccepted 1000)),
         w')
    /\ tables w'
       = mkTables [Sample.alice; Sample.owner]
           (UpdateWhere (inv_guard 10) (assigned 100 StatusAccepted)
              [Sample.invitation])
           [Sample.ownership; Membership.mk 77 100 100 None 1 5 RoleMember] [] []
    /\ In (assigned 100 StatusAccepted Sample.invitation) (invitations (tables w')).
Proof.
  apply (X6_accept_inserts_membership_and_accepts 100 77 Sample.alice Sample.alice
           "K" (mkWorld Sample.store []) Sample.invitation);
    try reflexivity.
  - discriminate.
  - simpl. lia.
Defined.

Lemma unique_id_found_by_id (l : list Invitation.t) (inv : Invitation.t) :
  NoDup (map Invitation.ID l) -> In inv l -> inv_live inv = true ->
  First inv_ltb (inv_by_id (Invitation.ID inv)) l = Some inv.
Proof.
  intros Hnd Hin Hl. apply First_unique; [exact Hin| |].
  - unfold inv_by_id. rewrite Hl, N.eqb_refl. reflexivity.
  - intros r Hr Hc. apply inv_by_id_ID in Hc. destruct Hc as [E _].
    apply (NoDup_map_eq Invitation.ID l); assumption.
Qed.

(** X7. Declining a pending, unexpired invitation as the invited address
    marks it declined and answers success with status "declined"; the only
    table written is the invitations table, so no membership appears. *)
Theorem X7_decline_marks_invitation_declined
    (now : Time) (user : User.t) (token : string) (w : World)
    (inv : Invitation.t) :
  token <> "" ->
  NoDup (map Invitation.ID (invitations (tables w))) ->
  First inv_ltb (inv_by_token token) (invitations (tables w)) = Some inv ->
  Invitation.Status inv = StatusPending ->
  now <= Invitation.ExpiresAt inv ->
  Invitation.Email inv = User.Email user ->
  exists w',
    PostDeclineInvitation quiet now (ctx_User (Some user)) token w
      = (inl (types_InvitationResponse.mk true "Invitation declined successfully"
                (types_Invitation.mk (Invitation.Email inv) (Invitation.TeamID inv)
                   (Invitation.Role inv) (Invitation.Token inv) StatusDeclined
                   (Invitation.ExpiresAt inv))),
         w')
    /\ tables w'
       = set_invitations
           (UpdateWhere (inv_guard (Invitation.ID inv))
              (assigned now StatusDeclined) (invitations (tables w)))
           (tables w)
    /\ In (assigned now StatusDeclined inv) (invitations (tables w')).
Proof.
  intros Htok Hnd Hfind Hst Hexp Hemail.
  apply String.eqb_neq in Htok.
  assert (Hafter : After now (Invitation.ExpiresAt inv) = false).
  { unfold After. apply Z.ltb_ge. exact Hexp. }
  pose proof (First_Some _ _ _ _ Hfind) as [Hin Hc].
  pose proof (inv_by_token_guard _ _ Hc Hst) as Hg.
  pose proof (RowsAffected_pos _ _ _ Hin Hg) as Hn.
  assert (Hl : inv_live inv = true).
  { unfold inv_by_token in Hc. apply andb_true_iff in Hc. tauto. }
  pose proof (unique_id_found_by_id _ _ Hnd Hin Hl) as Hid.
  unfold PostDeclineInvitation. rewrite Htok.
  unfold FindInvitationByTokenWithTeam, UpdateInvitationStatus,
    UpdateStatusIfPending, interfere, modify, statement, bind, query, trace,
    ret, quiet.
  simpl. rewrite Hfind. simpl. rewrite Hst. simpl. rewrite Hafter. simpl.
  rewrite (proj2 (String.eqb_eq _ _) Hemail). simpl. rewrite Hid. simpl.
  rewrite Hst. simpl. rewrite Hn. simpl.
  eexists. split; [reflexivity|]. simpl. split; [reflexivity|].
  unfold UpdateWhere. apply in_map_iff. exists inv. rewrite Hg. auto.
Qed.

Lemma X7_decline_witness :
  exists w',
    PostDeclineInvitation quiet 100 (ctx_User (Some Sample.alice)) "K"
      (mkWorld Sample.store [])
      = (inl (types_InvitationResponse.mk true "Invitation declined successfully"
                (types_Invitation.mk "a@x.com" 5 RoleMember "K" StatusDeclined 1000)),
         w')
    /\ tables w'
       = set_invitations
           (UpdateWhere (inv_guard 10) (assigned 100 StatusDeclined)
              [Sample.invitation])
           Sample.store
    /\ In (assigned 100 StatusDeclined Sample.invitation) (invitations (tables w')).
Proof.
  apply (X7_decline_marks_invitation_declined 100 Sample.alice "K"
           (mkWorld Sample.store []) Sample.invitation);
    try reflexivity.
  - discriminate.
  - simpl. constructor; [intros []|constructor].
  - simpl. lia.
Defined.

Lemma First_token_after_update token id f (l : list Invitation.t) :
  (forall r, Invitation.Token (f r) = Invitation.Token r) ->
  (forall r, Invitation.DeletedAt r = None -> Invitation.DeletedAt (f r) = None) ->
  (forall r, Invitation.ID (f r) = Invitation.ID r) ->
  First inv_ltb (inv_by_token token) (UpdateWhere (inv_guard id) f l)
  = option_map (fun r => if inv_guard id r then f r else r)
      (First inv_ltb (inv_by_token token) l).
Proof.
  intros Ht Hd Hi. unfold UpdateWhere. apply First_map.
  - intros r. destruct (inv_guard id r) eqn:G; [|reflexivity].
    unfold inv_by_token, inv_live. rewrite Ht.
    unfold inv_guard, inv_live in G.
    destruct (Invitation.DeletedAt r) eqn:D; [discriminate|].
    rewrite (Hd r D). reflexivity.
  - intros a b. unfold inv_ltb.
    destruct (inv_guard id a), (inv_guard id b); rewrite ?Hi; reflexivity.
Qed.

Lemma refused_when_not_pending now newID user token w inv :
  token <> "" ->
  First inv_ltb (inv_by_token token) (invitations (tables w)) = Some inv ->
  Invitation.Status inv <> StatusPending ->
  PostAcceptInvitation quiet now newID (ctx_User (Some user)) token w
    = (inr (HTTPError StatusBadRequest "This invitation is no longer pending"),
       mkWorld (tables w) (Rollback :: Select "invitations" :: Begin :: log w))
  /\ PostDeclineInvitation quiet now (ctx_User (Some user)) token w
    = (inr (HTTPError StatusBadRequest "This invitation is no longer pending"),
       mkWorld (tables w) (Select "teams" :: Select "invitations" :: log w)).
Proof.
  intros Htok Hfind Hst.
  apply String.eqb_neq in Htok, Hst.
  unfold PostAcceptInvitation, PostDeclineInvitation,
    AcceptInvitation, Transaction, TransactionBy, AcceptInvitation_tx,
    FindInvitationByTokenWithTeam, bind, query, trace, ret.
  rewrite Htok. simpl. rewrite Hfind. simpl. rewrite Hst. simpl. auto.
Qed.

Lemma FirstOrCreate_membership_errors now newID userID teamID m w e :
  snd (fst (FirstOrCreate_membership now newID userID teamID m w)) = Some e ->
  e = errors_New "invalid membership role"
  \/ e = ErrDriver "duplicate key value violates unique constraint".
Proof.
  unfold FirstOrCreate_membership, Create_membership, Membership_BeforeCreate,
    statement, bind, query, ret. simpl.
  destruct (First mem_ltb _ _); simpl; [discriminate|].
  destruct (valid_membership_role _); simpl.
  - destruct (existsb _ _); simpl; intros H; [|discriminate].
    injection H as <-. auto.
  - intros H. injection H as <-. auto.
Qed.

Lemma accept_success_shape now newID c token w resp w' :
  PostAcceptInvitation quiet now newID c token w = (inl resp, w') ->
  token <> ""
  /\ exists inv,
       First inv_ltb (inv_by_token token) (invitations (tables w)) = Some inv
       /\ Invitation.Status inv = StatusPending
       /\ invitations (tables w')
          = UpdateWhere (inv_guard (Invitation.ID inv))
              (assigned now StatusAccepted) (invitations (tables w)).
Proof.
  unfold PostAcceptInvitation.
  destruct (String.eqb token "") eqn:Htok; [discriminate|].
  destruct c as [| |[user|]]; try discriminate.
  unfold AcceptInvitation, Transaction, TransactionBy, AcceptInvitation_tx,
    UpdateStatusIfPending, Refetch, interfere, modify, statement, bind,
    query, ret, quiet; simpl.
  destruct (First inv_ltb (inv_by_token token) (invitations (tables w)))
    as [inv|] eqn:Hfind; simpl; [|discriminate].
  destruct (String.eqb (Invitation.Status inv) StatusPending) eqn:Hst; simpl;
    [|discriminate].
  destruct (After now (Invitation.ExpiresAt inv)); simpl; [discriminate|].
  destruct (First user_ltb _ _) as [u|]; simpl; [|discriminate].
  destruct (negb (User.Email u =? Invitation.Email inv)%string); simpl;
    [discriminate|].
  match goal with
  | |- context [FirstOrCreate_membership ?a ?b ?c ?d ?e ?w0] =>
      pose proof (FirstOrCreate_membership_frame a b c d e w0) as Hframe;
      pose proof (FirstOrCreate_membership_errors a b c d e w0) as Herr;
      destruct (FirstOrCreate_membership a b c d e w0) as [[m1 e1] w1]
  end.
  simpl in Hframe, Herr. destruct Hframe as [Hinv _].
  apply String.eqb_eq in Hst.
  pose proof (First_Some _ _ _ _ Hfind) as [Hin Hc].
  pose proof (inv_by_token_guard _ _ Hc Hst) as Hg.
  rewrite <- Hinv in Hin.
  pose proof (RowsAffected_pos _ _ _ Hin Hg) as Hn.
  destruct e1 as [e1|]; simpl.
  { destruct (Herr e1 eq_refl) as [-> | ->]; discriminate. }
  rewrite Hn. simpl. intros H. injection H as _ <-. simpl.
  split; [apply String.eqb_neq; exact Htok|].
  exists inv. rewrite Hinv. auto.
Qed.

Lemma token_row_after_update now s token inv (l : list Invitation.t) :
  First inv_ltb (inv_by_token token) l = Some inv ->
  Invitation.Status inv = StatusPending ->
  First inv_ltb (inv_by_token token)
    (UpdateWhere (inv_guard (Invitation.ID inv)) (assigned now s) l)
  = Some (assigned now s inv).
Proof.
  intros Hfind Hst.
  rewrite First_token_after_update; try (intros; reflexivity).
  - rewrite Hfind. simpl.
    pose proof (First_Some _ _ _ _ Hfind) as [_ Hc].
    rewrite (inv_by_token_guard _ _ Hc Hst). reflexivity.
  - intros r H. exact H.
Qed.

(** X8. A successful accept spends the token: every later accept or decline
    with it, by anyone and at any time, answers 400 "This invitation is no
    longer pending" and writes nothing, so a second accept creates no second
    membership. *)
Theorem X8_accepted_invitation_is_spent
    (now : Time) (newID : UUID) (c : ContextValue) (token : string)
    (w w' : World) (resp : types_InvitationResponse.t)
    (now' : Time) (newID' : UUID) (user' : User.t) :
  PostAcceptInvitation quiet now newID c token w = (inl resp, w') ->
  PostAcceptInvitation quiet now' newID' (ctx_User (Some user')) token w'
    = (inr (HTTPError StatusBadRequest "This invitation is no longer pending"),
       mkWorld (tables w') (Rollback :: Select "invitations" :: Begin :: log w'))
  /\ PostDeclineInvitation quiet now' (ctx_User (Some user')) token w'
    = (inr (HTTPError StatusBadRequest "This invitation is no longer pending"),
       mkWorld (tables w') (Select "teams" :: Select "invitations" :: log w')).
Proof.
  intros H. apply accept_success_shape in H.
  destruct H as [Htok [inv [Hfind [Hst Hinv]]]].
  apply (refused_when_not_pending now' newID' user' token w'
           (assigned now StatusAccepted inv) Htok).
  - rewrite Hinv. apply token_row_after_update; assumption.
  - discriminate.
Qed.

Lemma X8_accepted_spent_witness :
  let w' := snd (PostAcceptInvitation quiet 100 77 (ctx_User (Some Sample.alice))
                   "K" (mkWorld Sample.store [])) in
  PostAcceptInvitation quiet 200 78 (ctx_User (Some Sample.alice)) "K" w'
    = (inr (HTTPError StatusBadRequest "This invitation is no longer pending"),
       mkWorld (tables w') (Rollback :: Select "invitations" :: Begin :: log w'))
  /\ PostDeclineInvitation quiet 200 (ctx_User (Some Sample.alice)) "K" w'
    = (inr (HTTPError StatusBadRequest "This invitation is no longer pending"),
       mkWorld (tables w') (Select "teams" :: Select "invitations" :: log w')).
Proof.
  intros w'.
  apply (X8_accepted_invitation_is_spent 100 77 (ctx_User (Some Sample.alice))
           "K" (mkWorld Sample.store []) w'
           (types_InvitationResponse.mk true "Invitation accepted successfully"
              (types_Invitation.mk "a@x.com" 5 RoleMember "K" StatusAccepted 1000))).
  reflexivity.
Defined.

Lemma decline_success_shape now c token w resp w' :
  NoDup (map Invitation.ID (invitations (tables w))) ->
  PostDeclineInvitation quiet now c token w = (inl resp, w') ->
  token <> ""
  /\ exists inv,
       First inv_ltb (inv_by_token token) (invitations (tables w)) = Some inv
       /\ Invitation.Status inv = StatusPending
       /\ tables w'
          = set_invitations
              (UpdateWhere (inv_guard (Invitation.ID inv))
                 (assigned now StatusDeclined) (invitations (tables w)))
              (tables w).
Proof.
  intros Hnd. unfold PostDeclineInvitation.
  destruct (String.eqb token "") eqn:Htok; [discriminate|].
  destruct c as [| |[user|]]; try discriminate.
  unfold FindInvitationByTokenWithTeam, UpdateInvitationStatus,
    UpdateStatusIfPending, Refetch, interfere, modify, statement, bind, query,
    trace, ret, quiet; simpl.
  destruct (First inv_ltb (inv_by_token token) (invitations (tables w)))
    as [inv|] eqn:Hfind; simpl; [|discriminate].
  destruct (String.eqb (Invitation.Status inv) StatusPending) eqn:Hst; simpl;
    [|discriminate].
  destruct (After now (Invitation.ExpiresAt inv)); simpl; [discriminate|].
  destruct (negb (Invitation.Email inv =? User.Email user)%string); simpl;
    [discriminate|].
  apply String.eqb_eq in Hst.
  pose proof (First_Some _ _ _ _ Hfind) as [Hin Hc].
  pose proof (inv_by_token_guard _ _ Hc Hst) as Hg.
  pose proof (RowsAffected_pos _ _ _ Hin Hg) as Hn.
  assert (Hl : inv_live inv = true).
  { unfold inv_by_token in Hc. apply andb_true_iff in Hc. tauto. }
  rewrite (unique_id_found_by_id _ _ Hnd Hin Hl). simpl.
  rewrite Hst. simpl. rewrite Hn. simpl.
  intros H. injection H as _ <-. simpl.
  split; [apply String.eqb_neq; exact Htok|].
  exists inv. auto.
Qed.

(** X9. A successful decline spends the token as well: afterwards accept
    and decline with it answer 400 "This invitation is no longer pending"
    and write nothing, so a declined invitation never yields a membership. *)
Theorem X9_declined_invitation_is_spent
    (now : Time) (c : ContextValue) (token : string)
    (w w' : World) (resp : types_InvitationResponse.t)
    (now' : Time) (newID' : UUID) (user' : User.t) :
  NoDup (map Invitation.ID (invitations (tables w))) ->
  PostDeclineInvitation quiet now c token w = (inl resp, w') ->
  PostAcceptInvitation quiet now' newID' (ctx_User (Some user')) token w'
    = (inr (HTTPError StatusBadRequest "This invitation is no longer pending"),
       mkWorld (tables w') (Rollback :: Select "invitations" :: Begin :: log w'))
  /\ PostDeclineInvitation quiet now' (ctx_User (Some user')) token w'
    = (inr (HTTPError StatusBadRequest "This invitation is no longer pending"),
       mkWorld (tables w') (Select "teams" :: Select "invitations" :: log w'))
  /\ memberships (tables w') = memberships (tables w).
Proof.
  intros Hnd H. apply decline_success_shape in H; [|exact Hnd].
  destruct H as [Htok [inv [Hfind [Hst Ht]]]].
  destruct (refused_when_not_pending now' newID' user' token w'
              (assigned now StatusDeclined inv) Htok) as [Ha Hd].
  - rewrite Ht. simpl. apply token_row_after_update; assumption.
  - discriminate.
  - split; [exact Ha|]. split; [exact Hd|]. rewrite Ht. reflexivity.
Qed.

Lemma X9_declined_spent_witness :
  let w' := snd (PostDeclineInvitation quiet 100 (ctx_User (Some Sample.alice))
                   "K" (mkWorld Sample.store [])) in
  PostAcceptInvitation quiet 200 78 (ctx_User (Some Sample.alice)) "K" w'
    = (inr (HTTPError StatusBadRequest "This invitation is no longer pending"),
       mkWorld (tables w') (Rollback :: Select "invitations" :: Begin :: log w'))
  /\ PostDeclineInvitation quiet 200 (ctx_User (Some Sample.alice)) "K" w'
    = (inr (HTTPError StatusBadRequest "This invitation is no longer pending"),
       mkWorld (tables w') (Select "teams" :: Select "invitations" :: log w'))
  /\ memberships (tables w') = [Sample.ownership].
Proof.
  intros w'.
  apply (X9_declined_invitation_is_spent 100 (ctx_User (Some Sample.alice))
           "K" (mkWorld Sample.store []) w'
           (types_InvitationResponse.mk true "Invitation declined successfully"
              (types_Invitation.mk "a@x.com" 5 RoleMember "K" StatusDeclined 1000))).
  - simpl. constructor; [intros []|constructor].
  - reflexivity.
Defined.

(** ** Inviting *)

Lemma CreateInvitation_pending_shape now newID newToken email teamUUID inviterID role w :
  let inv := Invitation.mk uuid_Nil zeroTime zeroTime None email teamUUID
               inviterID role "" StatusPending zeroTime in
  let r := CreateInvitation now newID newToken inv w in
  (tables (snd r) = tables w /\ snd (fst r) <> None)
  \/ (exists tok,
        let row := Invitation.mk newID now now None email teamUUID inviterID
                     role tok StatusPending (now + sevenDays) in
        newToken = inl tok
        /\ (role = RoleAdmin \/ role = RoleMember)
        /\ existsb (invitation_conflicts row) (invitations (tables w)) = false
        /\ tables (snd r) = set_invitations (invitations (tables w) ++ [row]) (tables w)
        /\ fst r = (row, None)).
Proof.
  intros inv r. subst r inv.
  unfold CreateInvitation, Invitation_BeforeCreate. simpl.
  destruct newToken as [tok|e]; simpl.
  2:{ left. split; [reflexivity|discriminate]. }
  destruct (String.eqb role RoleOwner) eqn:Eo; simpl.
  { left. split; [reflexivity|discriminate]. }
  destruct (String.eqb role RoleAdmin || String.eqb role RoleMember) eqn:Er; simpl.
  2:{ left. split; [reflexivity|discriminate]. }
  unfold statement. simpl.
  match goal with
  | |- context [existsb ?f ?l] => destruct (existsb f l) eqn:Ec
  end; simpl.
  { left. split; [reflexivity|discriminate]. }
  right. exists tok. repeat split; auto.
  apply orb_true_iff in Er. destruct Er as [E|E]; apply String.eqb_eq in E; auto.
Qed.

Lemma invite_shape ext now newID newToken c team email role w :
  let r := PostInviteMember ext now newID newToken c team email role w in
  (tables (snd r) = tables w /\ forall resp, fst r <> inl resp)
  \/ exists user teamUUID tok,
       let row := Invitation.mk newID now now None email teamUUID (User.ID user)
                    role tok StatusPending (now + sevenDays) in
       c = ctx_User (Some user)
       /\ uuid_Parse ext team = Some teamUUID
       /\ newToken = inl tok
       /\ email <> ""
       /\ (role = RoleAdmin \/ role = RoleMember)
       /\ (exists m,
             First mem_ltb (mem_by_user_team (User.ID user) teamUUID)
               (memberships (tables w)) = Some m
             /\ isAdminOrOwner (Membership.Role m) = true)
       /\ First inv_ltb (inv_pending_by_team_email teamUUID email)
            (invitations (tables w)) = None
       /\ existsb (invitation_conflicts row) (invitations (tables w)) = false
       /\ tables (snd r) = set_invitations (invitations (tables w) ++ [row]) (tables w)
       /\ fst r = inl (types_InvitationResponse.mk true "Invitation sent successfully"
                         (respInvitation row)).
Proof.
  intros r. subst r. unfold PostInviteMember.
  destruct c as [| |[user|]]; try (left; split; [reflexivity|discriminate]).
  destruct (uuid_Parse ext team) as [teamUUID|] eqn:Eteam;
    [|left; split; [reflexivity|discriminate]].
  destruct (String.eqb email "") eqn:Eemail;
    [left; split; [reflexivity|discriminate]|].
  destruct (negb (String.eqb role RoleAdmin) && negb (String.eqb role RoleMember))
    eqn:Erole; [left; split; [reflexivity|discriminate]|].
  unfold FindMembershipByUserAndTeam, FindUserByEmail,
    FindPendingInvitationByTeamAndEmail, bind, query, ret. simpl.
  destruct (First mem_ltb (mem_by_user_team (User.ID user) teamUUID)
              (memberships (tables w))) as [m|] eqn:Em; simpl;
    [|left; split; [reflexivity|discriminate]].
  destruct (isAdminOrOwner (Membership.Role m)) eqn:Eadmin; simpl;
    [|left; split; [reflexivity|discriminate]].
  assert (Hcont : forall lg,
    let r := (let (a, w') :=
                match
                  First inv_ltb (inv_pending_by_team_email teamUUID email)
                    (invitations (tables w))
                with
                | Some invitation =>
                    fun w0 : World => ((Some invitation, @None error), w0)
                | None => fun w0 : World => ((None, Some ErrRecordNotFound), w0)
                end (mkWorld (tables w) (Select "invitations" :: lg)) in
              (let (_, o) := a in
               match o with
               | Some e =>
                   if negb (is_ErrRecordNotFound e)
                   then fun w0 : World =>
                     (inr (HTTPError StatusInternalServerError
                             "Failed to check existing invitations"), w0)
                   else fun w0 : World =>
                     let (a0, w'0) :=
                       CreateInvitation now newID newToken
                         (Invitation.mk uuid_Nil zeroTime zeroTime None email
                            teamUUID (User.ID user) role "" StatusPending zeroTime)
                         w0 in
                     (let (created, o0) := a0 in
                      match o0 with
                      | Some _ => fun w1 : World =>
                          (inr (HTTPError StatusInternalServerError
                                  "Failed to create invitation"), w1)
                      | None => fun w1 : World =>
                          (inl (types_InvitationResponse.mk true
                                  "Invitation sent successfully"
                                  (respInvitation created)), w1)
                      end) w'0
               | None => fun w0 : World =>
                   (@inr types_InvitationResponse.t _
                      (HTTPError StatusConflict
                         "An invitation for this email address is already pending"),
                    w0)
               end) w') in
    (tables (snd r) = tables w /\ forall resp, fst r <> inl resp)
    \/ exists tok,
         let row := Invitation.mk newID now now None email teamUUID (User.ID user)
                      role tok StatusPending (now + sevenDays) in
         newToken = inl tok
         /\ (role = RoleAdmin \/ role = RoleMember)
         /\ First inv_ltb (inv_pending_by_team_email teamUUID email)
              (invitations (tables w)) = None
         /\ existsb (invitation_conflicts row) (invitations (tables w)) = false
         /\ tables (snd r) = set_invitations (invitations (tables w) ++ [row]) (tables w)
         /\ fst r = inl (types_InvitationResponse.mk true "Invitation sent successfully"
                           (respInvitation row))).
  { intros lg.
    destruct (First inv_ltb (inv_pending_by_team_email teamUUID email)
                (invitations (tables w))) as [p|] eqn:Ep; simpl.
    { left. split; [reflexivity|discriminate]. }
    pose proof (CreateInvitation_pending_shape now newID newToken email teamUUID
                  (User.ID user) role
                  (mkWorld (tables w) (Select "invitations" :: lg))) as Hc.
    simpl in Hc.
    destruct (CreateInvitation _ _ _ _ _) as [[created e] w2].
    simpl in Hc. destruct Hc as [[Ht He] | [tok [Htok [Hr [Hconf [Ht Hres]]]]]].
    - destruct e as [e|]; [|contradiction]. simpl.
      left. split; [exact Ht|discriminate].
    - injection Hres as -> ->. simpl. right. exists tok. auto 10. }
  assert (Hfin : forall r : (types_InvitationResponse.t + error) * World,
    ((tables (snd r) = tables w /\ forall resp, fst r <> inl resp)
     \/ exists tok,
         let row := Invitation.mk newID now now None email teamUUID (User.ID user)
                      role tok StatusPending (now + sevenDays) in
         newToken = inl tok
         /\ (role = RoleAdmin \/ role = RoleMember)
         /\ First inv_ltb (inv_pending_by_team_email teamUUID email)
              (invitations (tables w)) = None
         /\ existsb (invitation_conflicts row) (invitations (tables w)) = false
         /\ tables (snd r) = set_invitations (invitations (tables w) ++ [row]) (tables w)
         /\ fst r = inl (types_InvitationResponse.mk true "Invitation sent successfully"
                           (respInvitation row))) ->
    (tables (snd r) = tables w /\ forall resp, fst r <> inl resp)
    \/ exists user0 teamUUID0 tok,
       let row := Invitation.mk newID now now None email teamUUID0 (User.ID user0)
                    role tok StatusPending (now + sevenDays) in
       ctx_User (Some user) = ctx_User (Some user0)
       /\ Some teamUUID = Some teamUUID0
       /\ newToken = inl tok
       /\ email <> ""
       /\ (role = RoleAdmin \/ role = RoleMember)
       /\ (exists m0,
             First mem_ltb (mem_by_user_team (User.ID user0) teamUUID0)
               (memberships (tables w)) = Some m0
             /\ isAdminOrOwner (Membership.Role m0) = true)
       /\ First inv_ltb (inv_pending_by_team_email teamUUID0 email)
            (invitations (tables w)) = None
       /\ existsb (invitation_conflicts row) (invitations (tables w)) = false
       /\ tables (snd r) = set_invitations (invitations (tables w) ++ [row]) (tables w)
       /\ fst r = inl (types_InvitationResponse.mk true "Invitation sent successfully"
                         (respInvitation row))).
  { intros r [H|[tok H]]; [left; exact H|].
    right. exists user, teamUUID, tok. simpl in *.
    destruct H as (H1 & H2 & H3 & H4 & H5 & H6).
    repeat split; auto.
    - apply String.eqb_neq. exact Eemail.
    - exists m. auto. }
  destruct (First user_ltb (user_by_email email) (users (tables w)))
    as [invited|]; simpl.
  - destruct (First mem_ltb (mem_by_user_team (User.ID invited) teamUUID)
                (memberships (tables w))); simpl.
    + left. split; [reflexivity|discriminate].
    + apply Hfin. apply Hcont.
  - apply Hfin. apply Hcont.
Qed.

(** X10. A successful invitation was sent by an owner or admin of the team
    for a role of admin or member, while no pending invitation for the same
    team and address was visible. It appends one row: pending, for that
    address, team and role, carrying the generated token and expiring seven
    days after the request; the response shows that row. Every other
    outcome leaves the store as it was. *)
Theorem X10_invite_appends_one_pending_row
    (ext : External) (now : Time) (newID : UUID) (newToken : string + error)
    (c : ContextValue) (team email role : string) (w w' : World)
    (result : types_InvitationResponse.t + error) :
  PostInviteMember ext now newID newToken c team email role w = (result, w') ->
  (forall resp, result = inl resp ->
     exists user teamUUID tok m,
       c = ctx_User (Some user)
       /\ uuid_Parse ext team = Some teamUUID
       /\ newToken = inl tok
       /\ (role = RoleAdmin \/ role = RoleMember)
       /\ First mem_ltb (mem_by_user_team (User.ID user) teamUUID)
            (memberships (tables w)) = Some m
       /\ (Membership.Role m = RoleOwner \/ Membership.Role m = RoleAdmin)
       /\ (forall i, In i (invitations (tables w)) ->
                     inv_pending_by_team_email teamUUID email i = false)
       /\ tables w'
          = set_invitations
              (invitations (tables w)
               ++ [Invitation.mk newID now now None email teamUUID (User.ID user)
                     role tok StatusPending (now + sevenDays)])
              (tables w)
       /\ resp = types_InvitationResponse.mk true "Invitation sent successfully"
                   (types_Invitation.mk email teamUUID role tok StatusPending
                      (now + sevenDays)))
  /\ ((forall resp, result <> inl resp) -> tables w' = tables w).
Proof.
  intros H. pose proof (invite_shape ext now newID newToken c team email role w) as S.
  rewrite H in S. simpl in S.
  destruct S as [[Ht Hr] | (user & teamUUID & tok & Hc & Hp & Htok & _ & Hrole
                            & [m [Hm Ha]] & Hpend & _ & Ht & Hres)].
  - split; [|intros _; exact Ht].
    intros resp E. exfalso. exact (Hr resp E).
  - split.
    + intros resp E. rewrite Hres in E. injection E as <-.
      exists user, teamUUID, tok, m.
      repeat split; auto.
      * unfold isAdminOrOwner in Ha. apply orb_true_iff in Ha.
        destruct Ha as [E|E]; apply String.eqb_eq in E; auto.
      * exact (proj1 (First_None _ _ _) Hpend).
    + intros Hn. exfalso. exact (Hn _ Hres).
Qed.

Lemma X10_invite_witness :
  let t := mkTables [Sample.alice; Sample.owner] [] [Sample.ownership] [] [] in
  exists user teamUUID tok m,
    ctx_User (Some Sample.owner) = ctx_User (Some user)
    /\ uuid_Parse Sample.ext "team-5" = Some teamUUID
    /\ @inl string error "K" = inl tok
    /\ ("member" = RoleAdmin \/ "member" = RoleMember)
    /\ First mem_ltb (mem_by_user_team (User.ID user) teamUUID)
         (memberships t) = Some m
    /\ (Membership.Role m = RoleOwner \/ Membership.Role m = RoleAdmin)
    /\ (forall i, In i (invitations t) ->
                  inv_pending_by_team_email teamUUID "a@x.com" i = false)
    /\ set_invitations
         [Invitation.mk 10 100 100 None "a@x.com" 5 2 "member" "K" StatusPending
            604900] t
       = set_invitations
           (invitations t
            ++ [Invitation.mk 10 100 100 None "a@x.com" teamUUID (User.ID user)
                  "member" tok StatusPending (100 + sevenDays)])
           t
    /\ types_InvitationResponse.mk true "Invitation sent successfully"
         (types_Invitation.mk "a@x.com" 5 "member" "K" StatusPending 604900)
       = types_InvitationResponse.mk true "Invitation sent successfully"
           (types_Invitation.mk "a@x.com" teamUUID "member" tok StatusPending
              (100 + sevenDays)).
Proof.
  intros t.
  apply (proj1 (X10_invite_appends_one_pending_row Sample.ext 100 10 (inl "K")
           (ctx_User (Some Sample.owner)) "team-5" "a@x.com" "member"
           (mkWorld t [])
           (mkWorld (set_invitations
                       [Invitation.mk 10 100 100 None "a@x.com" 5 2 "member" "K"
                          StatusPending 604900] t)
              [Insert "invitations"; Select "invitations"; Select "memberships";
               Select "users"; Select "memberships"])
           (inl (types_InvitationResponse.mk true "Invitation sent successfully"
                   (types_Invitation.mk "a@x.com" 5 "member" "K" StatusPending
                      604900)))
           eq_refl)).
  reflexivity.
Defined.

(** X11. While a pending invitation for the same team and address is
    visible, inviting that address again never succeeds and leaves the
    store as it is. *)
Theorem X11_no_second_pending_invitation
    (ext : External) (now : Time) (newID : UUID) (newToken : string + error)
    (c : ContextValue) (team email role : string) (w : World)
    (teamUUID : UUID) (pending : Invitation.t) :
  uuid_Parse ext team = Some teamUUID ->
  In pending (invitations (tables w)) ->
  Invitation.DeletedAt pending = None ->
  Invitation.TeamID pending = teamUUID ->
  Invitation.Email pending = email ->
  Invitation.Status pending = StatusPending ->
  let r := PostInviteMember ext now newID newToken c team email role w in
  (forall resp, fst r <> inl resp) /\ tables (snd r) = tables w.
Proof.
  intros Hp Hin Hd Ht He Hs r.
  pose proof (invite_shape ext now newID newToken c team email role w) as S.
  fold r in S. simpl in S.
  destruct S as [[Htab Hr] | (user & teamUUID' & tok & _ & Hp' & _ & _ & _
                              & _ & Hpend & _)].
  - split; assumption.
  - exfalso. rewrite Hp in Hp'. injection Hp' as <-.
    pose proof (proj1 (First_None _ _ _) Hpend pending Hin) as F.
    unfold inv_pending_by_team_email, inv_live in F.
    rewrite Hd, Ht, He, Hs, N.eqb_refl, !String.eqb_refl in F. discriminate.
Qed.

Lemma X11_no_second_pending_witness :
  let r := PostInviteMember Sample.ext 100 11 (inl "L") (ctx_User (Some Sample.owner))
             "team-5" "a@x.com" "admin" (mkWorld Sample.store []) in
  (forall resp, fst r <> inl resp) /\ tables (snd r) = Sample.store.
Proof.
  apply (X11_no_second_pending_invitation Sample.ext 100 11 (inl "L")
           (ctx_User (Some Sample.owner)) "team-5" "a@x.com" "admin"
           (mkWorld Sample.store []) 5%N Sample.invitation);
    try reflexivity.
  simpl. auto.
Defined.

(** ** Invariants of the invitations table *)

Section InvitationInvariant.
(** A property of the invitations table kept by the two status updates, by
    the soft delete and by the insertion an invite makes. *)
Variable Q : list Invitation.t -> Prop.
Hypothesis Q_status : forall now id s l,
  s <> StatusPending -> Q l -> Q (UpdateWhere (inv_guard id) (assigned now s) l).
Hypothesis Q_delete : forall now id l,
  Q l -> Q (UpdateWhere (inv_by_id id) (Invitation.set_DeletedAt (Some now)) l).
Hypothesis Q_insert : forall l row,
  Q l ->
  Invitation.DeletedAt row = None ->
  Invitation.Status row = StatusPending ->
  (Invitation.Role row = RoleAdmin \/ Invitation.Role row = RoleMember) ->
  (forall i, In i l ->
     inv_pending_by_team_email (Invitation.TeamID row) (Invitation.Email row) i
     = false) ->
  existsb (invitation_conflicts row) l = false ->
  Q (l ++ [row]).

Let P := fun t => Q (invitations t).

Lemma accept_keeps now newID c token :
  preserves P (PostAcceptInvitation quiet now newID c token).
Proof.
  unfold PostAcceptInvitation, AcceptInvitation, Transaction, AcceptInvitation_tx.
  repeat first
    [ apply preserves_TransactionBy; [auto|]
    | apply (FirstOrCreate_membership_preserves Q)
    | apply (Refetch_preserves Q)
    | apply (UpdateStatusIfPending_preserves Q);
      intros l Hl; apply (Q_status now _ StatusAccepted l); [discriminate|exact Hl]
    | pres_step
    | (intros w H; exact H) ].
Qed.

Lemma decline_keeps now c token :
  preserves P (PostDeclineInvitation quiet now c token).
Proof.
  unfold PostDeclineInvitation, FindInvitationByTokenWithTeam,
    UpdateInvitationStatus.
  repeat first
    [ apply (Refetch_preserves Q)
    | apply (UpdateStatusIfPending_preserves Q);
      intros l Hl; apply (Q_status now _ StatusDeclined l); [discriminate|exact Hl]
    | pres_step
    | (intros w H; exact H) ].
Qed.

Lemma invite_keeps ext now newID newToken c team email role :
  preserves P (PostInviteMember ext now newID newToken c team email role).
Proof.
  intros w H.
  pose proof (invite_shape ext now newID newToken c team email role w) as S.
  simpl in S.
  destruct S as [[Ht _] | (user & teamUUID & tok & _ & _ & _ & _ & Hrole
                           & _ & Hpend & Hconf & Ht & _)].
  - unfold P. rewrite Ht. exact H.
  - unfold P. rewrite Ht. simpl. apply Q_insert; auto.
    exact (proj1 (First_None _ _ _) Hpend).
Qed.

Lemma serve_keeps ext r t : P t -> P (serve ext r t).
Proof.
  intros H. destruct r; simpl.
  - apply (invite_keeps ext now newID newToken c teamID email role (mkWorld t [])).
    exact H.
  - apply (accept_keeps now newID c token (mkWorld t [])). exact H.
  - apply (decline_keeps now c token (mkWorld t [])). exact H.
  - apply (DeleteCancelInvitation_preserves Q ext now c teamID invitationID);
      [|exact H].
    intros id l Hl. apply Q_delete. exact Hl.
Qed.

Lemma reachable_keeps ext t : Q [] -> reachable ext t -> Q (invitations t).
Proof.
  intros H0. induction 1 as [t H | t r _ IH | t t' _ IH E].
  - rewrite H. exact H0.
  - apply serve_keeps. exact IH.
  - rewrite E. exact IH.
Qed.
End InvitationInvariant.

Lemma map_UpdateWhere {A B} (g : A -> B) (c : A -> bool) (f : A -> A) (l : list A) :
  (forall r, g (f r) = g r) -> map g (UpdateWhere c f l) = map g l.
Proof.
  intros H. unfold UpdateWhere. rewrite map_map. apply map_ext.
  intros r. destruct (c r); [apply H|reflexivity].
Qed.

Lemma NoDup_snoc {A} (l : list A) (x : A) :
  NoDup l -> ~ In x l -> NoDup (l ++ [x]).
Proof.
  induction l as [|y l IH]; simpl; intros Hnd Hx.
  - constructor; [intros []|constructor].
  - inversion Hnd as [|? ? Hy Hl]; subst. constructor.
    + intros Hin. apply in_app_or in Hin. destruct Hin as [Hin|[E|[]]].
      * exact (Hy Hin).
      * apply Hx. left. symmetry. exact E.
    + apply IH; [exact Hl|]. intros Hin. apply Hx. right. exact Hin.
Qed.

Lemma no_conflict_fresh row (l : list Invitation.t) :
  existsb (invitation_conflicts row) l = false ->
  ~ In (Invitation.ID row) (map Invitation.ID l)
  /\ ~ In (Invitation.Token row) (map Invitation.Token l).
Proof.
  intros H.
  assert (Hall : forall r, In r l -> invitation_conflicts row r = false).
  { intros r Hr. destruct (invitation_conflicts row r) eqn:E; [|reflexivity].
    assert (existsb (invitation_conflicts row) l = true)
      by (apply existsb_exists; exists r; auto).
    congruence. }
  split; intros Hin; apply in_map_iff in Hin; destruct Hin as [r [E Hr]];
    specialize (Hall r Hr); unfold invitation_conflicts in Hall;
    apply orb_false_iff in Hall; destruct Hall as [H1 H2].
  - apply N.eqb_neq in H1. auto.
  - apply String.eqb_neq in H2. auto.
Qed.

(** X12. In every store the application can reach, no two Invitation rows,
    visible or soft-deleted, share an id or a token: a token identifies at
    most one invitation. *)
Theorem X12_invitation_ids_and_tokens_unique (ext : External) (t : Tables) :
  reachable ext t ->
  NoDup (map Invitation.ID (invitations t))
  /\ NoDup (map Invitation.Token (invitations t)).
Proof.
  apply (reachable_keeps
           (fun l => NoDup (map Invitation.ID l) /\ NoDup (map Invitation.Token l))).
  - intros now id s l _ [H1 H2].
    rewrite !map_UpdateWhere; auto.
  - intros now id l [H1 H2]. rewrite !map_UpdateWhere; auto.
  - intros l row [H1 H2] _ _ _ _ Hc.
    apply no_conflict_fresh in Hc. destruct Hc as [Hi Ht].
    rewrite !map_app. simpl. split; apply NoDup_snoc; assumption.
  - split; constructor.
Qed.

Lemma X12_unique_witness :
  let t := serve Sample.ext
             (Invite 200 11 (inl "L") (ctx_User (Some Sample.owner))
                "team-5" "b@x.com" "admin")
             (serve Sample.ext
                (Invite 100 10 (inl "K") (ctx_User (Some Sample.owner))
                   "team-5" "a@x.com" "member")
                (mkTables [Sample.alice; Sample.owner] [] [Sample.ownership] [] [])) in
  NoDup (map Invitation.ID (invitations t))
  /\ NoDup (map Invitation.Token (invitations t)).
Proof.
  intros t. apply (X12_invitation_ids_and_tokens_unique Sample.ext).
  apply reach_request. apply reach_request. apply reach_start. reflexivity.
Defined.

(** X13. In every store the application can reach, every Invitation row
    offers the role admin or member: the owner role is never offered. *)
Theorem X13_invitations_never_offer_owner (ext : External) (t : Tables) :
  reachable ext t ->
  Forall (fun i => (Invitation.Role i = RoleAdmin \/ Invitation.Role i = RoleMember)
                   /\ Invitation.Role i <> RoleOwner)
         (invitations t).
Proof.
  intros Hr.
  assert (H : Forall (fun i => Invitation.Role i = RoleAdmin
                               \/ Invitation.Role i = RoleMember) (invitations t)).
  { revert Hr. apply (reachable_keeps
             (Forall (fun i => Invitation.Role i = RoleAdmin
                               \/ Invitation.Role i = RoleMember))).
    - intros now id s l _ H. unfold UpdateWhere. rewrite Forall_forall in *.
      intros x Hx. apply in_map_iff in Hx. destruct Hx as [r [E Hin]].
      destruct (inv_guard id r); subst; simpl; auto.
    - intros now id l H. unfold UpdateWhere. rewrite Forall_forall in *.
      intros x Hx. apply in_map_iff in Hx. destruct Hx as [r [E Hin]].
      destruct (inv_by_id id r); subst; simpl; auto.
    - intros l row H _ _ Hrole _ _. apply Forall_app. split; [exact H|].
      constructor; [exact Hrole|constructor].
    - constructor. }
  eapply Forall_impl; [|exact H]. intros i Hi. split; [exact Hi|].
  destruct Hi as [E|E]; rewrite E; discriminate.
Qed.

Lemma X13_roles_witness :
  let t := serve Sample.ext
             (Invite 100 10 (inl "K") (ctx_User (Some Sample.owner))
                "team-5" "a@x.com" "admin")
             (mkTables [Sample.alice; Sample.owner] [] [Sample.ownership] [] []) in
  Forall (fun i => (Invitation.Role i = RoleAdmin \/ Invitation.Role i = RoleMember)
                   /\ Invitation.Role i <> RoleOwner)
         (invitations t).
Proof.
  intros t. apply (X13_invitations_never_offer_owner Sample.ext).
  apply reach_request. apply reach_start. reflexivity.
Defined.




(** ** Cancelling *)

Lemma cancel_shape ext now c team invitationID w :
  let r := DeleteCancelInvitation ext now c team invitationID w in
  ((forall resp, fst r <> inl resp) /\ tables (snd r) = tables w)
  \/ exists user teamUUID id m inv,
       c = ctx_User (Some user)
       /\ uuid_Parse ext team = Some teamUUID
       /\ uuid_Parse ext invitationID = Some id
       /\ First mem_ltb (mem_by_user_team (User.ID user) teamUUID)
            (memberships (tables w)) = Some m
       /\ isAdminOrOwner (Membership.Role m) = true
       /\ First inv_ltb (inv_by_id_team id teamUUID) (invitations (tables w))
          = Some inv
       /\ Invitation.Status inv = StatusPending
       /\ tables (snd r)
          = set_invitations
              (UpdateWhere (inv_by_id id) (Invitation.set_DeletedAt (Some now))
                 (invitations (tables w)))
              (tables w)
       /\ fst r = inl (types_InvitationResponse.mk true
                         "Invitation cancelled successfully" types_Invitation.zero).
Proof.
  intros r. subst r. unfold DeleteCancelInvitation.
  destruct c as [| |[user|]]; try (left; split; [discriminate|reflexivity]).
  destruct (uuid_Parse ext team) as [teamUUID|] eqn:Et;
    [|left; split; [discriminate|reflexivity]].
  destruct (uuid_Parse ext invitationID) as [id|] eqn:Ei;
    [|left; split; [discriminate|reflexivity]].
  unfold FindMembershipByUserAndTeam, FindInvitationByIDAndTeam, DeleteInvitation,
    SoftDelete_invitation, statement, bind, query, ret. simpl.
  destruct (First mem_ltb _ _) as [m|] eqn:Em; simpl;
    [|left; split; [discriminate|reflexivity]].
  destruct (isAdminOrOwner (Membership.Role m)) eqn:Ea; simpl;
    [|left; split; [discriminate|reflexivity]].
  destruct (First inv_ltb (inv_by_id_team id teamUUID) (invitations (tables w)))
    as [inv|] eqn:Einv; simpl; [|left; split; [discriminate|reflexivity]].
  destruct (String.eqb (Invitation.Status inv) StatusPending) eqn:Est; simpl;
    [|left; split; [discriminate|reflexivity]].
  pose proof (First_Some _ _ _ _ Einv) as [Hin Hc].
  apply inv_by_id_team_ID in Hc. destruct Hc as [Hi Hl].
  rewrite Hi.
  destruct (First inv_ltb (inv_by_id id) (invitations (tables w)))
    as [inv'|] eqn:E2; simpl; [|left; split; [discriminate|reflexivity]].
  apply First_Some in E2. destruct E2 as [_ Hc2].
  apply inv_by_id_ID in Hc2. destruct Hc2 as [Hi2 _]. rewrite Hi2.
  destruct (RowsAffected (inv_by_id id) (invitations (tables w)) =? 0)%nat eqn:En;
    simpl.
  - left. split; [discriminate|].
    rewrite (UpdateWhere_zero _ _ _ En). apply set_invitations_same.
  - right. exists user, teamUUID, id, m, inv.
    apply String.eqb_eq in Est. repeat split; auto.
Qed.

(** X15. A cancellation succeeds only for an owner or admin of the team and
    only on a visible pending invitation of that team; it then soft-deletes
    the invitation and changes nothing else. Every other outcome (not a
    member, plain member, unknown invitation, invitation no longer
    pending) leaves the store as it was. *)
Theorem X15_cancel_needs_admin_and_pending
    (ext : External) (now : Time) (c : ContextValue)
    (team invitationID : string) (w w' : World)
    (result : types_InvitationResponse.t + error) :
  DeleteCancelInvitation ext now c team invitationID w = (result, w') ->
  (forall resp, result = inl resp ->
     exists user teamUUID id m inv,
       c = ctx_User (Some user)
       /\ uuid_Parse ext team = Some teamUUID
       /\ uuid_Parse ext invitationID = Some id
       /\ First mem_ltb (mem_by_user_team (User.ID user) teamUUID)
            (memberships (tables w)) = Some m
       /\ (Membership.Role m = RoleOwner \/ Membership.Role m = RoleAdmin)
       /\ In inv (invitations (tables w))
       /\ Invitation.ID inv = id
       /\ Invitation.TeamID inv = teamUUID
       /\ Invitation.DeletedAt inv = None
       /\ Invitation.Status inv = StatusPending
       /\ tables w'
          = set_invitations
              (UpdateWhere (inv_by_id id) (Invitation.set_DeletedAt (Some now))
                 (invitations (tables w)))
              (tables w))
  /\ ((forall resp, result <> inl resp) -> tables w' = tables w).
Proof.
  intros H. pose proof (cancel_shape ext now c team invitationID w) as S.
  rewrite H in S. simpl in S.
  destruct S as [[Hr Ht] | (user & teamUUID & id & m & inv & Hc & Hpt & Hpi & Hm
                            & Ha & Hinv & Hst & Ht & Hres)].
  - split; [|intros _; exact Ht]. intros resp E. exfalso. exact (Hr resp E).
  - split.
    + intros resp _. exists user, teamUUID, id, m, inv.
      pose proof (First_Some _ _ _ _ Hinv) as [Hin Hcond].
      unfold inv_by_id_team, inv_live in Hcond.
      apply andb_true_iff in Hcond. destruct Hcond as [Hcond H3].
      apply andb_true_iff in Hcond. destruct Hcond as [H1 H2].
      apply N.eqb_eq in H2, H3.
      repeat split; auto.
      * unfold isAdminOrOwner in Ha. apply orb_true_iff in Ha.
        destruct Ha as [E|E]; apply String.eqb_eq in E; auto.
      * destruct (Invitation.DeletedAt inv); [discriminate|reflexivity].
    + intros Hn. exfalso. exact (Hn _ Hres).
Qed.

Lemma X15_cancel_witness :
  (let r := DeleteCancelInvitation Sample.ext 300 (ctx_User (Some Sample.alice))
              "team-5" "inv-10" (mkWorld Sample.store []) in
   tables (snd r) = Sample.store)
  /\ (let r := DeleteCancelInvitation Sample.ext 300 (ctx_User (Some Sample.owner))
                 "team-5" "inv-10" (mkWorld Sample.store []) in
      tables (snd r)
      = set_invitations
          [Invitation.set_DeletedAt (Some 300) Sample.invitation] Sample.store).
Proof.
  split.
  - intros r.
    apply (proj2 (X15_cancel_needs_admin_and_pending Sample.ext 300
                    (ctx_User (Some Sample.alice)) "team-5" "inv-10"
                    (mkWorld Sample.store []) (snd r) (fst r) eq_refl)).
    intros resp. discriminate.
  - intros r.
    destruct (proj1 (X15_cancel_needs_admin_and_pending Sample.ext 300
                       (ctx_User (Some Sample.owner)) "team-5" "inv-10"
                       (mkWorld Sample.store []) (snd r) (fst r) eq_refl)
                    _ eq_refl)
      as (user & teamUUID & id & m & inv & _ & _ & Hid & _ & _ & _ & _ & _ & _
          & _ & Ht).
    injection Hid as <-. exact Ht.
Defined.

Lemma not_found_without_visible_token now newID user token w :
  token <> "" ->
  First inv_ltb (inv_by_token token) (invitations (tables w)) = None ->
  PostAcceptInvitation quiet now newID (ctx_User (Some user)) token w
    = (inr (HTTPError StatusNotFound "Invitation not found or invalid"),
       mkWorld (tables w) (Rollback :: Select "invitations" :: Begin :: log w))
  /\ PostDeclineInvitation quiet now (ctx_User (Some user)) token w
    = (inr (HTTPError StatusNotFound "Invitation not found or invalid"),
       mkWorld (tables w) (Select "invitations" :: log w)).
Proof.
  intros Htok Hnone. apply String.eqb_neq in Htok.
  unfold PostAcceptInvitation, PostDeclineInvitation,
    AcceptInvitation, Transaction, TransactionBy, AcceptInvitation_tx,
    FindInvitationByTokenWithTeam, bind, query, ret.
  rewrite Htok. simpl. rewrite Hnone. simpl. auto.
Qed.

(** X16. A cancelled invitation can no longer be used: where tokens are
    unique, after a successful cancellation every accept or decline with
    the cancelled invitation's token answers 404 and writes nothing. *)
Theorem X16_cancelled_token_is_not_found
    (ext : External) (now : Time) (c : ContextValue)
    (team invitationID : string) (w w' : World)
    (resp : types_InvitationResponse.t) (id : UUID) (inv : Invitation.t)
    (now' : Time) (newID' : UUID) (user' : User.t) :
  NoDup (map Invitation.Token (invitations (tables w))) ->
  DeleteCancelInvitation ext now c team invitationID w = (inl resp, w') ->
  uuid_Parse ext invitationID = Some id ->
  In inv (invitations (tables w)) ->
  Invitation.ID inv = id ->
  Invitation.DeletedAt inv = None ->
  Invitation.Token inv <> "" ->
  PostAcceptInvitation quiet now' newID' (ctx_User (Some user'))
    (Invitation.Token inv) w'
    = (inr (HTTPError StatusNotFound "Invitation not found or invalid"),
       mkWorld (tables w') (Rollback :: Select "invitations" :: Begin :: log w'))
  /\ PostDeclineInvitation quiet now' (ctx_User (Some user'))
       (Invitation.Token inv) w'
    = (inr (HTTPError StatusNotFound "Invitation not found or invalid"),
       mkWorld (tables w') (Select "invitations" :: log w')).
Proof.
  intros Hnd H Hid Hin Hi Hd Htok.
  pose proof (cancel_shape ext now c team invitationID w) as S.
  rewrite H in S. simpl in S.
  destruct S as [[Hr _] | (user & teamUUID & id' & m & inv0 & _ & _ & Hpi & _
                           & _ & _ & _ & Ht & _)].
  { exfalso. exact (Hr resp eq_refl). }
  rewrite Hid in Hpi. injection Hpi as <-.
  apply not_found_without_visible_token; [exact Htok|].
  rewrite Ht. simpl. apply First_None. intros r Hr.
  unfold UpdateWhere in Hr. apply in_map_iff in Hr. destruct Hr as [r0 [E Hr0]].
  destruct (inv_by_id id r0) eqn:Eb; subst r.
  - reflexivity.
  - unfold inv_by_token.
    destruct (inv_live r0) eqn:El; [|reflexivity]. simpl.
    apply String.eqb_neq. intros Et.
    assert (r0 = inv) by (apply (NoDup_map_eq Invitation.Token _ _ _ Hnd); auto).
    subst r0. unfold inv_by_id in Eb. rewrite El, Hi, N.eqb_refl in Eb.
    discriminate.
Qed.

Lemma X16_cancelled_token_witness :
  let w' := snd (DeleteCancelInvitation Sample.ext 300 (ctx_User (Some Sample.owner))
                   "team-5" "inv-10" (mkWorld Sample.store [])) in
  PostAcceptInvitation quiet 400 78 (ctx_User (Some Sample.alice)) "K" w'
    = (inr (HTTPError StatusNotFound "Invitation not found or invalid"),
       mkWorld (tables w') (Rollback :: Select "invitations" :: Begin :: log w'))
  /\ PostDeclineInvitation quiet 400 (ctx_User (Some Sample.alice)) "K" w'
    = (inr (HTTPError StatusNotFound "Invitation not found or invalid"),
       mkWorld (tables w') (Select "invitations" :: log w')).
Proof.
  intros w'.
  apply (X16_cancelled_token_is_not_found Sample.ext 300
           (ctx_User (Some Sample.owner)) "team-5" "inv-10"
           (mkWorld Sample.store []) w'
           (types_InvitationResponse.mk true "Invitation cancelled successfully"
              types_Invitation.zero)
           10%N Sample.invitation 400 78 Sample.alice).
  - simpl. constructor; [intros []|constructor].
  - reflexivity.
  - reflexivity.
  - simpl. auto.
  - reflexivity.
  - reflexivity.
  - discriminate.
Defined.

(** ** Details and listings *)

(** X17. The public details lookup never writes, and it succeeds exactly
    when the token resolves to a visible invitation that is pending and not
    yet expired, in which case it shows that invitation. *)
Theorem X17_details_shown_iff_pending_and_unexpired
    (now : Time) (token : string) (w : World)
    (resp : types_InvitationResponse.t) :
  let r := GetInvitationDetails now token w in
  tables (snd r) = tables w
  /\ (forall a, In a (log (snd r)) -> is_write a = true -> In a (log w))
  /\ (fst r = inl resp <->
      exists inv,
        token <> ""
        /\ First inv_ltb (inv_by_token token) (invitations (tables w)) = Some inv
        /\ Invitation.Status inv = StatusPending
        /\ now <= Invitation.ExpiresAt inv
        /\ resp = types_InvitationResponse.mk true
                    "Invitation details retrieved successfully"
                    (respInvitation inv)).
Proof.
  unfold GetInvitationDetails, FindInvitationByTokenWithTeam, bind, query,
    trace, ret.
  destruct (String.eqb token "") eqn:Htok; simpl.
  { split; [reflexivity|]. split; [auto|]. split; [discriminate|].
    intros [inv [H _]]. apply String.eqb_eq in Htok. contradiction. }
  apply String.eqb_neq in Htok.
  destruct (First inv_ltb (inv_by_token token) (invitations (tables w)))
    as [inv|] eqn:Hfind; simpl.
  2:{ split; [reflexivity|]. split.
      - intros a [<-|H] Hw; [discriminate|exact H].
      - split; [discriminate|]. intros [inv [_ [H _]]]. discriminate. }
  destruct (String.eqb (Invitation.Status inv) StatusPending) eqn:Hst; simpl.
  2:{ split; [reflexivity|]. split.
      - intros a [<-|[<-|H]] Hw; try discriminate; exact H.
      - split; [discriminate|]. intros [i [_ [H [H2 _]]]].
        injection H as <-. apply String.eqb_neq in Hst. contradiction. }
  apply String.eqb_eq in Hst.
  unfold After. destruct (Invitation.ExpiresAt inv <? now) eqn:Hexp; simpl.
  { split; [reflexivity|]. split.
    - intros a [<-|[<-|H]] Hw; try discriminate; exact H.
    - split; [discriminate|]. intros [i [_ [H [_ [H3 _]]]]].
      injection H as <-. apply Z.ltb_lt in Hexp. lia. }
  split; [reflexivity|]. split.
  - intros a [<-|[<-|H]] Hw; try discriminate; exact H.
  - split.
    + intros H. injection H as <-. exists inv. apply Z.ltb_ge in Hexp. auto.
    + intros [i [_ [H [_ [_ ->]]]]]. injection H as <-. reflexivity.
Qed.

(** X18. The list of a team's invitations is given to its owner and admins
    only. It contains exactly the visible pending invitations of that team,
    and producing it writes nothing. *)
Theorem X18_listed_invitations_are_the_pending_ones_of_the_team
    (ext : External) (c : ContextValue) (team : string) (w w' : World)
    (resp : types_TeamInvitationsResponse.t) :
  GetListInvitations ext c team w = (inl resp, w') ->
  tables w' = tables w
  /\ exists user teamUUID m,
       c = ctx_User (Some user)
       /\ uuid_Parse ext team = Some teamUUID
       /\ First mem_ltb (mem_by_user_team (User.ID user) teamUUID)
            (memberships (tables w)) = Some m
       /\ (Membership.Role m = RoleOwner \/ Membership.Role m = RoleAdmin)
       /\ types_TeamInvitationsResponse.Invitations resp
          = map respInvitation
              (filter (inv_pending_by_team teamUUID) (invitations (tables w)))
       /\ (forall x,
             In x (types_TeamInvitationsResponse.Invitations resp) <->
             exists i, In i (invitations (tables w))
                       /\ Invitation.DeletedAt i = None
                       /\ Invitation.TeamID i = teamUUID
                       /\ Invitation.Status i = StatusPending
                       /\ x = respInvitation i).
Proof.
  unfold GetListInvitations.
  destruct c as [| |[user|]]; try discriminate.
  destruct (uuid_Parse ext team) as [teamUUID|] eqn:Et; [|discriminate].
  unfold FindMembershipByUserAndTeam, FindPendingInvitationsByTeam, bind, query,
    ret. simpl.
  destruct (First mem_ltb _ _) as [m|] eqn:Em; simpl; [|discriminate].
  destruct (isAdminOrOwner (Membership.Role m)) eqn:Ea; simpl; [|discriminate].
  intros H. injection H as <- <-. simpl. split; [reflexivity|].
  exists user, teamUUID, m. repeat split; auto.
  - unfold isAdminOrOwner in Ea. apply orb_true_iff in Ea.
    destruct Ea as [E|E]; apply String.eqb_eq in E; auto.
  - intros Hx. apply in_map_iff in Hx. destruct Hx as [i [E Hi]].
    apply filter_In in Hi. destruct Hi as [Hin Hc].
    unfold inv_pending_by_team, inv_live in Hc.
    apply andb_true_iff in Hc. destruct Hc as [Hc H3].
    apply andb_true_iff in Hc. destruct Hc as [H1 H2].
    apply N.eqb_eq in H2. apply String.eqb_eq in H3.
    exists i. repeat split; auto.
    destruct (Invitation.DeletedAt i); [discriminate|reflexivity].
  - intros [i (Hin & Hd & Ht & Hs & ->)]. apply in_map. apply filter_In.
    split; [exact Hin|]. unfold inv_pending_by_team, inv_live.
    rewrite Hd, Ht, Hs, N.eqb_refl. reflexivity.
Qed.

Lemma X18_listed_invitations_witness :
  let r := GetListInvitations Sample.ext (ctx_User (Some Sample.owner)) "team-5"
             (mkWorld Sample.store []) in
  tables (snd r) = Sample.store
  /\ exists resp,
       fst r = inl resp
       /\ types_TeamInvitationsResponse.Invitations resp
          = [types_Invitation.mk "a@x.com" 5 RoleMember "K" StatusPending 1000].
Proof.
  intros r.
  destruct (X18_listed_invitations_are_the_pending_ones_of_the_team Sample.ext
              (ctx_User (Some Sample.owner)) "team-5" (mkWorld Sample.store [])
              (snd r)
              (types_TeamInvitationsResponse.mk true
                 "Pending invitations retrieved successfully"
                 [types_Invitation.mk "a@x.com" 5 RoleMember "K" StatusPending 1000])
              eq_refl) as [Ht _].
  split; [exact Ht|]. eexists. split; reflexivity.
Defined.

(** X19. The member list of a team is given only to a user with a visible
    membership in the team. It contains exactly the visible memberships of
    that team, the requester's own among them, and producing it writes
    nothing. *)
Theorem X19_member_list_is_the_team_and_includes_the_requester
    (ext : External) (c : ContextValue) (team : string) (w w' : World)
    (resp : types_TeamMembersResponse.t) :
  GetListMembers ext c team w = (inl resp, w') ->
  tables w' = tables w
  /\ exists user teamUUID m,
       c = ctx_User (Some user)
       /\ uuid_Parse ext team = Some teamUUID
       /\ First mem_ltb (mem_by_user_team (User.ID user) teamUUID)
            (memberships (tables w)) = Some m
       /\ types_TeamMembersResponse.Members resp
          = map respMembership
              (filter (mem_by_team teamUUID) (memberships (tables w)))
       /\ In (respMembership m) (types_TeamMembersResponse.Members resp)
       /\ types_Membership.UserID (respMembership m) = User.ID user
       /\ (forall x, In x (types_TeamMembersResponse.Members resp) ->
                     types_Membership.TeamID x = teamUUID).
Proof.
  unfold GetListMembers.
  destruct c as [| |[user|]]; try discriminate.
  destruct (uuid_Parse ext team) as [teamUUID|] eqn:Et; [|discriminate].
  unfold FindMembershipByUserAndTeam, FindMembershipsByTeam, bind, query, ret.
  simpl.
  destruct (First mem_ltb _ _) as [m|] eqn:Em; simpl; [|discriminate].
  intros H. injection H as <- <-. simpl. split; [reflexivity|].
  exists user, teamUUID, m.
  pose proof (First_Some _ _ _ _ Em) as [Hin Hc].
  unfold mem_by_user_team in Hc.
  apply andb_true_iff in Hc. destruct Hc as [Hc H3].
  apply andb_true_iff in Hc. destruct Hc as [H1 H2].
  apply N.eqb_eq in H2.
  repeat split; auto.
  - apply in_map. apply filter_In. split; [exact Hin|].
    unfold mem_by_team. rewrite H1, H3. reflexivity.
  - intros x Hx. apply in_map_iff in Hx. destruct Hx as [i [<- Hi]].
    apply filter_In in Hi. destruct Hi as [_ Hi].
    unfold mem_by_team in Hi. apply andb_true_iff in Hi. destruct Hi as [_ Hi].
    apply N.eqb_eq in Hi. exact Hi.
Qed.

Lemma X19_member_list_witness :
  let r := GetListMembers Sample.ext (ctx_User (Some Sample.owner)) "team-5"
             (mkWorld Sample.store []) in
  tables (snd r) = Sample.store
  /\ exists resp,
       fst r = inl resp
       /\ types_TeamMembersResponse.Members resp
          = [types_Membership.mk 2 5 RoleOwner].
Proof.
  intros r.
  destruct (X19_member_list_is_the_team_and_includes_the_requester Sample.ext
              (ctx_User (Some Sample.owner)) "team-5" (mkWorld Sample.store [])
              (snd r)
              (types_TeamMembersResponse.mk true
                 "Team members retrieved successfully"
                 [types_Membership.mk 2 5 RoleOwner])
              eq_refl) as [Ht _].
  split; [exact Ht|]. eexists. split; reflexivity.
Defined.

(** ** Removing a member *)

Lemma set_memberships_same (t : Tables) : set_memberships (memberships t) t = t.
Proof. destruct t; reflexivity. Qed.

Lemma remove_shape ext now c team member w :
  let r := DeleteRemoveMember ext now c team member w in
  ((forall resp, fst r <> inl resp) /\ tables (snd r) = tables w)
  \/ exists user teamUUID target m mt,
       c = ctx_User (Some user)
       /\ uuid_Parse ext team = Some teamUUID
       /\ uuid_Parse ext member = Some target
       /\ First mem_ltb (mem_by_user_team (User.ID user) teamUUID)
            (memberships (tables w)) = Some m
       /\ isAdminOrOwner (Membership.Role m) = true
       /\ User.ID user <> target
       /\ First mem_ltb (mem_by_user_team target teamUUID)
            (memberships (tables w)) = Some mt
       /\ Membership.Role mt <> RoleOwner
       /\ tables (snd r)
          = set_memberships
              (UpdateWhere (mem_by_id (Membership.ID mt))
                 (Membership_set_DeletedAt (Some now))
                 (memberships (tables w)))
              (tables w)
       /\ fst r = inl (types_TeamMemberResponse.mk true
                         "Member removed successfully" types_Membership.zero).
Proof.
  intros r. subst r. unfold DeleteRemoveMember.
  destruct c as [| |[user|]]; try (left; split; [discriminate|reflexivity]).
  destruct (uuid_Parse ext team) as [teamUUID|] eqn:Et;
    [|left; split; [discriminate|reflexivity]].
  destruct (uuid_Parse ext member) as [target|] eqn:Ei;
    [|left; split; [discriminate|reflexivity]].
  unfold FindMembershipByUserAndTeam, DeleteMembershipByUserAndTeam,
    SoftDelete_membership, statement, bind, query, ret. simpl.
  destruct (First mem_ltb (mem_by_user_team (User.ID user) teamUUID) _)
    as [m|] eqn:Em; simpl; [|left; split; [discriminate|reflexivity]].
  destruct (isAdminOrOwner (Membership.Role m)) eqn:Ea; simpl;
    [|left; split; [discriminate|reflexivity]].
  destruct (User.ID user =? target)%N eqn:Eself; simpl;
    [left; split; [discriminate|reflexivity]|].
  destruct (First mem_ltb (mem_by_user_team target teamUUID) _)
    as [mt|] eqn:Emt; simpl; [|left; split; [discriminate|reflexivity]].
  destruct (String.eqb (Membership.Role mt) RoleOwner) eqn:Eo; simpl;
    [left; split; [discriminate|reflexivity]|].
  rewrite Emt. simpl.
  destruct (RowsAffected (mem_by_id (Membership.ID mt)) (memberships (tables w))
            =? 0)%nat eqn:En; simpl.
  - left. split; [discriminate|].
    rewrite (UpdateWhere_zero _ _ _ En). apply set_memberships_same.
  - right. exists user, teamUUID, target, m, mt.
    apply String.eqb_neq in Eo. apply N.eqb_neq in Eself.
    repeat split; auto.
Qed.

(** X20. A member is removed only by an owner or admin of the team, never
    by themselves, and never if the member is the owner; the removal
    soft-deletes the member's row and changes nothing else. Every refused
    removal leaves the store as it was. *)
Theorem X20_removal_needs_admin_and_spares_owner_and_self
    (ext : External) (now : Time) (c : ContextValue)
    (team member : string) (w w' : World)
    (result : types_TeamMemberResponse.t + error) :
  DeleteRemoveMember ext now c team member w = (result, w') ->
  ((forall resp, result <> inl resp) -> tables w' = tables w)
  /\ (forall resp, result = inl resp ->
      exists user teamUUID target m mt,
        c = ctx_User (Some user)
        /\ uuid_Parse ext team = Some teamUUID
        /\ uuid_Parse ext member = Some target
        /\ First mem_ltb (mem_by_user_team (User.ID user) teamUUID)
             (memberships (tables w)) = Some m
        /\ (Membership.Role m = RoleOwner \/ Membership.Role m = RoleAdmin)
        /\ User.ID user <> target
        /\ First mem_ltb (mem_by_user_team target teamUUID)
             (memberships (tables w)) = Some mt
        /\ Membership.Role mt <> RoleOwner
        /\ In (Membership_set_DeletedAt (Some now) mt) (memberships (tables w'))
        /\ tables w'
           = set_memberships
               (UpdateWhere (mem_by_id (Membership.ID mt))
                  (Membership_set_DeletedAt (Some now))
                  (memberships (tables w)))
               (tables w)).
Proof.
  intros H. pose proof (remove_shape ext now c team member w) as S.
  rewrite H in S. simpl in S.
  destruct S as [[Hno Ht]|(user & teamUUID & target & m & mt & Hc & Et & Em
                           & Hm & Ha & Hself & Hmt & Ho & Ht & Hr)].
  - split; [auto|]. intros resp ->. exfalso. exact (Hno resp eq_refl).
  - split; [intros Hno; exfalso; exact (Hno _ Hr)|].
    intros resp _. exists user, teamUUID, target, m, mt.
    repeat split; auto.
    + unfold isAdminOrOwner in Ha. apply orb_true_iff in Ha.
      destruct Ha as [E|E]; apply String.eqb_eq in E; auto.
    + rewrite Ht. destruct (tables w); simpl.
      pose proof (First_Some _ _ _ _ Hmt) as [Hin Hcond]. simpl in Hin.
      unfold UpdateWhere. apply in_map_iff. exists mt. split; [|exact Hin].
      unfold mem_by_user_team in Hcond.
      apply andb_true_iff in Hcond. destruct Hcond as [Hcond _].
      apply andb_true_iff in Hcond. destruct Hcond as [Hl _].
      unfold mem_by_id. rewrite Hl, N.eqb_refl. reflexivity.
Qed.

Lemma X20_removal_witness :
  (let r := DeleteRemoveMember Sample.ext 300 (ctx_User (Some Sample.alice))
              "team-5" "user-1" (mkWorld Joined.store []) in
   tables (snd r) = Joined.store)
  /\ (let r := DeleteRemoveMember Sample.ext 300 (ctx_User (Some Sample.owner))
                 "team-5" "user-1" (mkWorld Joined.store []) in
      In (Membership_set_DeletedAt (Some 300) Joined.membership_alice)
         (memberships (tables (snd r)))).
Proof.
  split.
  - intros r.
    apply (proj1 (X20_removal_needs_admin_and_spares_owner_and_self Sample.ext 300
                    (ctx_User (Some Sample.alice)) "team-5" "user-1"
                    (mkWorld Joined.store []) (snd r) (fst r) eq_refl)).
    intros resp. vm_compute. discriminate.
  - intros r.
    destruct (proj2 (X20_removal_needs_admin_and_spares_owner_and_self Sample.ext
                       300 (ctx_User (Some Sample.owner)) "team-5" "user-1"
                       (mkWorld Joined.store []) (snd r) (fst r) eq_refl)
                _ eq_refl)
      as (user & teamUUID & target & m & mt & _ & Et & Em & _ & _ & _ & Hmt & _
          & Hin & _).
    vm_compute in Et, Em. injection Et as <-. injection Em as <-.
    vm_compute in Hmt. injection Hmt as <-. exact Hin.
Defined.

Lemma removed_pair_is_held ext now c team member w resp w' teamUUID target :
  DeleteRemoveMember ext now c team member w = (inl resp, w') ->
  NoDup (map (fun m => (Membership.UserID m, Membership.TeamID m))
           (memberships (tables w))) ->
  uuid_Parse ext team = Some teamUUID ->
  uuid_Parse ext member = Some target ->
  First mem_ltb (mem_by_user_team target teamUUID) (memberships (tables w'))
  = None
  /\ (exists gone, In gone (memberships (tables w'))
                   /\ Membership.UserID gone = target
                   /\ Membership.TeamID gone = teamUUID)
  /\ users (tables w') = users (tables w)
  /\ invitations (tables w') = invitations (tables w).
Proof.
  intros H Hnd Et Em. pose proof (remove_shape ext now c team member w) as S.
  rewrite H in S. simpl in S.
  destruct S as [[Hno _]|(user & teamUUID' & target' & m & mt & _ & Et' & Em'
                          & _ & _ & _ & Hmt & _ & Ht & _)].
  { exfalso. exact (Hno resp eq_refl). }
  rewrite Et in Et'. injection Et' as <-. rewrite Em in Em'. injection Em' as <-.
  pose proof (First_Some _ _ _ _ Hmt) as [Hin Hcond].
  unfold mem_by_user_team in Hcond.
  apply andb_true_iff in Hcond. destruct Hcond as [Hcond Hteam].
  apply andb_true_iff in Hcond. destruct Hcond as [Hl Huser].
  apply N.eqb_eq in Hteam. apply N.eqb_eq in Huser.
  rewrite Ht. destruct (tables w) as [us invs ms ps ss]; simpl in *.
  split; [|split; [|split; reflexivity]].
  - apply First_None. intros r Hr. unfold UpdateWhere in Hr.
    apply in_map_iff in Hr. destruct Hr as [r0 [E Hr0]].
    destruct (mem_by_id (Membership.ID mt) r0) eqn:Hid.
    + subst r. unfold mem_by_user_team, mem_live. reflexivity.
    + subst r. destruct (mem_by_user_team target teamUUID r0) eqn:Hc0;
        [|reflexivity].
      exfalso. unfold mem_by_user_team in Hc0.
      apply andb_true_iff in Hc0. destruct Hc0 as [Hc0 Ht0].
      apply andb_true_iff in Hc0. destruct Hc0 as [Hl0 Hu0].
      apply N.eqb_eq in Ht0. apply N.eqb_eq in Hu0.
      assert (r0 = mt) as ->.
      { apply (NoDup_map_eq _ _ _ _ Hnd Hr0 Hin). simpl. congruence. }
      unfold mem_by_id in Hid. rewrite Hl, N.eqb_refl in Hid. discriminate.
  - exists (Membership_set_DeletedAt (Some now) mt). split; [|split; auto].
    unfold UpdateWhere. apply in_map_iff. exists mt. split; [|exact Hin].
    unfold mem_by_id. rewrite Hl, N.eqb_refl. reflexivity.
Qed.

(** X21. A removed member cannot rejoin the team. Where the (user, team)
    pairs of the membership rows are unique, as the index demands, the
    soft-deleted row still holds the pair: when the removed user accepts a
    pending, unexpired invitation to the same team that is addressed to
    them, the insert of the new membership fails, the transaction rolls
    back and the answer is 500. *)
Theorem X21_removed_member_cannot_rejoin
    (ext : External) (now later : Time) (newID : UUID) (c : ContextValue)
    (team member token : string) (w w' : World)
    (resp : types_TeamMemberResponse.t)
    (teamUUID : UUID) (user row : User.t) (inv : Invitation.t) :
  DeleteRemoveMember ext now c team member w = (inl resp, w') ->
  NoDup (map (fun m => (Membership.UserID m, Membership.TeamID m))
           (memberships (tables w))) ->
  uuid_Parse ext team = Some teamUUID ->
  uuid_Parse ext member = Some (User.ID user) ->
  First inv_ltb (inv_by_token token) (invitations (tables w')) = Some inv ->
  Invitation.TeamID inv = teamUUID ->
  Invitation.Status inv = StatusPending ->
  later <= Invitation.ExpiresAt inv ->
  First user_ltb (user_by_id (User.ID user)) (users (tables w')) = Some row ->
  User.Email row = Invitation.Email inv ->
  token <> "" ->
  let r := PostAcceptInvitation quiet later newID (ctx_User (Some user)) token w' in
  fst r = inr (HTTPError StatusInternalServerError "Failed to accept invitation")
  /\ tables (snd r) = tables w'.
Proof.
  intros H Hnd Et Em Hinv Hteam Hst Hexp Hrow Hemail Htok r.
  destruct (removed_pair_is_held _ _ _ _ _ _ _ _ _ _ H Hnd Et Em)
    as (Hnone & (gone & Hgone & Hgu & Hgt) & _ & _).
  subst r. unfold PostAcceptInvitation.
  rewrite (proj2 (String.eqb_neq _ _) Htok).
  unfold AcceptInvitation, Transaction, TransactionBy, AcceptInvitation_tx, bind,
    query, ret. simpl.
  rewrite Hinv. simpl. rewrite Hst. simpl.
  unfold After. rewrite (proj2 (Z.ltb_ge _ _) Hexp). simpl.
  rewrite Hrow. simpl.
  rewrite (proj2 (String.eqb_eq _ _) Hemail). simpl.
  unfold FirstOrCreate_membership, bind, query, ret. simpl.
  rewrite Hteam, Hnone. simpl.
  unfold Create_membership, Membership_BeforeCreate. simpl.
  destruct (valid_membership_role (Invitation.Role inv)) eqn:Hrole; simpl.
  - unfold statement. simpl.
    assert (existsb
              (membership_conflicts
                 (Membership.mk (if (uuid_Nil =? uuid_Nil)%N then newID else uuid_Nil)
                    (if IsZero zeroTime then later else zeroTime)
                    (if IsZero zeroTime then later else zeroTime)
                    None (User.ID user) teamUUID (Invitation.Role inv)))
              (memberships (tables w')) = true) as Hex.
    { apply existsb_exists. exists gone. split; [exact Hgone|].
      unfold membership_conflicts. simpl. rewrite Hgu, Hgt, !N.eqb_refl.
      apply orb_true_r. }
    simpl in Hex. rewrite Hex. simpl. split; reflexivity.
  - split; reflexivity.
Qed.

Lemma X21_removed_member_witness :
  let w' := snd (DeleteRemoveMember Sample.ext 300 (ctx_User (Some Sample.owner))
                   "team-5" "user-1" (mkWorld Joined.store [])) in
  let r := PostAcceptInvitation quiet 400 77 (ctx_User (Some Sample.alice)) "K2" w' in
  fst r = inr (HTTPError StatusInternalServerError "Failed to accept invitation")
  /\ tables (snd r) = tables w'.
Proof.
  intros w'.
  apply (X21_removed_member_cannot_rejoin Sample.ext 300 400 77
           (ctx_User (Some Sample.owner)) "team-5" "user-1" "K2"
           (mkWorld Joined.store []) w'
           (types_TeamMemberResponse.mk true "Member removed successfully"
              types_Membership.zero)
           5%N Sample.alice Sample.alice Joined.reinvitation).
  - reflexivity.
  - vm_compute. repeat constructor; simpl; intuition discriminate.
  - reflexivity.
  - reflexivity.
  - reflexivity.
  - reflexivity.
  - reflexivity.
  - vm_compute. discriminate.
  - reflexivity.
  - reflexivity.
  - discriminate.
Defined.

(** ** What each side leaves alone *)

(** One step of a frame proof: a statement keeps every table it does not
    assign. *)
Ltac frame_step :=
  first
    [ apply preserves_TransactionBy; [intros ? Hq; exact Hq|]
    | pres_step
    | apply preserves_statement; intros ? ?; simpl;
      repeat match goal with
             | |- context [if ?b then _ else _] => destruct b
             end; simpl; assumption
    | (intros ? Hq; exact Hq) ].

Section TeamsFrame.
Variable x : list User.t * list Plan.t * list Subscription.t.
Let P := fun t => (users t, plans t, subscriptions t) = x.

Lemma teams_frame_accept now newID c token :
  preserves P (PostAcceptInvitation quiet now newID c token).
Proof.
  unfold PostAcceptInvitation, AcceptInvitation, Transaction, AcceptInvitation_tx,
    FirstOrCreate_membership, Create_membership, UpdateStatusIfPending, Refetch,
    interfere.
  repeat frame_step.
Qed.

Lemma teams_frame_decline now c token :
  preserves P (PostDeclineInvitation quiet now c token).
Proof.
  unfold PostDeclineInvitation, FindInvitationByTokenWithTeam,
    UpdateInvitationStatus, UpdateStatusIfPending, Refetch, interfere.
  repeat frame_step.
Qed.

Lemma teams_frame_invite ext now newID newToken c team email role :
  preserves P (PostInviteMember ext now newID newToken c team email role).
Proof.
  intros w H.
  pose proof (invite_shape ext now newID newToken c team email role w) as S.
  simpl in S.
  destruct S as [[Ht _] | (user & teamUUID & tok & _ & _ & _ & _ & _
                           & _ & _ & _ & Ht & _)];
    unfold P; rewrite Ht; exact H.
Qed.

Lemma teams_frame_cancel ext now c team invitationID :
  preserves P (DeleteCancelInvitation ext now c team invitationID).
Proof.
  unfold DeleteCancelInvitation, FindMembershipByUserAndTeam,
    FindInvitationByIDAndTeam, DeleteInvitation, SoftDelete_invitation.
  repeat frame_step.
Qed.

Lemma teams_frame_remove ext now c team member :
  preserves P (DeleteRemoveMember ext now c team member).
Proof.
  unfold DeleteRemoveMember, FindMembershipByUserAndTeam,
    DeleteMembershipByUserAndTeam, SoftDelete_membership.
  repeat frame_step.
Qed.
End TeamsFrame.

(** X22. The team handlers that write (invite, accept, decline, cancel,
    remove member) never change the users, plans or subscriptions tables,
    whatever their outcome. *)
Theorem X22_team_handlers_leave_billing_tables_alone
    (ext : External) (now : Time) (newID : UUID) (newToken : string + error)
    (c : ContextValue) (team email role token invitationID member : string)
    (w : World) :
  let billing t := (users t, plans t, subscriptions t) in
  billing (tables (snd (PostInviteMember ext now newID newToken c team email role w)))
  = billing (tables w)
  /\ billing (tables (snd (PostAcceptInvitation quiet now newID c token w)))
     = billing (tables w)
  /\ billing (tables (snd (PostDeclineInvitation quiet now c token w)))
     = billing (tables w)
  /\ billing (tables (snd (DeleteCancelInvitation ext now c team invitationID w)))
     = billing (tables w)
  /\ billing (tables (snd (DeleteRemoveMember ext now c team member w)))
     = billing (tables w).
Proof.
  intros billing. unfold billing.
  split; [|split; [|split; [|split]]].
  - apply (teams_frame_invite _ ext now newID newToken c team email role w).
    reflexivity.
  - apply (teams_frame_accept _ now newID c token w). reflexivity.
  - apply (teams_frame_decline _ now c token w). reflexivity.
  - apply (teams_frame_cancel _ ext now c team invitationID w). reflexivity.
  - apply (teams_frame_remove _ ext now c team member w). reflexivity.
Qed.

Section BillingFrame.
Variable x : list Invitation.t * list Membership.t * list Plan.t.
Let P := fun t => (invitations t, memberships t, plans t) = x.

Lemma billing_frame_webhook ext cfg now newID req :
  preserves P (PostStripeWebhook ext cfg now newID req).
Proof.
  unfold PostStripeWebhook, handleCheckoutSessionCompleted,
    handleCheckoutSessionCompleted_tx, handleSubscriptionUpdated,
    handleSubscriptionDeleted, handleInvoicePaid, handleInvoicePaymentFailed,
    FindPlanByPrice, UpdateUserStripeCustomerID, FirstOrCreate_subscription,
    UpdateSubscriptionStatus, UpdateSubscriptionFromEvent, parse_error.
  repeat frame_step.
Qed.
End BillingFrame.

Section UsersFrame.
Variable x : list User.t.
Let P := fun t => users t = x.

Lemma users_frame_updated now sub : preserves P (handleSubscriptionUpdated now sub).
Proof.
  unfold handleSubscriptionUpdated, FindPlanByPrice, UpdateSubscriptionFromEvent.
  repeat frame_step.
Qed.

Lemma users_frame_deleted now sub : preserves P (handleSubscriptionDeleted now sub).
Proof.
  unfold handleSubscriptionDeleted, UpdateSubscriptionStatus.
  repeat frame_step.
Qed.

Lemma users_frame_paid now invoice : preserves P (handleInvoicePaid now invoice).
Proof.
  unfold handleInvoicePaid, UpdateSubscriptionStatus.
  repeat frame_step.
Qed.

Lemma users_frame_failed now invoice :
  preserves P (handleInvoicePaymentFailed now invoice).
Proof.
  unfold handleInvoicePaymentFailed, UpdateSubscriptionStatus.
  repeat frame_step.
Qed.
End UsersFrame.

(** X23. The webhook processor never changes the invitations, memberships
    or plans tables, whatever the request and its outcome; and the handlers
    of the subscription and invoice events leave the users table alone as
    well, so they write subscriptions only. *)
Theorem X23_webhook_leaves_team_tables_alone
    (ext : External) (cfg : StripeConfig) (now : Time) (newID : UUID)
    (req : WebhookRequest) (sub : StripeSubscription.t)
    (invoice : StripeInvoice.t) (w : World) :
  let teams t := (invitations t, memberships t, plans t) in
  let rest t := (users t, teams t) in
  teams (tables (snd (PostStripeWebhook ext cfg now newID req w)))
  = teams (tables w)
  /\ rest (tables (snd (handleSubscriptionUpdated now sub w))) = rest (tables w)
  /\ rest (tables (snd (handleSubscriptionDeleted now sub w))) = rest (tables w)
  /\ rest (tables (snd (handleInvoicePaid now invoice w))) = rest (tables w)
  /\ rest (tables (snd (handleInvoicePaymentFailed now invoice w)))
     = rest (tables w).
Proof.
  intros teams rest. unfold rest, teams.
  assert (forall (h : M (Go (option error))),
            (forall x, preserves (fun t => users t = x) h) ->
            (forall x, preserves
                         (fun t => (invitations t, memberships t, plans t) = x) h) ->
            (users (tables (snd (h w))),
             (invitations (tables (snd (h w))), memberships (tables (snd (h w))),
              plans (tables (snd (h w)))))
            = (users (tables w),
               (invitations (tables w), memberships (tables w), plans (tables w))))
    as Hboth.
  { intros h Hu Ht. rewrite (Hu _ w eq_refl), (Ht _ w eq_refl). reflexivity. }
  split; [|split; [|split; [|split]]].
  - apply (billing_frame_webhook _ ext cfg now newID req w). reflexivity.
  - apply Hboth; intros y; [apply users_frame_updated|].
    unfold handleSubscriptionUpdated, FindPlanByPrice, UpdateSubscriptionFromEvent.
    repeat frame_step.
  - apply Hboth; intros y; [apply users_frame_deleted|].
    unfold handleSubscriptionDeleted, UpdateSubscriptionStatus.
    repeat frame_step.
  - apply Hboth; intros y; [apply users_frame_paid|].
    unfold handleInvoicePaid, UpdateSubscriptionStatus.
    repeat frame_step.
  - apply Hboth; intros y; [apply users_frame_failed|].
    unfold handleInvoicePaymentFailed, UpdateSubscriptionStatus.
    repeat frame_step.
Qed.

(** ** Deliveries that change nothing *)

Lemma TransactionBy_atomic {R} (failed : R -> bool) (body : M R) (w : World) :
  failed (fst (TransactionBy failed quiet body w)) = true ->
  tables (snd (TransactionBy failed quiet body w)) = tables w.
Proof.
  unfold TransactionBy. destruct (body _) as [r w1].
  destruct (failed r) eqn:E; simpl; [reflexivity|congruence].
Qed.

Lemma failed_Go_iff (r : Go (option error)) :
  r <> Returns None -> failed_Go r = true.
Proof. destruct r as [[e|]|msg]; simpl; congruence. Qed.

Lemma handleCheckoutSessionCompleted_atomic ext now newID session w :
  fst (handleCheckoutSessionCompleted ext now newID session w) <> Returns None ->
  tables (snd (handleCheckoutSessionCompleted ext now newID session w)) = tables w.
Proof.
  unfold handleCheckoutSessionCompleted.
  destruct (StripeCheckoutSession.Customer session) as [c|];
    [|destruct (StripeCheckoutSession.Subscription session); reflexivity].
  destruct (StripeCheckoutSession.Subscription session) as [s0|]; [|reflexivity].
  destruct (_ || _); [reflexivity|].
  destruct (uuid_Parse ext _) as [userID|]; [|reflexivity].
  destruct (subscription_Get ext _) as [sub|]; [|reflexivity].
  destruct (StripeSubscription.Items sub) as [[|[item|] rest]|]; try reflexivity.
  destruct (StripeSubscriptionItem.Price item) as [price|]; [|reflexivity].
  unfold FindPlanByPrice, bind, query, ret. simpl.
  destruct (First plan_ltb _ _) as [plan|]; [|reflexivity].
  match goal with
  | |- context [TransactionBy ?f quiet ?b ?w0] =>
      pose proof (TransactionBy_atomic f b w0) as Hat;
      destruct (TransactionBy f quiet b w0) as [txErr w1]
  end.
  simpl in *. intros Hne. apply Hat.
  destruct txErr; [reflexivity|]. exfalso. apply Hne. reflexivity.
Qed.

Lemma transaction_Go_atomic (body : M (Go (option error))) w :
  fst (TransactionBy failed_Go quiet body w) <> Returns None ->
  tables (snd (TransactionBy failed_Go quiet body w)) = tables w.
Proof. intros H. apply TransactionBy_atomic. apply failed_Go_iff. exact H. Qed.

Lemma handleInvoicePaid_atomic now invoice w :
  fst (handleInvoicePaid now invoice w) <> Returns None ->
  tables (snd (handleInvoicePaid now invoice w)) = tables w.
Proof.
  unfold handleInvoicePaid.
  destruct (StripeInvoice.Subscription invoice); [|reflexivity].
  destruct (_ || _); [reflexivity|]. apply transaction_Go_atomic.
Qed.

Lemma handleInvoicePaymentFailed_atomic now invoice w :
  fst (handleInvoicePaymentFailed now invoice w) <> Returns None ->
  tables (snd (handleInvoicePaymentFailed now invoice w)) = tables w.
Proof.
  unfold handleInvoicePaymentFailed.
  destruct (StripeInvoice.Subscription invoice); [|reflexivity].
  destruct (String.eqb _ _); [reflexivity|]. apply transaction_Go_atomic.
Qed.

(** X24. A verified event of a type the processor does not handle is
    acknowledged with the success response without any access to the
    store; a verified event of a handled type whose payload does not parse
    is answered 400, again without any access to the store. *)
Theorem X24_unhandled_or_unparsable_event_touches_nothing
    (ext : External) (cfg : StripeConfig) (now : Time) (newID : UUID)
    (req : WebhookRequest) (w : World) (payload : string)
    (event : StripeEvent.t) :
  Body req = Some payload ->
  Stripe_Signature req <> "" ->
  WebhookSecret cfg <> "" ->
  SecretKey cfg <> "" ->
  webhook_ConstructEvent ext payload (Stripe_Signature req) (WebhookSecret cfg)
    = inl event ->
  let type := StripeEvent.Type_ event in
  let raw := StripeEvent.Data_Raw event in
  (type <> "checkout.session.completed" ->
   type <> "customer.subscription.updated" ->
   type <> "customer.subscription.deleted" ->
   type <> "invoice.paid" ->
   type <> "invoice.payment_failed" ->
   PostStripeWebhook ext cfg now newID req w
   = (Returns (inl (types_Response.mk true "Webhook received successfully")), w))
  /\ ((type = "checkout.session.completed"
         /\ Unmarshal_CheckoutSession ext raw = None)
      \/ ((type = "customer.subscription.updated"
           \/ type = "customer.subscription.deleted")
          /\ Unmarshal_Subscription ext raw = None)
      \/ ((type = "invoice.paid" \/ type = "invoice.payment_failed")
          /\ Unmarshal_Invoice ext raw = None) ->
      PostStripeWebhook ext cfg now newID req w
      = (Returns (inr (HTTPError StatusBadRequest "Error parsing webhook payload")),
         w)).
Proof.
  intros Hbody Hsig Hsecret Hkey Hev type raw.
  unfold PostStripeWebhook. rewrite Hbody.
  rewrite (proj2 (String.eqb_neq _ _) Hsig), (proj2 (String.eqb_neq _ _) Hsecret).
  rewrite Hev, (proj2 (String.eqb_neq _ _) Hkey).
  fold type. fold raw. split.
  - intros H1 H2 H3 H4 H5.
    rewrite (proj2 (String.eqb_neq _ _) H1), (proj2 (String.eqb_neq _ _) H2),
      (proj2 (String.eqb_neq _ _) H3), (proj2 (String.eqb_neq _ _) H4),
      (proj2 (String.eqb_neq _ _) H5).
    reflexivity.
  - intros [[-> Hp]|[[[->| ->] Hp]|[[->| ->] Hp]]]; simpl; rewrite Hp;
      reflexivity.
Qed.

Lemma X24_unhandled_event_witness :
  PostStripeWebhook Sample.ext Delivery.cfg 100 77
    (Delivery.request "customer.created") (mkWorld Sample.billing_store [])
  = (Returns (inl (types_Response.mk true "Webhook received successfully")),
     mkWorld Sample.billing_store [])
  /\ PostStripeWebhook Sample.ext Delivery.cfg 100 77
       (Delivery.request "invoice.paid") (mkWorld Sample.billing_store [])
     = (Returns (inr (HTTPError StatusBadRequest "Error parsing webhook payload")),
        mkWorld Sample.billing_store []).
Proof.
  split.
  - apply (proj1 (X24_unhandled_or_unparsable_event_touches_nothing Sample.ext
                    Delivery.cfg 100 77 (Delivery.request "customer.created")
                    (mkWorld Sample.billing_store []) "customer.created"
                    (StripeEvent.mk "evt_1" "customer.created" "customer.created")
                    eq_refl ltac:(discriminate) ltac:(discriminate)
                    ltac:(discriminate) eq_refl)); discriminate.
  - apply (proj2 (X24_unhandled_or_unparsable_event_touches_nothing Sample.ext
                    Delivery.cfg 100 77 (Delivery.request "invoice.paid")
                    (mkWorld Sample.billing_store []) "invoice.paid"
                    (StripeEvent.mk "evt_1" "invoice.paid" "invoice.paid")
                    eq_refl ltac:(discriminate) ltac:(discriminate)
                    ltac:(discriminate) eq_refl)).
    right. right. split; [left; reflexivity|reflexivity].
Defined.

(** X25. Webhook processing is all or nothing: whenever the answer is not
    the success response (an error answer or a panic), the tables are
    exactly what they were before the request, whatever the handler had
    already written inside its transaction. *)
Theorem X25_unacknowledged_webhook_changes_nothing
    (ext : External) (cfg : StripeConfig) (now : Time) (newID : UUID)
    (req : WebhookRequest) (w : World) :
  (forall resp,
     fst (PostStripeWebhook ext cfg now newID req w) <> Returns (inl resp)) ->
  tables (snd (PostStripeWebhook ext cfg now newID req w)) = tables w.
Proof.
  unfold PostStripeWebhook.
  destruct (Body req) as [payload|]; [|reflexivity].
  destruct (String.eqb (Stripe_Signature req) ""); [reflexivity|].
  destruct (String.eqb (WebhookSecret cfg) ""); [reflexivity|].
  destruct (webhook_ConstructEvent ext _ _ _) as [event|err]; [|reflexivity].
  destruct (String.eqb (SecretKey cfg) ""); [reflexivity|].
  assert (forall (h : M (Go (option error))),
            (fst (h w) <> Returns None -> tables (snd (h w)) = tables w) ->
            (forall resp,
               fst (bind h (fun processing =>
                      match processing with
                      | Panics msg => ret (Panics msg)
                      | Returns (Some processingError) =>
                          ret (Returns (inr processingError))
                      | Returns None =>
                          ret (Returns (inl (types_Response.mk true
                                               "Webhook received successfully")))
                      end) w) <> Returns (inl resp)) ->
            tables (snd (bind h (fun processing =>
                      match processing with
                      | Panics msg => ret (Panics msg)
                      | Returns (Some processingError) =>
                          ret (Returns (inr processingError))
                      | Returns None =>
                          ret (Returns (inl (types_Response.mk true
                                               "Webhook received successfully")))
                      end) w)) = tables w) as Hstep.
  { intros h Hh. unfold bind, ret. destruct (h w) as [[[e|]|msg] w1]; simpl in *.
    - intros _. apply Hh. discriminate.
    - intros Hno. exfalso. exact (Hno _ eq_refl).
    - intros _. apply Hh. discriminate. }
  destruct (String.eqb (StripeEvent.Type_ event) "checkout.session.completed").
  { destruct (Unmarshal_CheckoutSession ext _) as [session|]; [|reflexivity].
    apply Hstep. apply handleCheckoutSessionCompleted_atomic. }
  destruct (String.eqb (StripeEvent.Type_ event) "customer.subscription.updated").
  { destruct (Unmarshal_Subscription ext _) as [sub|]; [|reflexivity].
    apply Hstep. apply transaction_Go_atomic. }
  destruct (String.eqb (StripeEvent.Type_ event) "customer.subscription.deleted").
  { destruct (Unmarshal_Subscription ext _) as [sub|]; [|reflexivity].
    apply Hstep. apply transaction_Go_atomic. }
  destruct (String.eqb (StripeEvent.Type_ event) "invoice.paid").
  { destruct (Unmarshal_Invoice ext _) as [invoice|]; [|reflexivity].
    apply Hstep. apply handleInvoicePaid_atomic. }
  destruct (String.eqb (StripeEvent.Type_ event) "invoice.payment_failed").
  { destruct (Unmarshal_Invoice ext _) as [invoice|]; [|reflexivity].
    apply Hstep. apply handleInvoicePaymentFailed_atomic. }
  intros Hno. exfalso. exact (Hno _ eq_refl).
Qed.

Lemma X25_unacknowledged_webhook_witness :
  let r := PostStripeWebhook Delivery.ext Delivery.cfg 100 77
             (Delivery.request "checkout.session.completed")
             (mkWorld Delivery.clash []) in
  fst r = Returns (inr (HTTPError StatusInternalServerError
                          "Failed to save subscription details"))
  /\ In (Update "users" 1) (log (snd r))
  /\ tables (snd r) = Delivery.clash.
Proof.
  intros r. split; [reflexivity|]. split; [vm_compute; tauto|].
  apply (X25_unacknowledged_webhook_changes_nothing Delivery.ext Delivery.cfg 100
           77 (Delivery.request "checkout.session.completed")
           (mkWorld Delivery.clash [])).
  intros resp. vm_compute. discriminate.
Defined.

(** ** Subscription events and what the user is shown *)


Lemma sub_active_of_iff userID s :
  sub_active_of userID s = true
  <-> Subscription.UserID s = userID /\ Subscription.Status s = "active".
Proof.
  unfold sub_active_of. rewrite andb_true_iff, N.eqb_eq, String.eqb_eq. tauto.
Qed.

Lemma GetSubscription_none user w :
  fst (GetSubscription (ctx_User (Some user)) w) = inl None
  <-> (forall row, In row (subscriptions (tables w)) ->
                   sub_active_of (User.ID user) row = false).
Proof.
  unfold GetSubscription, FindLatestActiveSubscriptionByUserID, bind, query, ret.
  simpl.
  destruct (First sub_latest_ltb _ _) as [row|] eqn:E; simpl.
  - split; [discriminate|]. intros H. apply First_Some in E.
    destruct E as [Hin Hc]. rewrite (H row Hin) in Hc. discriminate.
  - split; [|reflexivity]. intros _. exact (proj1 (First_None _ _ _) E).
Qed.


Lemma status_update_rows now sid status l :
  (forall r, In r (UpdateWhere (sub_by_stripe_id sid)
                     (fun r =>
                        Subscription.mk (Subscription.ID r) (Subscription.UserID r)
                          (Subscription.PlanID r)
                          (Subscription.StripeSubscriptionID r) status
                          (Subscription.CurrentPeriodStart r)
                          (Subscription.CurrentPeriodEnd r)
                          (Subscription.CancelAtPeriodEnd r)
                          (Subscription.CreatedAt r) now) l) ->
     (Subscription.StripeSubscriptionID r = sid -> Subscription.Status r = status)
     /\ (Subscription.StripeSubscriptionID r <> sid -> In r l)).
Proof.
  intros r Hr. unfold UpdateWhere in Hr. apply in_map_iff in Hr.
  destruct Hr as [r0 [E Hin]]. unfold sub_by_stripe_id in E.
  destruct (String.eqb (Subscription.StripeSubscriptionID r0) sid) eqn:C.
  - apply String.eqb_eq in C. subst r. simpl. split; [reflexivity|].
    intros Hne. contradiction.
  - apply String.eqb_neq in C. subst r. split; [contradiction|auto].
Qed.

Lemma payment_failed_tables now invoice s w :
  StripeInvoice.Subscription invoice = Some s ->
  StripeSubscription.ID s <> "" ->
  tables (snd (handleInvoicePaymentFailed now invoice w))
  = set_subscriptions
      (UpdateWhere (sub_by_stripe_id (StripeSubscription.ID s))
         (fun r =>
            Subscription.mk (Subscription.ID r) (Subscription.UserID r)
              (Subscription.PlanID r) (Subscription.StripeSubscriptionID r)
              SubscriptionStatusPastDue (Subscription.CurrentPeriodStart r)
              (Subscription.CurrentPeriodEnd r)
              (Subscription.CancelAtPeriodEnd r) (Subscription.CreatedAt r) now)
         (subscriptions (tables w)))
      (tables w)
  /\ fst (handleInvoicePaymentFailed now invoice w) = Returns None.
Proof.
  intros Hs Hid. unfold handleInvoicePaymentFailed. rewrite Hs.
  rewrite (proj2 (String.eqb_neq _ _) Hid).
  unfold TransactionBy, UpdateSubscriptionStatus, statement, bind, ret. simpl.
  split; reflexivity.
Qed.

Lemma paid_tables now invoice s w :
  StripeInvoice.Subscription invoice = Some s ->
  StripeSubscription.ID s <> "" ->
  StripeInvoice.Status invoice = InvoiceStatusPaid ->
  tables (snd (handleInvoicePaid now invoice w))
  = set_subscriptions
      (UpdateWhere (sub_by_stripe_id (StripeSubscription.ID s))
         (fun r =>
            Subscription.mk (Subscription.ID r) (Subscription.UserID r)
              (Subscription.PlanID r) (Subscription.StripeSubscriptionID r)
              SubscriptionStatusActive (Subscription.CurrentPeriodStart r)
              (Subscription.CurrentPeriodEnd r)
              (Subscription.CancelAtPeriodEnd r) (Subscription.CreatedAt r) now)
         (subscriptions (tables w)))
      (tables w)
  /\ fst (handleInvoicePaid now invoice w) = Returns None.
Proof.
  intros Hs Hid Hst. unfold handleInvoicePaid. rewrite Hs, Hst.
  rewrite (proj2 (String.eqb_neq _ _) Hid). simpl.
  unfold TransactionBy, UpdateSubscriptionStatus, statement, bind, ret. simpl.
  split; reflexivity.
Qed.

(** X27. A failed payment puts every row of the invoice's subscription in
    status past_due; a later paid invoice of the same subscription puts
    them back in status active. Through both events no row is added or
    removed, rows of other subscriptions are untouched, and nothing but the
    status and the update time of a row changes. *)
Theorem X27_payment_failure_then_payment
    (now1 now2 : Time) (failed paid : StripeInvoice.t)
    (s1 s2 : StripeSubscription.t) (w : World) :
  StripeInvoice.Subscription failed = Some s1 ->
  StripeInvoice.Subscription paid = Some s2 ->
  StripeSubscription.ID s2 = StripeSubscription.ID s1 ->
  StripeSubscription.ID s1 <> "" ->
  StripeInvoice.Status paid = InvoiceStatusPaid ->
  let sid := StripeSubscription.ID s1 in
  let w1 := snd (handleInvoicePaymentFailed now1 failed w) in
  let w2 := snd (handleInvoicePaid now2 paid w1) in
  let kept r :=
    (Subscription.ID r, Subscription.UserID r, Subscription.PlanID r,
     Subscription.StripeSubscriptionID r, Subscription.CurrentPeriodStart r,
     Subscription.CurrentPeriodEnd r, Subscription.CancelAtPeriodEnd r,
     Subscription.CreatedAt r) in
  (forall r, In r (subscriptions (tables w1)) ->
             Subscription.StripeSubscriptionID r = sid ->
             Subscription.Status r = "past_due")
  /\ (forall r, In r (subscriptions (tables w2)) ->
                Subscription.StripeSubscriptionID r = sid ->
                Subscription.Status r = "active")
  /\ (forall r, In r (subscriptions (tables w2)) ->
                Subscription.StripeSubscriptionID r <> sid ->
                In r (subscriptions (tables w)))
  /\ map kept (subscriptions (tables w2)) = map kept (subscriptions (tables w)).
Proof.
  intros H1 H2 Hsame Hid Hpaid sid w1 w2 kept.
  destruct (payment_failed_tables now1 failed s1 w H1 Hid) as [Ht1 _].
  assert (StripeSubscription.ID s2 <> "") as Hid2 by congruence.
  destruct (paid_tables now2 paid s2 w1 H2 Hid2 Hpaid) as [Ht2 _].
  fold w1 in Ht1. fold w2 in Ht2. rewrite Hsame in Ht2. fold sid in Ht1, Ht2.
  split; [|split; [|split]].
  - intros r Hr. rewrite Ht1 in Hr. destruct (tables w); simpl in Hr.
    exact (proj1 (status_update_rows _ _ _ _ r Hr)).
  - intros r Hr. rewrite Ht2 in Hr. destruct (tables w1); simpl in Hr.
    exact (proj1 (status_update_rows _ _ _ _ r Hr)).
  - intros r Hr Hne. rewrite Ht2 in Hr.
    assert (In r (subscriptions (tables w1))) as Hr1.
    { destruct (tables w1); simpl in Hr.
      exact (proj2 (status_update_rows _ _ _ _ r Hr) Hne). }
    rewrite Ht1 in Hr1. destruct (tables w); simpl in Hr1.
    exact (proj2 (status_update_rows _ _ _ _ r Hr1) Hne).
  - rewrite Ht2.
    assert (forall t st tm,
              map kept (subscriptions (set_subscriptions
                (UpdateWhere (sub_by_stripe_id sid)
                   (fun r =>
                      Subscription.mk (Subscription.ID r) (Subscription.UserID r)
                        (Subscription.PlanID r)
                        (Subscription.StripeSubscriptionID r) st
                        (Subscription.CurrentPeriodStart r)
                        (Subscription.CurrentPeriodEnd r)
                        (Subscription.CancelAtPeriodEnd r)
                        (Subscription.CreatedAt r) tm)
                   (subscriptions t)) t))
              = map kept (subscriptions t)) as Hk.
    { intros t st tm. destruct t; simpl. unfold UpdateWhere. rewrite map_map.
      apply map_ext. intros a. destruct (sub_by_stripe_id sid a); reflexivity. }
    rewrite (Hk (tables w1) SubscriptionStatusActive now2).
    rewrite Ht1. apply (Hk (tables w) SubscriptionStatusPastDue now1).
Qed.

Lemma X27_payment_failure_witness :
  let failed :=
    StripeInvoice.mk "in_1" "open"
      (Some (StripeSubscription.mk "sub_1" "" None 0 0 false)) in
  let paid :=
    StripeInvoice.mk "in_2" "paid"
      (Some (StripeSubscription.mk "sub_1" "" None 0 0 false)) in
  let w1 := snd (handleInvoicePaymentFailed 200 failed
                   (mkWorld Delivery.subscribed [])) in
  let w2 := snd (handleInvoicePaid 300 paid w1) in
  map Subscription.Status (subscriptions (tables w1)) = ["past_due"]
  /\ forall r, In r (subscriptions (tables w2)) ->
               Subscription.StripeSubscriptionID r = "sub_1" ->
               Subscription.Status r = "active".
Proof.
  intros failed paid w1 w2. split; [reflexivity|].
  exact (proj1 (proj2 (X27_payment_failure_then_payment 200 300 failed paid
                         (StripeSubscription.mk "sub_1" "" None 0 0 false)
                         (StripeSubscription.mk "sub_1" "" None 0 0 false)
                         (mkWorld Delivery.subscribed [])
                         eq_refl eq_refl eq_refl ltac:(discriminate) eq_refl))).
Defined.

(** X28. After a failed payment the user is no longer shown the
    subscription: when all active subscriptions of a user belong to the
    invoice's provider subscription, the user's request for their
    subscription gets the nil answer once the payment-failed event was
    processed. *)
Theorem X28_payment_failure_hides_the_subscription
    (now : Time) (invoice : StripeInvoice.t) (s : StripeSubscription.t)
    (user : User.t) (w : World) :
  StripeInvoice.Subscription invoice = Some s ->
  StripeSubscription.ID s <> "" ->
  (forall row, In row (subscriptions (tables w)) ->
               Subscription.UserID row = User.ID user ->
               Subscription.Status row = "active" ->
               Subscription.StripeSubscriptionID row = StripeSubscription.ID s) ->
  fst (GetSubscription (ctx_User (Some user))
         (snd (handleInvoicePaymentFailed now invoice w)))
  = inl None.
Proof.
  intros Hs Hid Hall. apply GetSubscription_none.
  destruct (payment_failed_tables now invoice s w Hs Hid) as [Ht _].
  rewrite Ht. intros row Hrow.
  destruct (sub_active_of (User.ID user) row) eqn:Ha; [|reflexivity].
  exfalso. apply sub_active_of_iff in Ha. destruct Ha as [Hu Hst].
  destruct (tables w) as [us invs ms ps ss]; simpl in *.
  destruct (String.eqb (Subscription.StripeSubscriptionID row)
              (StripeSubscription.ID s)) eqn:E.
  - apply String.eqb_eq in E.
    rewrite (proj1 (status_update_rows _ _ _ _ row Hrow) E) in Hst.
    discriminate.
  - apply String.eqb_neq in E.
    pose proof (proj2 (status_update_rows _ _ _ _ row Hrow) E) as Hin.
    exact (E (Hall row Hin Hu Hst)).
Qed.

Lemma X28_payment_failure_witness :
  let invoice :=
    StripeInvoice.mk "in_1" "open"
      (Some (StripeSubscription.mk "sub_1" "" None 0 0 false)) in
  fst (GetSubscription (ctx_User (Some Sample.alice))
         (mkWorld Delivery.subscribed []))
  = inl (Some (types_Subscription.mk 77 1 "pro" "active" 1000 2000))
  /\ fst (GetSubscription (ctx_User (Some Sample.alice))
            (snd (handleInvoicePaymentFailed 200 invoice
                    (mkWorld Delivery.subscribed []))))
     = inl None.
Proof.
  intros invoice. split; [reflexivity|].
  apply (X28_payment_failure_hides_the_subscription 200 invoice
           (StripeSubscription.mk "sub_1" "" None 0 0 false) Sample.alice
           (mkWorld Delivery.subscribed []) eq_refl ltac:(discriminate)).
  intros row Hin _ _. vm_compute in Hin. destruct Hin as [<-|[]]. reflexivity.
Defined.

(** ** Subscription events on a known subscription *)

Lemma updated_shape now sub w w' existing :
  First sub_ltb (sub_by_stripe_id (StripeSubscription.ID sub))
    (subscriptions (tables w)) = Some existing ->
  handleSubscriptionUpdated now sub w = (Returns None, w') ->
  exists planID,
    (planID = Subscription.PlanID existing
     \/ exists item rest price plan,
          StripeSubscription.Items sub = Some (Some item :: rest)
          /\ StripeSubscriptionItem.Price item = Some price
          /\ First plan_ltb (plan_by_price (StripePrice.ID price))
               (plans (tables w)) = Some plan
          /\ planID = Plan.ID plan)
    /\ tables w'
       = set_subscriptions
           (UpdateWhere
              (fun r => (Subscription.ID r =? Subscription.ID existing)%N)
              (fun r =>
                 Subscription.mk (Subscription.ID r) (Subscription.UserID r)
                   planID (Subscription.StripeSubscriptionID r)
                   (StripeSubscription.Status sub)
                   (StripeSubscription.CurrentPeriodStart sub)
                   (StripeSubscription.CurrentPeriodEnd sub)
                   (StripeSubscription.CancelAtPeriodEnd sub)
                   (Subscription.CreatedAt r) now)
              (subscriptions (tables w)))
           (tables w).
Proof.
  intros Hfirst.
  unfold handleSubscriptionUpdated, TransactionBy, UpdateSubscriptionFromEvent,
    FindPlanByPrice, statement, bind, query, ret. simpl.
  rewrite Hfirst.
  destruct (StripeSubscription.Items sub) as [[|[item|] rest]|] eqn:Ei; simpl;
    try discriminate.
  - intros H. injection H as <-. simpl.
    exists (Subscription.PlanID existing). split; [left|]; reflexivity.
  - destruct (StripeSubscriptionItem.Price item) as [price|] eqn:Ep; simpl.
    + destruct (First plan_ltb _ _) as [plan|] eqn:Eplan; simpl;
        intros H; injection H as <-; simpl.
      * exists (Plan.ID plan). split; [right|reflexivity].
        exists item, rest, price, plan. auto.
      * exists (Subscription.PlanID existing). split; [left|]; reflexivity.
    + intros H. injection H as <-. simpl.
      exists (Subscription.PlanID existing). split; [left|]; reflexivity.
Qed.

(** X29. A subscription-updated event on a known subscription writes the
    event's status, period and cancel-at-period-end flag into its row, the
    flag also when it is false; the row keeps its user and its provider
    id, its plan is kept or becomes a stored plan, no row is added or
    removed, and rows with another identifier are untouched. *)
Theorem X29_update_event_overwrites_status_period_and_flag
    (now : Time) (sub : StripeSubscription.t) (w w' : World)
    (existing : Subscription.t) :
  First sub_ltb (sub_by_stripe_id (StripeSubscription.ID sub))
    (subscriptions (tables w)) = Some existing ->
  handleSubscriptionUpdated now sub w = (Returns None, w') ->
  exists planID,
    (planID = Subscription.PlanID existing
     \/ exists plan, In plan (plans (tables w)) /\ planID = Plan.ID plan)
    /\ In (Subscription.mk (Subscription.ID existing)
             (Subscription.UserID existing) planID
             (StripeSubscription.ID sub) (StripeSubscription.Status sub)
             (StripeSubscription.CurrentPeriodStart sub)
             (StripeSubscription.CurrentPeriodEnd sub)
             (StripeSubscription.CancelAtPeriodEnd sub)
             (Subscription.CreatedAt existing) now)
          (subscriptions (tables w'))
    /\ (forall r, In r (subscriptions (tables w')) ->
                  Subscription.ID r = Subscription.ID existing ->
                  Subscription.Status r = StripeSubscription.Status sub
                  /\ Subscription.CancelAtPeriodEnd r
                     = StripeSubscription.CancelAtPeriodEnd sub)
    /\ (forall r, In r (subscriptions (tables w')) ->
                  Subscription.ID r <> Subscription.ID existing ->
                  In r (subscriptions (tables w)))
    /\ List.length (subscriptions (tables w'))
       = List.length (subscriptions (tables w)).
Proof.
  intros Hfirst Hrun.
  destruct (updated_shape now sub w w' existing Hfirst Hrun)
    as (planID & Hplan & Ht).
  pose proof (First_Some _ _ _ _ Hfirst) as [Hin Hc].
  unfold sub_by_stripe_id in Hc. apply String.eqb_eq in Hc.
  exists planID. split; [|split; [|split; [|split]]].
  - destruct Hplan as [->|(item & rest & price & plan & _ & _ & Hp & ->)];
      [left; reflexivity|].
    right. exists plan. split; [|reflexivity].
    exact (proj1 (First_Some _ _ _ _ Hp)).
  - rewrite Ht. destruct (tables w); simpl in *.
    unfold UpdateWhere. apply in_map_iff. exists existing.
    rewrite N.eqb_refl, Hc. split; [reflexivity|exact Hin].
  - intros r Hr Hid. rewrite Ht in Hr. destruct (tables w); simpl in *.
    unfold UpdateWhere in Hr. apply in_map_iff in Hr.
    destruct Hr as [r0 [E Hr0]].
    destruct (Subscription.ID r0 =? Subscription.ID existing)%N eqn:C.
    + subst r. simpl. split; reflexivity.
    + subst r. apply N.eqb_neq in C. contradiction.
  - intros r Hr Hid. rewrite Ht in Hr. destruct (tables w); simpl in *.
    unfold UpdateWhere in Hr. apply in_map_iff in Hr.
    destruct Hr as [r0 [E Hr0]].
    destruct (Subscription.ID r0 =? Subscription.ID existing)%N eqn:C.
    + subst r. simpl in Hid. apply N.eqb_eq in C. contradiction.
    + subst r. exact Hr0.
  - rewrite Ht. destruct (tables w); simpl. unfold UpdateWhere.
    apply length_map.
Qed.

Lemma X29_update_event_witness :
  let resumed := StripeSubscription.mk "sub_1" "active" (Some []) 2000 3000 false in
  let w1 := snd (handleSubscriptionUpdated 200 Sample.cancelling
                   (mkWorld Delivery.subscribed [])) in
  let w2 := snd (handleSubscriptionUpdated 300 resumed w1) in
  map Subscription.CancelAtPeriodEnd (subscriptions (tables w1)) = [true]
  /\ forall r, In r (subscriptions (tables w2)) ->
               Subscription.ID r = 77%N ->
               Subscription.Status r = "active"
               /\ Subscription.CancelAtPeriodEnd r = false.
Proof.
  intros resumed w1 w2. split; [reflexivity|].
  destruct (X29_update_event_overwrites_status_period_and_flag 300 resumed w1 w2
              (Subscription.mk 77 1 "pro" "sub_1" "active" 1000 2000 true 100 200)
              eq_refl eq_refl)
    as (planID & _ & _ & H & _).
  exact H.
Defined.

(** ** A first checkout *)



